(** * Lifecycle control of local and remote Splunk instances

    A shallow embedding of [helmut/splunk/local.py] ([LocalSplunk]) and
    [helmut/splunk/ssh.py] ([SSHSplunk]).

    Python 2 [str] values are Rocq strings, exit codes are integers, and a
    method that touches the outside world is a function from a state to an
    outcome (a value or a raised exception) and a new state.  The state
    holds the outside world, the two cached ports of the instance and the
    sequence of calls issued to the collaborators.  The collaborators whose
    code is not part of the two modules (the operating system, the archiver,
    the file utilities, the SSH connection, the listener registry of the
    base class) are the fields of a record, [Host]; every theorem holds for
    every such record, and a small in-memory host, [Fake], is used to run
    the methods on concrete inputs. *)

From Stdlib Require Import String Ascii List ZArith Bool Arith Lia.
From Stdlib Require Import DecimalString.
Import ListNotations.
Open Scope string_scope.

(** ** Python strings *)

Module PyStr.

Definition LF : ascii := ascii_of_nat 10.

(** [str.isspace] on one character in the C locale: space, and the
    characters 9 to 13 (tab, line feed, vertical tab, form feed, carriage
    return). *)
Definition isspace (c : ascii) : bool :=
  let n := nat_of_ascii c in
  Nat.eqb n 32 || (Nat.leb 9 n && Nat.leb n 13).

Fixpoint lstrip (s : string) : string :=
  match s with
  | String c r => if isspace c then lstrip r else s
  | EmptyString => EmptyString
  end.

Fixpoint rstrip (s : string) : string :=
  match s with
  | String c r =>
      match rstrip r with
      | EmptyString => if isspace c then EmptyString else String c EmptyString
      | r' => String c r'
      end
  | EmptyString => EmptyString
  end.

(** [s.strip()] *)
Definition strip (s : string) : string := lstrip (rstrip s).

(** [s.split('\n')]: never the empty list. *)
Fixpoint split_lines (s : string) : list string :=
  match s with
  | EmptyString => [EmptyString]
  | String c r =>
      if Ascii.eqb c LF then EmptyString :: split_lines r
      else match split_lines r with
           | h :: t => String c h :: t
           | [] => [String c EmptyString]
           end
  end.

(** [l[-1]] on a list that is never empty here. *)
Definition last_item (l : list string) : string := List.last l EmptyString.

(** [needle in hay] *)
Fixpoint contains (needle hay : string) : bool :=
  match hay with
  | EmptyString => String.prefix needle EmptyString
  | String _ r => String.prefix needle hay || contains needle r
  end.

(** [s.endswith(c)] for a single character. *)
Fixpoint endswith_char (c : ascii) (s : string) : bool :=
  match s with
  | EmptyString => false
  | String d EmptyString => Ascii.eqb c d
  | String _ r => endswith_char c r
  end.

Definition digit_value (c : ascii) : option Z :=
  let n := nat_of_ascii c in
  if Nat.leb 48 n && Nat.leb n 57 then Some (Z.of_nat (n - 48)) else None.

Fixpoint digits_value (s : string) (acc : Z) : option Z :=
  match s with
  | EmptyString => Some acc
  | String c r =>
      match digit_value c with
      | Some d => digits_value r (10 * acc + d)
      | None => None
      end
  end.

Definition decimal (s : string) : option Z :=
  match s with
  | EmptyString => None
  | _ => digits_value s 0
  end.

(** The sign of a stripped literal, and what follows the sign. *)
Definition is_negative (t : string) : bool :=
  match t with
  | String "-" _ => true
  | _ => false
  end.

Definition unsigned_part (t : string) : string :=
  match t with
  | String "+" r => r
  | String "-" r => r
  | _ => t
  end.

(** [int(s)] on a [str], base 10, as the language reference gives it: a
    possibly signed decimal number, possibly embedded in whitespace.
    [None] stands for the [ValueError] of an invalid literal. *)
Definition int_of_str (s : string) : option Z :=
  let t := strip s in
  option_map (fun v => if is_negative t then Z.opp v else v) (decimal (unsigned_part t)).

Definition nonempty (s : string) : bool :=
  match s with
  | EmptyString => false
  | _ => true
  end.

Definition isdigit (c : ascii) : bool :=
  let n := nat_of_ascii c in Nat.leb 48 n && Nat.leb n 57.

Fixpoint all_digits (s : string) : bool :=
  match s with
  | EmptyString => true
  | String c r => isdigit c && all_digits r
  end.

(** A decimal integer literal: optional whitespace around an optional
    sign and at least one digit. *)
Definition is_decimal_integer (s : string) : bool :=
  let u := unsigned_part (strip s) in
  nonempty u && all_digits u.

(** A string of whitespace only, and the lines of a text once its trailing
    whitespace is gone: the blank lines at the end are dropped and the last
    line that is left loses its trailing whitespace. *)
Definition blank (s : string) : bool := negb (nonempty (rstrip s)).

Fixpoint rtrim_lines (ls : list string) : list string :=
  match ls with
  | [] => []
  | l :: r =>
      match rtrim_lines r with
      | [] => if blank l then [] else [rstrip l]
      | r' => l :: r'
      end
  end.

(** [a or b] where [a] is [None] or a [str]: the empty string is false. *)
Definition str_or (a : option string) (b : string) : string :=
  match a with
  | Some (String _ _ as x) => x
  | _ => b
  end.

End PyStr.

(** ** [os.path] on a POSIX system *)

Module PosixPath.

Definition isabs (p : string) : bool :=
  match p with
  | String "/" _ => true
  | _ => false
  end.

(** One step of [os.path.join]: an absolute component resets the path, an
    empty path or one that ends in a slash takes the component as it is,
    and otherwise a slash is inserted. *)
Definition join2 (a b : string) : string :=
  if isabs b then b
  else if negb (PyStr.nonempty a) || PyStr.endswith_char "/" a then a ++ b
  else a ++ "/" ++ b.

(** [os.path.join(a, *p)] *)
Definition join (a : string) (p : list string) : string := fold_left join2 p a.

End PosixPath.

(** ** Exceptions *)

Inductive exn : Type :=
| SplunkNotInstalled
| BinaryMissing (binary : string)
| CommandExecutionFailure (command : string) (code : Z) (stdout stderr : string)
| CouldNotStartSplunk (command : string) (code : Z) (stdout stderr : string)
| CouldNotStopSplunk (command : string) (code : Z) (stdout stderr : string)
| CouldNotFindSplunkDirectory
| ValueError
| NameError (name : string)
| External (why : string).

(** What a collaborator gives back: a value, or an exception of its own. *)
Inductive reply (A : Type) : Type :=
| Done (a : A)
| Failed (why : string).
Arguments Done {A} a.
Arguments Failed {A} why.

(** The calls issued to the collaborators, in the order they are issued. *)
Inductive call : Type :=
| Popen (argv : list string)
| SSHExecute (cmd : string)
| ArchiverExtract (archive dest : string)
| ForceRemoveDirectory (path : string)
| ForceMoveDirectory (src dst : string)
| SSHSend (src dst : string)
| SSHForceRemoveTree (path : string)
| Mkdtemp (path : string)
| Makedirs (path : string)
| NotifyListeners.

(** ** The collaborators *)

Record Host (W : Type) : Type := {
  (* os, os.path, shlex, subprocess, tempfile; [shlex.split] on argument
     strings it accepts (the commands of the two modules carry no quote) *)
  os_path_isfile : string -> W -> bool;
  os_path_exists : string -> W -> bool;
  os_listdir : string -> W -> list string;
  os_makedirs : string -> W -> reply unit * W;
  shlex_split : string -> list string;
  subprocess_communicate : list string -> W -> (Z * string * string) * W;
  tempfile_mkdtemp : W -> string * W;
  tempfile_gettempdir : W -> string;
  (* helmut.util.archiver, helmut.util.fileutils *)
  archiver_extract : string -> string -> W -> reply unit * W;
  fileutils_force_remove_directory : string -> W -> W;
  fileutils_force_move_directory : string -> string -> W -> reply unit * W;
  (* helmut.ssh.connection: SSHConnection and its file_utils *)
  ssh_isfile : string -> W -> bool;
  ssh_isdir : string -> W -> bool;
  ssh_execute : string -> W -> (Z * string * string) * W;
  ssh_send : string -> string -> W -> reply unit * W;
  ssh_force_remove_tree : string -> W -> W;
  (* helmut.splunk.base: the registered start listeners *)
  notify_listeners : W -> reply unit * W
}.

Arguments os_path_isfile {W}.
Arguments os_path_exists {W}.
Arguments os_listdir {W}.
Arguments os_makedirs {W}.
Arguments shlex_split {W}.
Arguments subprocess_communicate {W}.
Arguments tempfile_mkdtemp {W}.
Arguments tempfile_gettempdir {W}.
Arguments archiver_extract {W}.
Arguments fileutils_force_remove_directory {W}.
Arguments fileutils_force_move_directory {W}.
Arguments ssh_isfile {W}.
Arguments ssh_isdir {W}.
Arguments ssh_execute {W}.
Arguments ssh_send {W}.
Arguments ssh_force_remove_tree {W}.
Arguments notify_listeners {W}.

(** ** State and the command monad *)

Record state (W : Type) : Type := mkState {
  world : W;
  _splunkd_port : option Z;
  _web_port : option Z;
  calls : list call
}.
Arguments mkState {W}.
Arguments world {W}.
Arguments _splunkd_port {W}.
Arguments _web_port {W}.
Arguments calls {W}.

Inductive outcome (A : Type) : Type :=
| Ok (a : A)
| Raise (e : exn).
Arguments Ok {A} a.
Arguments Raise {A} e.

Definition M (W A : Type) : Type := state W -> outcome A * state W.

Definition ret {W A} (a : A) : M W A := fun s => (Ok a, s).

Definition raise {W A} (e : exn) : M W A := fun s => (Raise e, s).

Definition bind {W A B} (m : M W A) (k : A -> M W B) : M W B :=
  fun s =>
    match m s with
    | (Ok a, s') => k a s'
    | (Raise e, s') => (Raise e, s')
    end.

(** [try: body finally: cleanup].  The cleanup runs on every exit of the
    body; an exception of the cleanup replaces the outcome of the body. *)
Definition try_finally {W A} (body : M W A) (cleanup : M W unit) : M W A :=
  fun s =>
    let (r, s1) := body s in
    match cleanup s1 with
    | (Ok _, s2) => (r, s2)
    | (Raise e, s2) => (Raise e, s2)
    end.

Declare Scope cmd_scope.
Delimit Scope cmd_scope with cmd.
Notation "x <- c1 ;; c2" := (bind c1 (fun x => c2))
  (at level 61, c1 at next level, right associativity) : cmd_scope.
Notation "' pat <- c1 ;; c2" := (bind c1 (fun x => match x with pat => c2 end))
  (at level 61, pat pattern, c1 at next level, right associativity) : cmd_scope.
Notation "c1 ;; c2" := (bind c1 (fun _ => c2))
  (at level 61, right associativity) : cmd_scope.
Open Scope cmd_scope.

(** A query of the outside world. *)
Definition ask {W A} (q : W -> A) : M W A := fun s => (Ok (q (world s)), s).

(** The state once call [c] has been issued and has left the world [w]. *)
Definition record_call {W} (s : state W) (c : call) (w : W) : state W :=
  mkState w (_splunkd_port s) (_web_port s) (calls s ++ [c]).

(** A call of a collaborator that cannot fail. *)
Definition perform {W A} (c : call) (f : W -> A * W) : M W A :=
  fun s => let (a, w) := f (world s) in (Ok a, record_call s c w).

(** A call of a collaborator that may raise. *)
Definition attempt {W A} (c : call) (f : W -> reply A * W) : M W A :=
  fun s =>
    let (r, w) := f (world s) in
    match r with
    | Done a => (Ok a, record_call s c w)
    | Failed why => (Raise (External why), record_call s c w)
    end.

Definition set_splunkd_port {W} (p : option Z) : M W unit :=
  fun s => (Ok tt, mkState (world s) p (_web_port s) (calls s)).

Definition set_web_port {W} (p : option Z) : M W unit :=
  fun s => (Ok tt, mkState (world s) (_splunkd_port s) p (calls s)).

(** ** The two classes *)

Inductive class : Type := LocalSplunk | SSHSplunk.

(** An instance: its class and its [_splunk_home].  The cached ports are
    part of the state, since the methods assign them.  [__init__] stores
    [os.path.abspath(splunk_home)], so the home of a new instance is
    absolute; the setter of [splunk_home] stores any string, and the
    properties that need an absolute home say so. *)
Record Splunk : Type := mkSplunk {
  cls : class;
  _splunk_home : string
}.

Definition COMMON_FLAGS : string := "--accept-license --no-prompt --answer-yes".

Definition _POSSIBLE_ARCHIVE_DIRECTORIES : list string :=
  ["splunk"; "splunkforwarder"; "splunkbeta"; "splunkforwarderbeta"].

(** [name in entries] *)
Definition name_in (name : string) (entries : list string) : bool :=
  existsb (String.eqb name) entries.

(** The loop of [_find_archive_directory_name]: the candidates in order,
    the first one found among the entries is joined to the directory. *)
Fixpoint find_archive_directory (names entries : list string) (directory : string)
  : outcome string :=
  match names with
  | [] => Raise CouldNotFindSplunkDirectory
  | name :: rest =>
      if name_in name entries then Ok (PosixPath.join directory [name])
      else find_archive_directory rest entries directory
  end.

Section Methods.

Context {W : Type} (H : Host W) (self : Splunk).

(** *** Binary location *)

Definition LocalSplunk_get_binary_path (binary : string) : string :=
  if PosixPath.isabs binary then binary
  else PosixPath.join (_splunk_home self) ["bin"; binary].

Definition SSHSplunk_get_binary_path (binary : string) (w : W) : string :=
  let splunk_binary_path := PosixPath.join (_splunk_home self) ["bin"; binary] in
  if ssh_isfile H splunk_binary_path w then splunk_binary_path
  else
    let splunk_binary_path := PosixPath.join (_splunk_home self) ["splunk"; "bin"; binary] in
    if ssh_isfile H splunk_binary_path w then splunk_binary_path
    else PosixPath.join (_splunk_home self) ["bin"; binary].

Definition get_binary_path (binary : string) (w : W) : string :=
  match cls self with
  | LocalSplunk => LocalSplunk_get_binary_path binary
  | SSHSplunk => SSHSplunk_get_binary_path binary w
  end.

Definition splunk_binary (w : W) : string := get_binary_path "splunk" w.

(** Both classes resolve [binary or self.splunk_binary] and test the
    result; the local class asks the local file system, the remote class
    (its second definition of the method, which is the one in force) asks
    the file utilities of the connection. *)
Definition _binary_exists (binary : option string) (w : W) : bool :=
  let binary := get_binary_path (PyStr.str_or binary (splunk_binary w)) w in
  match cls self with
  | LocalSplunk => os_path_isfile H (PyStr.str_or (Some binary) (splunk_binary w)) w
  | SSHSplunk => ssh_isfile H (PyStr.str_or (Some binary) (splunk_binary w)) w
  end.

Definition is_installed : M W bool := ask (_binary_exists None).

(** *** Command execution *)

Definition _validate_binary (binary : string) : M W unit :=
  found <- ask (_binary_exists (Some binary)) ;;
  if found then ret tt else raise (BinaryMissing binary).

Definition LocalSplunk_execute_with_binary (binary command : string)
  : M W (Z * string * string) :=
  binary <- ask (get_binary_path binary) ;;
  _validate_binary binary ;;
  let cmd := binary :: shlex_split H command in
  perform (Popen cmd) (subprocess_communicate H cmd).

Definition SSHSplunk_execute_with_binary (binary command : string)
  : M W (Z * string * string) :=
  binary <- ask (get_binary_path binary) ;;
  _validate_binary binary ;;
  let cmd := binary ++ " " ++ command in
  perform (SSHExecute cmd) (ssh_execute H cmd).

Definition execute_with_binary (binary command : string) : M W (Z * string * string) :=
  match cls self with
  | LocalSplunk => LocalSplunk_execute_with_binary binary command
  | SSHSplunk => SSHSplunk_execute_with_binary binary command
  end.

(** [execute_without_common_flags] and [execute] are written twice, with
    the same text in both classes.  The class [SplunkNotInstalled] is
    defined in local.py, and ssh.py imports from that module the name
    [LocalSplunk] only: in the remote class the statement
    [raise SplunkNotInstalled] cannot look the name up, and what it raises
    is Python's [NameError] for that name. *)
Definition LocalSplunk_execute_without_common_flags (command : string)
  : M W (Z * string * string) :=
  found <- ask (_binary_exists None) ;;
  if negb found then raise SplunkNotInstalled
  else
    binary <- ask splunk_binary ;;
    execute_with_binary binary command.

Definition SSHSplunk_execute_without_common_flags (command : string)
  : M W (Z * string * string) :=
  found <- ask (_binary_exists None) ;;
  if negb found then raise (NameError "SplunkNotInstalled")
  else
    binary <- ask splunk_binary ;;
    execute_with_binary binary command.

Definition execute_without_common_flags (command : string) : M W (Z * string * string) :=
  match cls self with
  | LocalSplunk => LocalSplunk_execute_without_common_flags command
  | SSHSplunk => SSHSplunk_execute_without_common_flags command
  end.

Definition execute (command : string) : M W (Z * string * string) :=
  let command := command ++ " " ++ COMMON_FLAGS in
  execute_without_common_flags command.

(** *** Status, version, ports *)

Definition is_running : M W bool :=
  installed <- is_installed ;;
  if installed then
    ' (_, stdout, _) <- execute "status" ;;
    ret (PyStr.contains "splunkd is running" stdout)
  else ret false.

Definition version : M W string :=
  let cmd := "version" in
  ' (code, stdout, stderr) <- execute cmd ;;
  if negb (Z.eqb code 0) then raise (CommandExecutionFailure cmd code stdout stderr)
  else ret (PyStr.strip stdout).

Definition _read_port_from_command (command : string) : M W (option Z) :=
  found <- ask (_binary_exists None) ;;
  if negb found then ret None
  else
    ' (code, stdout, _) <- execute command ;;
    if negb (Z.eqb code 0) then ret None
    else
      match PyStr.int_of_str (PyStr.last_item (PyStr.split_lines (PyStr.strip stdout))) with
      | Some port => ret (Some port)
      | None => raise ValueError
      end.

Definition _read_splunkd_port : M W (option Z) := _read_port_from_command "soapport".

Definition _read_web_port : M W (option Z) := _read_port_from_command "httpport".

Definition update_ports_from_splunk : M W unit :=
  port <- _read_splunkd_port ;;
  set_splunkd_port port ;;
  port <- _read_web_port ;;
  set_web_port port.

Definition _notify_listeners_of_splunk_start : M W unit :=
  attempt NotifyListeners (notify_listeners H).

Definition _splunk_has_started : M W unit :=
  update_ports_from_splunk ;;
  _notify_listeners_of_splunk_start.

(** *** Start and stop *)

Definition _verify_splunk_is_running (command : string) (code : Z) (stdout stderr : string)
  : M W unit :=
  running <- is_running ;;
  if negb running then raise (CouldNotStartSplunk command code stdout stderr)
  else ret tt.

Definition _verify_splunk_is_not_running (command : string) (code : Z) (stdout stderr : string)
  : M W unit :=
  running <- is_running ;;
  if running then raise (CouldNotStopSplunk command code stdout stderr)
  else ret tt.

Definition start_command (auto_ports : bool) : string :=
  let flags := if auto_ports then " --auto-ports" else "" in
  "start" ++ flags.

(** [start]: the version query sits in the argument of the log call that
    precedes the verification. *)
Definition start (auto_ports : bool) : M W Z :=
  let cmd := start_command auto_ports in
  ' (code, stdout, stderr) <- execute cmd ;;
  _ <- version ;;
  _verify_splunk_is_running cmd code stdout stderr ;;
  _splunk_has_started ;;
  ret code.

(** [stop] gives the exit code in [LocalSplunk] and nothing ([None]) in
    [SSHSplunk]. *)
Definition LocalSplunk_stop : M W (option Z) :=
  let cmd := "stop" in
  ' (code, stdout, stderr) <- execute cmd ;;
  _verify_splunk_is_not_running cmd code stdout stderr ;;
  ret (Some code).

Definition SSHSplunk_stop : M W (option Z) :=
  let cmd := "stop" in
  ' (code, stdout, stderr) <- execute cmd ;;
  ret None.

Definition stop : M W (option Z) :=
  match cls self with
  | LocalSplunk => LocalSplunk_stop
  | SSHSplunk => SSHSplunk_stop
  end.

Definition _stop_splunk_if_needed : M W unit :=
  running <- is_running ;;
  if running then stop ;; ret tt else ret tt.

(** *** Uninstall *)

Definition force_remove_directory (path : string) : M W unit :=
  perform (ForceRemoveDirectory path)
          (fun w => (tt, fileutils_force_remove_directory H path w)).

Definition LocalSplunk_uninstall : M W unit :=
  _stop_splunk_if_needed ;;
  force_remove_directory (_splunk_home self).

Definition SSHSplunk_uninstall : M W unit :=
  _stop_splunk_if_needed ;;
  perform (SSHForceRemoveTree (_splunk_home self))
          (fun w => (tt, ssh_force_remove_tree H (_splunk_home self) w)).

Definition uninstall : M W unit :=
  match cls self with
  | LocalSplunk => LocalSplunk_uninstall
  | SSHSplunk => SSHSplunk_uninstall
  end.

(** *** Install from an archive *)

Definition mkdtemp : M W string :=
  fun s =>
    let (directory, w) := tempfile_mkdtemp H (world s) in
    (Ok directory, record_call s (Mkdtemp directory) w).

Definition _find_archive_directory_name (directory : string) : M W string :=
  entries <- ask (os_listdir H directory) ;;
  fun s => (find_archive_directory _POSSIBLE_ARCHIVE_DIRECTORIES entries directory, s).

Definition _move_extracted_splunk_to_splunk_home (source : string) : M W unit :=
  match cls self with
  | LocalSplunk =>
      attempt (ForceMoveDirectory source (_splunk_home self))
              (fileutils_force_move_directory H source (_splunk_home self))
  | SSHSplunk =>
      attempt (SSHSend source (_splunk_home self))
              (ssh_send H source (_splunk_home self))
  end.

Definition _install_archive_with_temp_directory (archive_path directory : string)
  : M W unit :=
  attempt (ArchiverExtract archive_path directory)
          (archiver_extract H archive_path directory) ;;
  source <- _find_archive_directory_name directory ;;
  _move_extracted_splunk_to_splunk_home source.

Definition install_from_archive (archive_path : string) : M W unit :=
  _stop_splunk_if_needed ;;
  directory <- mkdtemp ;;
  try_finally (_install_archive_with_temp_directory archive_path directory)
              (force_remove_directory directory).

(** *** Apps *)

Definition apps_dir : string := PosixPath.join (_splunk_home self) ["etc"; "apps"].

Definition _path_to_app (name : string) : string := PosixPath.join apps_dir [name].

Definition SSHSplunk_has_app (name : string) (w : W) : bool :=
  ssh_isdir H (_path_to_app name) w.

(** [LocalSplunk.install_app] gives nothing back, [SSHSplunk.install_app]
    a boolean. *)
Definition LocalSplunk_install_app (name package : string) : M W (option bool) :=
  attempt (ArchiverExtract package apps_dir) (archiver_extract H package apps_dir) ;;
  ret None.

Definition _install_app_with_tempdir (name package path : string) : M W unit :=
  attempt (ArchiverExtract package path) (archiver_extract H package path) ;;
  attempt (SSHSend path (_path_to_app name)) (ssh_send H path (_path_to_app name)).

Definition SSHSplunk_install_app (name package : string) : M W (option bool) :=
  present <- ask (SSHSplunk_has_app name) ;;
  if negb present then ret (Some false)
  else
    tmp <- ask (tempfile_gettempdir H) ;;
    let path := PosixPath.join tmp ["ssh_splunk_temp_" ++ name] in
    try_finally
      (attempt (Makedirs path) (os_makedirs H path) ;;
       _install_app_with_tempdir name package path ;;
       ret (Some true))
      (force_remove_directory path).

Definition install_app (name package : string) : M W (option bool) :=
  match cls self with
  | LocalSplunk => LocalSplunk_install_app name package
  | SSHSplunk => SSHSplunk_install_app name package
  end.

(** *** The transport seen from outside

    What the transport does when the splunk binary is run with a full
    argument string in world [w]: the local class runs a child process on
    the tokenised arguments, the remote class sends one command line. *)
Definition transport_call (arguments : string) (w : W) : call :=
  match cls self with
  | LocalSplunk => Popen (splunk_binary w :: shlex_split H arguments)
  | SSHSplunk => SSHExecute (splunk_binary w ++ " " ++ arguments)
  end.

Definition transport_run (arguments : string) (w : W) : (Z * string * string) * W :=
  match cls self with
  | LocalSplunk => subprocess_communicate H (splunk_binary w :: shlex_split H arguments) w
  | SSHSplunk => ssh_execute H (splunk_binary w ++ " " ++ arguments) w
  end.

(** The full argument string of a splunk command. *)
Definition with_flags (command : string) : string := command ++ " " ++ COMMON_FLAGS.

(** What the transport answers to a splunk command in world [w], the world
    it leaves, and the state after the command has been issued. *)
Definition run_reply (command : string) (w : W) : Z * string * string :=
  fst (transport_run (with_flags command) w).

Definition run_world (command : string) (w : W) : W :=
  snd (transport_run (with_flags command) w).

Definition run_state (command : string) (s : state W) : state W :=
  record_call s (transport_call (with_flags command) (world s))
              (run_world command (world s)).

Definition exit_code (r : Z * string * string) : Z := fst (fst r).

Definition stdout_of (r : Z * string * string) : string := snd (fst r).

Definition stderr_of (r : Z * string * string) : string := snd r.

(** The status probe as the transport answers it in world [w]. *)
Definition status_reports_running (w : W) : bool :=
  PyStr.contains "splunkd is running" (stdout_of (run_reply "status" w)).

End Methods.

Arguments start_command : simpl never.

(** ** Notions of the specification

    Two notions are written after the words of the specification rather
    than after the code, to be compared with what the code computes. *)

(** "The last non-empty line of stdout": the lines are the pieces between
    line feeds, and the last one that has at least one character is taken
    (the empty string if there is none). *)
Definition last_nonempty_line (stdout : string) : string :=
  List.last (filter PyStr.nonempty (PyStr.split_lines stdout)) EmptyString.

(** "The first name of the candidate list that appears among the
    entries". *)
Definition first_candidate_present (candidates entries : list string) : option string :=
  find (fun name => name_in name entries) candidates.

(** ** Exceptions a command can raise *)

(** The two exceptions raised by the verification steps. *)
Definition is_verification_failure (e : exn) : bool :=
  match e with
  | CouldNotStartSplunk _ _ _ _ => true
  | CouldNotStopSplunk _ _ _ _ => true
  | _ => false
  end.

(** Every exception that [m] can raise satisfies [P]. *)
Definition raises_only {W A} (P : exn -> Prop) (m : M W A) : Prop :=
  forall s e s', m s = (Raise e, s') -> P e.

Definition plain (e : exn) : Prop := is_verification_failure e = false.

(** ** An in-memory host *)

Module Fake.

Inductive node : Type := File | Dir.

Definition is_file (n : node) : bool :=
  match n with
  | File => true
  | Dir => false
  end.

(** How the splunk binary of the fake answers. *)
Record behaviour : Type := mkBehaviour {
  start_code : Z;
  start_works : bool;
  stop_code : Z;
  stop_works : bool;
  version_code : Z;
  soapport_stdout : string;
  httpport_stdout : string;
  archives : list (string * list (string * node))
}.

Record world : Type := mkWorld {
  local_fs : list (string * node);
  remote_fs : list (string * node);
  running : bool;
  temp_count : nat
}.

Definition has_path (p : string) (fs : list (string * node)) : bool :=
  existsb (fun e => String.eqb (fst e) p) fs.

Definition has_file (p : string) (fs : list (string * node)) : bool :=
  existsb (fun e => String.eqb (fst e) p && is_file (snd e)) fs.

Definition has_dir (p : string) (fs : list (string * node)) : bool :=
  existsb (fun e => String.eqb (fst e) p && negb (is_file (snd e))) fs.

(** [p] is [d] or lies under [d]. *)
Definition within (d p : string) : bool :=
  String.eqb p d || String.prefix (d ++ "/") p.

Definition remove_tree (d : string) (fs : list (string * node)) : list (string * node) :=
  filter (fun e => negb (within d (fst e))) fs.

Definition drop (n : nat) (s : string) : string :=
  String.substring n (String.length s - n) s.

Definition listdir (d : string) (fs : list (string * node)) : list string :=
  flat_map
    (fun e =>
       if String.prefix (d ++ "/") (fst e) then
         let rest := drop (String.length d + 1) (fst e) in
         if PyStr.contains "/" rest then [] else [rest]
       else [])
    fs.

Definition rebase (src dst : string) (fs : list (string * node)) : list (string * node) :=
  map (fun e => (dst ++ drop (String.length src) (fst e), snd e))
      (filter (fun e => within src (fst e)) fs).

Fixpoint words (s : string) : list string :=
  match s with
  | EmptyString => [EmptyString]
  | String c r =>
      if Ascii.eqb c " " then EmptyString :: words r
      else match words r with
           | h :: t => String c h :: t
           | [] => [String c EmptyString]
           end
  end.

Fixpoint fresh_name (n : nat) : string :=
  match n with
  | O => "/tmp/tmp"
  | S k => fresh_name k ++ "x"
  end.

Definition with_running (w : world) (r : bool) : world :=
  mkWorld (local_fs w) (remote_fs w) r (temp_count w).

Definition with_local (w : world) (fs : list (string * node)) : world :=
  mkWorld fs (remote_fs w) (running w) (temp_count w).

Definition with_remote (w : world) (fs : list (string * node)) : world :=
  mkWorld (local_fs w) fs (running w) (temp_count w).

(** The fake binary, on a whole command line. *)
Definition answer (b : behaviour) (line : string) (w : world) : (Z * string * string) * world :=
  if PyStr.contains " status " line then
    if running w then ((0%Z, "splunkd is running (PID: 4242).", ""), w)
    else ((3%Z, "splunkd is not running.", ""), w)
  else if PyStr.contains " start " line then
    ((start_code b, "Starting splunk server daemon (splunkd)...", ""),
     with_running w (start_works b || running w))
  else if PyStr.contains " stop " line then
    ((stop_code b, "Stopping splunkd...", ""),
     with_running w (negb (stop_works b) && running w))
  else if PyStr.contains " version " line then
    ((version_code b, "Splunk 4.3 (build 112175)", ""), w)
  else if PyStr.contains " soapport " line then ((0%Z, soapport_stdout b, ""), w)
  else if PyStr.contains " httpport " line then ((0%Z, httpport_stdout b, ""), w)
  else ((1%Z, "", "unknown command"), w).

Fixpoint lookup_archive (a : string) (l : list (string * list (string * node)))
  : option (list (string * node)) :=
  match l with
  | [] => None
  | (k, v) :: r => if String.eqb k a then Some v else lookup_archive a r
  end.

Definition extract (b : behaviour) (archive dest : string) (w : world) : reply unit * world :=
  match lookup_archive archive (archives b) with
  | None => (Failed "not an archive", w)
  | Some entries =>
      (Done tt,
       with_local w (local_fs w ++ map (fun e => (dest ++ "/" ++ fst e, snd e)) entries))
  end.

Definition host (b : behaviour) : Host world := {|
  os_path_isfile := fun p w => has_file p (local_fs w);
  os_path_exists := fun p w => has_path p (local_fs w);
  os_listdir := fun d w => listdir d (local_fs w);
  os_makedirs := fun p w =>
    if has_path p (local_fs w) then (Failed "File exists", w)
    else (Done tt, with_local w (local_fs w ++ [(p, Dir)]));
  shlex_split := words;
  subprocess_communicate := fun argv w => answer b (String.concat " " argv) w;
  tempfile_mkdtemp := fun w =>
    let d := fresh_name (temp_count w) in
    (d, mkWorld (local_fs w ++ [(d, Dir)]) (remote_fs w) (running w) (S (temp_count w)));
  tempfile_gettempdir := fun _ => "/tmp";
  archiver_extract := extract b;
  fileutils_force_remove_directory := fun d w => with_local w (remove_tree d (local_fs w));
  fileutils_force_move_directory := fun src dst w =>
    (Done tt,
     with_local w (remove_tree src (remove_tree dst (local_fs w))
                   ++ rebase src dst (local_fs w)));
  ssh_isfile := fun p w => has_file p (remote_fs w);
  ssh_isdir := fun p w => has_dir p (remote_fs w);
  ssh_execute := fun cmd w => answer b cmd w;
  ssh_send := fun src dst w =>
    (Done tt, with_remote w (remove_tree dst (remote_fs w) ++ rebase src dst (local_fs w)));
  ssh_force_remove_tree := fun d w => with_remote w (remove_tree d (remote_fs w));
  notify_listeners := fun w => (Done tt, w)
|}.

(** A splunk tree rooted at [root]. *)
Definition tree (root : string) : list (string * node) :=
  [(root, Dir); (root ++ "/bin", Dir); (root ++ "/bin/splunk", File);
   (root ++ "/etc", Dir); (root ++ "/etc/apps", Dir)].

(** A binary whose exit codes are all zero and which does what it is
    asked; the archive [/tmp/splunk.tgz] holds a [splunk] directory and the
    archive [/tmp/odd.tgz] a directory of another name. *)
Definition honest : behaviour := {|
  start_code := 0; start_works := true;
  stop_code := 0; stop_works := true;
  version_code := 0;
  soapport_stdout := "warning..." ++ String PyStr.LF "8089" ++ String PyStr.LF "";
  httpport_stdout := "8000" ++ String PyStr.LF "";
  archives :=
    [("/tmp/splunk.tgz", [("splunk", Dir); ("splunk/bin", Dir); ("splunk/bin/splunk", File)]);
     ("/tmp/odd.tgz", [("product", Dir); ("product/bin", Dir)]);
     ("/tmp/myapp.tgz", [("myapp", Dir); ("myapp/default", Dir)])]
|}.

(** Exit code 0 on start, but the daemon does not come up. *)
Definition silent_start_failure : behaviour :=
  mkBehaviour 0 false 0 true 0 "8089" "8000" [].

(** Exit code 1 on start although the daemon comes up (or is up). *)
Definition noisy_start : behaviour :=
  mkBehaviour 1 true 0 true 0 "8089" "8000" [].

(** The stop command has no effect. *)
Definition stubborn : behaviour :=
  mkBehaviour 0 true 1 false 0 "8089" "8000" [].

(** The version query fails. *)
Definition broken_version : behaviour :=
  mkBehaviour 0 true 0 true 1 "8089" "8000" [].

(** Exit code 0 on start, the daemon does not come up, and the version
    query fails. *)
Definition silent_start_failure_broken_version : behaviour :=
  mkBehaviour 0 false 0 true 1 "8089" "8000" [].

(** The port queries print something that is not a number. *)
Definition chatty_ports : behaviour :=
  mkBehaviour 0 true 0 true 0 "Web port: 8000" "" [].

Definition empty_world : world := mkWorld [] [] false 0.

Definition local_installed (r : bool) : world := mkWorld (tree "/opt/splunk") [] r 0.

Definition remote_installed (r : bool) : world := mkWorld [] (tree "/opt/splunk") r 0.

(** The remote host holds the product one level down, in [splunk]. *)
Definition remote_nested : world := mkWorld [] (tree "/opt/splunk/splunk") false 0.

(** What is left of an installation: the root, without the binary. *)
Definition local_leftovers : world :=
  mkWorld [("/opt/splunk", Dir); ("/opt/splunk/etc", Dir)] [] false 0.

Definition initial (w : world) : state world := mkState w None None [].

Definition local_splunk : Splunk := mkSplunk LocalSplunk "/opt/splunk".

Definition ssh_splunk : Splunk := mkSplunk SSHSplunk "/opt/splunk".

End Fake.

(** ** The other methods of the two classes

    [restart], the lazy port accessors, [uri_base], the listen commands,
    app removal, the platform probe of the remote class and
    [install_from_package]; and the host round robin of the test helper
    [SplunkInstance]. *)

(** The exceptions of these methods that [exn] does not hold. *)
Inductive exn_more : Type :=
| CouldNotRestartSplunk (command : string) (code : Z) (stdout stderr : string)
| CouldNotDetermineHostOS (stderr : string)
| CouldNotDetermineHostArchitecture (stderr : string).

Inductive outcome_more (A : Type) : Type :=
| Returned (a : A)
| Raised (e : exn)
| RaisedMore (e : exn_more).
Arguments Returned {A} a.
Arguments Raised {A} e.
Arguments RaisedMore {A} e.

Definition MM (W A : Type) : Type := state W -> outcome_more A * state W.

Definition lift_more {W A} (m : M W A) : MM W A :=
  fun s =>
    match m s with
    | (Ok a, s') => (Returned a, s')
    | (Raise e, s') => (Raised e, s')
    end.

Definition bind_more {W A B} (m : MM W A) (k : A -> MM W B) : MM W B :=
  fun s =>
    match m s with
    | (Returned a, s') => k a s'
    | (Raised e, s') => (Raised e, s')
    | (RaisedMore e, s') => (RaisedMore e, s')
    end.


(** The Python values that are passed as ports: [None], booleans, plain
    integers, long integers and strings; and a port argument, one such
    value or a list of them. *)
Inductive pyval : Type :=
| PyNone
| PyBool (b : bool)
| PyInt (z : Z)
| PyLong (z : Z)
| PyStr (s : string).

Inductive pyarg : Type :=
| Atom (v : pyval)
| PyList (items : list pyval).

(** [str(z)] for an integer. *)
Definition str_of_int (z : Z) : string := NilZero.string_of_int (Z.to_int z).

(** ["%s" % v] *)
Definition percent_s (v : pyval) : string :=
  match v with
  | PyNone => "None"
  | PyBool true => "True"
  | PyBool false => "False"
  | PyInt z => str_of_int z
  | PyLong z => str_of_int z
  | PyStr s => s
  end.

(** [str(port)] for a cached port. *)
Definition str_of_port (port : option Z) : string :=
  match port with
  | None => "None"
  | Some z => str_of_int z
  end.

(** [isinstance(v, int)]: a boolean is an [int], a [long] is not. *)
Definition isinstance_int (v : pyval) : bool :=
  match v with
  | PyInt _ => true
  | PyBool _ => true
  | _ => false
  end.

(** The number an [int] stands for in a comparison. *)
Definition int_value (v : pyval) : Z :=
  match v with
  | PyInt z => z
  | PyBool true => 1
  | _ => 0
  end.

(** [_check_if_valid_port]: the [TypeError] and the [ValueError] it raises
    are caught inside and become [False]. *)
Definition _check_if_valid_port (port : pyval) : bool :=
  if negb (isinstance_int port) then false
  else if negb (Z.leb 0 (int_value port) && Z.leb (int_value port) 65535) then false
  else true.

(** [iter(ports)]: a list gives its items, a string its characters, and
    anything else raises [TypeError] ([None] here). *)
Definition iterate (ports : pyarg) : option (list pyval) :=
  match ports with
  | PyList items => Some items
  | Atom (PyStr s) => Some (map (fun c => PyStr (String c EmptyString)) (list_ascii_of_string s))
  | Atom _ => None
  end.

(** The value a port argument that is not iterable stands for. *)
Definition scalar (ports : pyarg) : pyval :=
  match ports with
  | Atom v => v
  | PyList _ => PyNone
  end.

Definition DQ : string := String (ascii_of_nat 34) EmptyString.

Section MoreMethods.

Context {W : Type} (H : Host W) (self : Splunk).

(** Collaborators of these methods that [Host] does not hold:
    [os.path.isdir], the host name of the connection, the platform table,
    and the package object with [os.remove]. *)
Variable os_path_isdir : string -> W -> bool.
Variable connection_host : string.
Variable P : Type.
Variable splunk_platform_get_platform : string -> string -> reply P.
Variable package_download : W -> reply string * W.
Variable os_remove : string -> W -> reply unit * W.

(** *** Restart *)



(** *** Ports and addresses *)

Definition cached_web_port : M W (option Z) := fun s => (Ok (_web_port s), s).

Definition cached_splunkd_port : M W (option Z) := fun s => (Ok (_splunkd_port s), s).

Definition web_port : M W (option Z) :=
  cached <- cached_web_port ;;
  match cached with
  | None => update_ports_from_splunk H self ;; cached_web_port
  | Some _ => cached_web_port
  end.

Definition splunkd_port : M W (option Z) :=
  cached <- cached_splunkd_port ;;
  match cached with
  | None => update_ports_from_splunk H self ;; cached_splunkd_port
  | Some _ => cached_splunkd_port
  end.

Definition splunkd_scheme : string := "https".

Definition splunkd_host : string :=
  match cls self with
  | LocalSplunk => "localhost"
  | SSHSplunk => connection_host
  end.

Definition uri_base : M W string :=
  port <- splunkd_port ;;
  ret (splunkd_scheme ++ "://" ++ splunkd_host ++ ":" ++ str_of_port port).

(** *** Listening ports *)

(** The loop of [enable_listen] and [disable_listen] on the items of an
    iterable: a command for every valid port, in order. *)
Fixpoint listen_each (verb : string) (ports : list pyval) : M W unit :=
  match ports with
  | [] => ret tt
  | port :: rest =>
      (if _check_if_valid_port port
       then execute H self (verb ++ " listen -port " ++ percent_s port) ;; ret tt
       else ret tt) ;;
      listen_each verb rest
  end.

(** The body shared by the two methods: the loop, and on the [TypeError]
    of an argument that is not iterable, the argument itself as one port. *)
Definition listen (verb : string) (ports : pyarg) : M W unit :=
  match iterate ports with
  | Some items => listen_each verb items
  | None =>
      if _check_if_valid_port (scalar ports)
      then execute H self (verb ++ " listen -port " ++ percent_s (scalar ports)) ;; ret tt
      else ret tt
  end.

Definition enable_listen (ports : pyarg) : M W unit := listen "enable" ports.

Definition disable_listen (ports : pyarg) : M W unit := listen "disable" ports.

(** *** Apps *)

Definition LocalSplunk_has_app (name : string) (w : W) : bool :=
  os_path_isdir (_path_to_app self name) w.

Definition has_app (name : string) (w : W) : bool :=
  match cls self with
  | LocalSplunk => LocalSplunk_has_app name w
  | SSHSplunk => SSHSplunk_has_app H self name w
  end.

(** [uninstall_app] gives a boolean in [LocalSplunk] and nothing in
    [SSHSplunk]. *)
Definition LocalSplunk_uninstall_app (name : string) : M W (option bool) :=
  present <- ask (has_app name) ;;
  if negb present then ret (Some false)
  else
    force_remove_directory H (_path_to_app self name) ;;
    ret (Some true).

Definition SSHSplunk_uninstall_app (name : string) : M W (option bool) :=
  perform (SSHForceRemoveTree (_path_to_app self name))
          (fun w => (tt, ssh_force_remove_tree H (_path_to_app self name) w)) ;;
  ret None.

Definition uninstall_app (name : string) : M W (option bool) :=
  match cls self with
  | LocalSplunk => LocalSplunk_uninstall_app name
  | SSHSplunk => SSHSplunk_uninstall_app name
  end.

(** *** The platform of the remote host *)

Definition host_os_command : string :=
  "python -c " ++ DQ ++ "import sys; sys.stdout.write(sys.platform)" ++ DQ.

Definition host_architecture_command : string :=
  "python -c " ++ DQ ++ "import sys, platform; sys.stdout.write(platform.machine())" ++ DQ.

Definition _get_host_os : MM W string :=
  let cmd := host_os_command in
  bind_more (lift_more (perform (SSHExecute cmd) (ssh_execute H cmd)))
    (fun r =>
       match r with
       | (code, stdout, stderr) =>
           if negb (Z.eqb code 0)
           then fun s => (RaisedMore (CouldNotDetermineHostOS stderr), s)
           else fun s => (Returned stdout, s)
       end).

Definition _get_host_architecture : MM W string :=
  let cmd := host_architecture_command in
  bind_more (lift_more (perform (SSHExecute cmd) (ssh_execute H cmd)))
    (fun r =>
       match r with
       | (code, arch, stderr) =>
           if negb (Z.eqb code 0)
           then fun s => (RaisedMore (CouldNotDetermineHostArchitecture stderr), s)
           else fun s => (Returned arch, s)
       end).

Definition _get_host_platform : MM W P :=
  bind_more _get_host_os
    (fun _os =>
       bind_more _get_host_architecture
         (fun _arch =>
            fun s =>
              match splunk_platform_get_platform _os _arch with
              | Done p => (Returned p, s)
              | Failed why => (Raised (External why), s)
              end)).

(** *** Install from a package *)

(** A call of a collaborator that is not one of [Host]: the world changes
    and [calls] is left as it is. *)
Definition unrecorded {A} (f : W -> reply A * W) : M W A :=
  fun s =>
    let (r, w) := f (world s) in
    let s' := mkState w (_splunkd_port s) (_web_port s) (calls s) in
    match r with
    | Done a => (Ok a, s')
    | Failed why => (Raise (External why), s')
    end.

Definition install_from_package : M W unit :=
  pkg <- unrecorded package_download ;;
  try_finally (install_from_archive H self pkg) (unrecorded (os_remove pkg)).

End MoreMethods.

(** *** The hosts of the test helper ([SplunkInstance.next_host]) *)

(** [next_host] on the list of hosts and the current index: the host and
    the new index, or [None] for the [AssertionError] of an empty list. *)
Definition next_host (hosts : list string) (current : nat) : option (string * nat) :=
  if Nat.ltb 0 (List.length hosts) then
    let current := if Nat.leb (List.length hosts) current then O else current in
    match nth_error hosts current with
    | Some host_name => Some (host_name, S current)
    | None => None
    end
  else None.

(** [n] calls in a row, from the index [current]. *)
Fixpoint next_hosts (hosts : list string) (current n : nat) : option (list string * nat) :=
  match n with
  | O => Some ([], current)
  | S k =>
      match next_host hosts current with
      | Some (h, c) =>
          match next_hosts hosts c k with
          | Some (l, c') => Some (h :: l, c')
          | None => None
          end
      | None => None
      end
  end.

(** ** Notions used to state the properties of these methods *)

Section MoreNotions.

Context {W : Type} (H : Host W) (self : Splunk).


(** No splunk command removes the splunk binary. *)
Definition binary_persists : Prop :=
  forall command w,
    _binary_exists H self None w = true ->
    _binary_exists H self None (run_world H self command w) = true.



(** What a port read makes of the reply of its command. *)
Definition port_of_reply (r : Z * string * string) : outcome (option Z) :=
  if negb (Z.eqb (exit_code r) 0) then Ok None
  else match PyStr.int_of_str
               (PyStr.last_item (PyStr.split_lines (PyStr.strip (stdout_of r)))) with
       | Some port => Ok (Some port)
       | None => Raise ValueError
       end.

(** The state after the commands of a list have been issued in order. *)
Definition run_states (commands : list string) (s : state W) : state W :=
  fold_left (fun st command => run_state H self command st) commands s.

Definition with_splunkd_port (s : state W) (p : option Z) : state W :=
  mkState (world s) p (_web_port s) (calls s).

Definition with_web_port (s : state W) (p : option Z) : state W :=
  mkState (world s) (_splunkd_port s) p (calls s).

End MoreNotions.

(** More behaviours and worlds of the in-memory host. *)
Module FakeMore.

(** The soapport query answers a number, the httpport query does not. *)
Definition half_ports : Fake.behaviour :=
  Fake.mkBehaviour 0 true 0 true 0 "8089" "no web server" [].

Definition os_path_isdir (p : string) (w : Fake.world) : bool :=
  Fake.has_dir p (Fake.local_fs w).

(** A local instance with the app [search] installed. *)
Definition local_with_app : Fake.world :=
  Fake.mkWorld (Fake.tree "/opt/splunk" ++ [("/opt/splunk/etc/apps/search", Fake.Dir)])
               [] false 0.

Definition cached (w : Fake.world) (splunkd web : option Z) : state Fake.world :=
  mkState w splunkd web [].

(** A package that downloads to [/tmp/splunk.tgz], and one whose download
    gives a file that is no archive. *)
Definition download_to (path : string) (w : Fake.world) : reply string * Fake.world :=
  (Done path, Fake.with_local w (Fake.local_fs w ++ [(path, Fake.File)])).

Definition os_remove (path : string) (w : Fake.world) : reply unit * Fake.world :=
  if Fake.has_file path (Fake.local_fs w)
  then (Done tt, Fake.with_local w (Fake.remove_tree path (Fake.local_fs w)))
  else (Failed "No such file or directory", w).

Definition local_relative : Splunk := mkSplunk LocalSplunk "opt".

End FakeMore.

(** * Properties *)

(** ** Strings: the last line of the stripped output *)

Section LastLine.

Import PyStr.

Lemma split_lines_not_nil (s : string) : split_lines s <> [].
Proof.
  destruct s as [|c r]; simpl; [discriminate|].
  destruct (Ascii.eqb c LF); [discriminate|].
  destruct (split_lines r); discriminate.
Qed.

Lemma isspace_LF : isspace LF = true.
Proof. reflexivity. Qed.

Lemma not_space_not_LF (c : ascii) : isspace c = false -> Ascii.eqb c LF = false.
Proof.
  intros Hc. destruct (Ascii.eqb c LF) eqn:E; [|reflexivity].
  apply Ascii.eqb_eq in E. subst c. discriminate.
Qed.

Lemma blank_empty : blank EmptyString = true.
Proof. reflexivity. Qed.

Lemma blank_rstrip (s : string) : blank s = true <-> rstrip s = EmptyString.
Proof.
  unfold blank. destruct (rstrip s); simpl; split; congruence.
Qed.

Lemma blank_false_rstrip (s : string) : blank s = false <-> rstrip s <> EmptyString.
Proof.
  unfold blank. destruct (rstrip s); simpl; split; congruence.
Qed.

Lemma rstrip_cons (c : ascii) (r : string) :
  rstrip (String c r) =
  if blank r then (if isspace c then EmptyString else String c EmptyString)
  else String c (rstrip r).
Proof.
  unfold blank. simpl. destruct (rstrip r); reflexivity.
Qed.

Lemma blank_cons (c : ascii) (r : string) :
  blank (String c r) = isspace c && blank r.
Proof.
  unfold blank at 1. rewrite rstrip_cons.
  destruct (blank r), (isspace c); reflexivity.
Qed.

Lemma rstrip_idempotent (s : string) : rstrip (rstrip s) = rstrip s.
Proof.
  induction s as [|c r IH]; [reflexivity|].
  rewrite rstrip_cons.
  destruct (blank r) eqn:Eb.
  - destruct (isspace c) eqn:Ec; [reflexivity|].
    rewrite rstrip_cons, blank_empty, Ec. reflexivity.
  - rewrite rstrip_cons, IH.
    assert (Hb : blank (rstrip r) = false).
    { apply blank_false_rstrip. rewrite IH. now apply blank_false_rstrip. }
    now rewrite Hb.
Qed.

Lemma lstrip_blank (s : string) : blank s = true -> lstrip s = EmptyString.
Proof.
  induction s as [|c r IH]; [reflexivity|].
  rewrite blank_cons. intros Hb. apply andb_true_iff in Hb as [Hc Hr].
  simpl. rewrite Hc. auto.
Qed.

Lemma strip_space_cons (c : ascii) (r : string) :
  isspace c = true -> strip (String c r) = strip r.
Proof.
  intros Hc. unfold strip. rewrite rstrip_cons, Hc.
  destruct (blank r) eqn:Eb.
  - apply blank_rstrip in Eb. now rewrite Eb.
  - simpl. now rewrite Hc.
Qed.

Lemma strip_rstrip (s : string) : strip (rstrip s) = strip s.
Proof. unfold strip. now rewrite rstrip_idempotent. Qed.

Lemma int_of_str_space_cons (c : ascii) (r : string) :
  isspace c = true -> int_of_str (String c r) = int_of_str r.
Proof. intros Hc. unfold int_of_str. now rewrite strip_space_cons. Qed.

Lemma int_of_str_rstrip (s : string) : int_of_str (rstrip s) = int_of_str s.
Proof. unfold int_of_str. now rewrite strip_rstrip. Qed.

Lemma int_of_str_blank (s : string) : blank s = true -> int_of_str s = None.
Proof.
  intros Hb. unfold int_of_str, strip.
  apply blank_rstrip in Hb. now rewrite Hb.
Qed.

(** Stripping the text on the left does not change what [int] reads on
    its last line. *)
Lemma int_of_last_line_lstrip (s : string) :
  int_of_str (last_item (split_lines (lstrip s))) =
  int_of_str (last_item (split_lines s)).
Proof.
  induction s as [|c r IH]; [reflexivity|].
  simpl lstrip. destruct (isspace c) eqn:Ec; [|reflexivity].
  rewrite IH. simpl split_lines.
  pose proof (split_lines_not_nil r) as Hne.
  destruct (Ascii.eqb c LF).
  - unfold last_item. destruct (split_lines r) as [|h t]; [congruence|reflexivity].
  - destruct (split_lines r) as [|h t]; [congruence|].
    unfold last_item. destruct t as [|h' t'].
    + simpl. symmetry. now apply int_of_str_space_cons.
    + reflexivity.
Qed.

(** The lines of a text stripped on the right. *)
Lemma split_lines_rstrip (s : string) :
  (rstrip s = EmptyString /\ rtrim_lines (split_lines s) = []) \/
  (rstrip s <> EmptyString /\ rtrim_lines (split_lines s) <> [] /\
   split_lines (rstrip s) = rtrim_lines (split_lines s)).
Proof.
  induction s as [|c r IH]; [left; split; reflexivity|].
  rewrite rstrip_cons. simpl split_lines.
  pose proof (split_lines_not_nil r) as Hne.
  destruct (Ascii.eqb c LF) eqn:Ec.
  - apply Ascii.eqb_eq in Ec. subst c. rewrite isspace_LF.
    destruct IH as [[Hr Ht] | (Hr & Ht & Hs)].
    + left. apply blank_rstrip in Hr. rewrite Hr. simpl. rewrite Ht. now split.
    + right. apply blank_false_rstrip in Hr. rewrite Hr.
      simpl. rewrite Hs.
      destruct (rtrim_lines (split_lines r)) eqn:E; [congruence|].
      repeat split; discriminate || reflexivity.
  - destruct (split_lines r) as [|h t] eqn:Esp; [congruence|].
    cbn [rtrim_lines] in *. rewrite blank_cons.
    destruct IH as [[Hr Ht] | (Hr & Ht & Hs)].
    + apply blank_rstrip in Hr. rewrite Hr.
      destruct (rtrim_lines t) eqn:Et.
      * destruct (blank h) eqn:Eh; [|discriminate].
        rewrite andb_true_r.
        destruct (isspace c) eqn:Esc.
        -- left. now split.
        -- right. rewrite rstrip_cons, Eh, Esc.
           repeat split; try discriminate.
           cbn [split_lines]. now rewrite Ec.
      * discriminate.
    + apply blank_false_rstrip in Hr. rewrite Hr.
      right. split; [discriminate|].
      simpl split_lines. rewrite Ec, Hs.
      destruct (rtrim_lines t) eqn:Et.
      * destruct (blank h) eqn:Eh; [congruence|].
        rewrite andb_false_r. split; [discriminate|].
        rewrite rstrip_cons, Eh. reflexivity.
      * split; [discriminate|reflexivity].
Qed.

Lemma rtrim_lines_nil_filter (ls : list string) :
  filter nonempty ls = [] -> rtrim_lines ls = [].
Proof.
  induction ls as [|l r IH]; [reflexivity|].
  simpl. destruct l; simpl; [|discriminate].
  intros Hf. now rewrite IH.
Qed.

Lemma rtrim_lines_nil_last (ls : list string) :
  rtrim_lines ls = [] -> blank (List.last (filter nonempty ls) EmptyString) = true.
Proof.
  induction ls as [|l r IH]; [reflexivity|].
  simpl rtrim_lines. destruct (rtrim_lines r) eqn:Er; [|discriminate].
  destruct (blank l) eqn:Eb; [|discriminate].
  intros _. specialize (IH eq_refl).
  simpl filter. destruct (nonempty l); [|exact IH].
  destruct (filter nonempty r) eqn:Ef; [exact Eb|exact IH].
Qed.

(** The last line left after the trailing whitespace is gone is the last
    non-empty line, stripped on the right, as soon as that line is not
    blank. *)
Lemma rtrim_lines_last (ls : list string) :
  blank (List.last (filter nonempty ls) EmptyString) = false ->
  rtrim_lines ls <> [] /\
  List.last (rtrim_lines ls) EmptyString =
  rstrip (List.last (filter nonempty ls) EmptyString).
Proof.
  induction ls as [|l r IH]; [discriminate|].
  intros Hb. simpl rtrim_lines.
  destruct (rtrim_lines r) as [|x r'] eqn:Er.
  - pose proof (rtrim_lines_nil_last r Er) as Hr.
    simpl filter in Hb |- *.
    destruct (nonempty l) eqn:El; [|rewrite Hr in Hb; discriminate].
    destruct (filter nonempty r) as [|y ys] eqn:Ef.
    + simpl in Hb |- *. rewrite Hb. split; [discriminate|reflexivity].
    + change (List.last (l :: y :: ys) EmptyString)
        with (List.last (y :: ys) EmptyString) in Hb.
      rewrite Hr in Hb. discriminate.
  - assert (Hf : filter nonempty r <> []).
    { intros Hf. apply rtrim_lines_nil_filter in Hf. congruence. }
    assert (Hl : List.last (filter nonempty (l :: r)) EmptyString =
                 List.last (filter nonempty r) EmptyString).
    { simpl filter. destruct (nonempty l); [|reflexivity].
      destruct (filter nonempty r); [congruence|reflexivity]. }
    rewrite Hl in *. destruct (IH Hb) as [_ IH2].
    split; [discriminate|]. rewrite <- IH2. reflexivity.
Qed.

(** What the code reads, [int] of the last line of the stripped output, is
    [int] of the last non-empty line whenever that line is a number. *)
Lemma int_of_last_line (stdout : string) (n : Z) :
  int_of_str (last_nonempty_line stdout) = Some n ->
  int_of_str (last_item (split_lines (strip stdout))) = Some n.
Proof.
  intros Hn. unfold strip. rewrite int_of_last_line_lstrip.
  assert (Hb : blank (last_nonempty_line stdout) = false).
  { destruct (blank (last_nonempty_line stdout)) eqn:E; [|reflexivity].
    apply int_of_str_blank in E. congruence. }
  destruct (rtrim_lines_last _ Hb) as [Hne Hlast].
  destruct (split_lines_rstrip stdout) as [[_ Ht] | (_ & _ & Hs)]; [congruence|].
  unfold last_item. rewrite Hs, Hlast, int_of_str_rstrip. exact Hn.
Qed.

End LastLine.

(** ** Paths *)

Section Paths.

Import PosixPath.

Lemma append_assoc (a b c : string) : ((a ++ b) ++ c)%string = (a ++ (b ++ c))%string.
Proof. induction a as [|x a IH]; simpl; [reflexivity|now rewrite IH]. Qed.

Lemma isabs_append (a b : string) : isabs a = true -> isabs (a ++ b) = true.
Proof.
  destruct a as [|x a]; [discriminate|]. simpl. intros Ha. exact Ha.
Qed.

Lemma isabs_nonempty (p : string) : isabs p = true -> PyStr.nonempty p = true.
Proof. destruct p; [discriminate|reflexivity]. Qed.

Lemma join2_abs (a b : string) : isabs b = true -> join2 a b = b.
Proof. intros Hb. unfold join2. now rewrite Hb. Qed.

Lemma join2_isabs (a b : string) : isabs a = true -> isabs (join2 a b) = true.
Proof.
  intros Ha. unfold join2. destruct (isabs b) eqn:Eb; [exact Eb|].
  destruct (negb (PyStr.nonempty a) || PyStr.endswith_char "/" a);
    now apply isabs_append.
Qed.

Lemma join_isabs (a : string) (p : list string) : isabs a = true -> isabs (join a p) = true.
Proof.
  revert a. induction p as [|b p IH]; intros a Ha; [exact Ha|].
  apply IH. now apply join2_isabs.
Qed.

Lemma endswith_char_append (c : ascii) (a : string) (y : ascii) (r : string) :
  PyStr.endswith_char c (a ++ String y r) = PyStr.endswith_char c (String y r).
Proof.
  induction a as [|x a IH]; [reflexivity|].
  change (String x a ++ String y r)%string with (String x (a ++ String y r)).
  cbn [PyStr.endswith_char].
  destruct (a ++ String y r)%string eqn:E.
  - destruct a; discriminate.
  - exact IH.
Qed.

(** On a root that is not empty and does not end in a slash, and for a
    relative name, the join is the text [root/bin/name]. *)
Lemma join_bin_text (root name : string) :
  PyStr.nonempty root = true -> PyStr.endswith_char "/" root = false ->
  isabs name = false ->
  join root ["bin"; name] = (root ++ "/bin/" ++ name)%string.
Proof.
  intros Hne Hsl Hrel. unfold join. simpl fold_left.
  unfold join2 at 2. simpl (isabs "bin"). rewrite Hne, Hsl. simpl orb. cbv iota.
  unfold join2. rewrite Hrel.
  assert (E1 : PyStr.nonempty (root ++ "/" ++ "bin") = true).
  { destruct root; [discriminate|reflexivity]. }
  assert (E2 : PyStr.endswith_char "/" (root ++ "/" ++ "bin") = false).
  { change ("/" ++ "bin")%string with (String "/" "bin").
    rewrite endswith_char_append. reflexivity. }
  rewrite E1, E2. simpl orb. cbv iota.
  rewrite !append_assoc. reflexivity.
Qed.

End Paths.

(** ** Running commands *)

Section Running.

Context {W : Type} (H : Host W) (self : Splunk).

Lemma bind_ok {A B} (m : M W A) (k : A -> M W B) (s s' : state W) (a : A) :
  m s = (Ok a, s') -> bind m k s = k a s'.
Proof. intros E. unfold bind. now rewrite E. Qed.

Lemma bind_raise {A B} (m : M W A) (k : A -> M W B) (s s' : state W) (e : exn) :
  m s = (Raise e, s') -> bind m k s = (Raise e, s').
Proof. intros E. unfold bind. now rewrite E. Qed.

Lemma get_binary_path_abs (binary : string) (w : W) :
  PosixPath.isabs binary = true -> get_binary_path H self binary w = binary.
Proof.
  intros Hb. unfold get_binary_path, LocalSplunk_get_binary_path, SSHSplunk_get_binary_path.
  assert (E1 : PosixPath.join (_splunk_home self) ["bin"; binary] = binary).
  { unfold PosixPath.join. simpl. now apply join2_abs. }
  assert (E2 : PosixPath.join (_splunk_home self) ["splunk"; "bin"; binary] = binary).
  { unfold PosixPath.join. simpl. now apply join2_abs. }
  rewrite Hb, E1, E2. destruct (cls self); [reflexivity|].
  destruct (ssh_isfile H binary w); reflexivity.
Qed.

Lemma get_binary_path_isabs (binary : string) (w : W) :
  PosixPath.isabs (_splunk_home self) = true ->
  PosixPath.isabs (get_binary_path H self binary w) = true.
Proof.
  intros Hh. unfold get_binary_path, LocalSplunk_get_binary_path, SSHSplunk_get_binary_path.
  destruct (cls self).
  - destruct (PosixPath.isabs binary) eqn:Eb; [exact Eb|]. now apply join_isabs.
  - repeat match goal with |- context [if ?b then _ else _] => destruct b end;
      now apply join_isabs.
Qed.

Lemma str_or_abs (p d : string) :
  PosixPath.isabs p = true -> PyStr.str_or (Some p) d = p.
Proof. destruct p; [discriminate|reflexivity]. Qed.

(** With an absolute home, every existence test of the splunk binary made
    on the way to a command is the same test. *)
Lemma _binary_exists_splunk_binary (w : W) :
  PosixPath.isabs (_splunk_home self) = true ->
  _binary_exists H self (Some (get_binary_path H self (splunk_binary H self w) w)) w =
  _binary_exists H self None w.
Proof.
  intros Hh.
  pose proof (get_binary_path_isabs "splunk" w Hh) as Hp.
  fold (splunk_binary H self w) in Hp.
  unfold _binary_exists.
  change (PyStr.str_or None (splunk_binary H self w)) with (splunk_binary H self w).
  repeat (rewrite (get_binary_path_abs (splunk_binary H self w) w Hp)
          || rewrite (str_or_abs (splunk_binary H self w) _ Hp)).
  reflexivity.
Qed.

(** What [raise SplunkNotInstalled] raises in each of the two modules. *)
Lemma execute_not_installed (command : string) (s : state W) :
  _binary_exists H self None (world s) = false ->
  execute H self command s =
  (Raise match cls self with
         | LocalSplunk => SplunkNotInstalled
         | SSHSplunk => NameError "SplunkNotInstalled"
         end, s).
Proof.
  intros Hn.
  unfold execute, execute_without_common_flags,
    LocalSplunk_execute_without_common_flags,
    SSHSplunk_execute_without_common_flags, bind, ask.
  destruct (cls self); now rewrite Hn.
Qed.

Lemma LocalSplunk_execute_not_installed (command : string) (s : state W) :
  cls self = LocalSplunk ->
  _binary_exists H self None (world s) = false ->
  execute H self command s = (Raise SplunkNotInstalled, s).
Proof. intros Hc Hn. rewrite (execute_not_installed command s Hn), Hc. reflexivity. Qed.


Lemma execute_installed (command : string) (s : state W) :
  PosixPath.isabs (_splunk_home self) = true ->
  _binary_exists H self None (world s) = true ->
  execute H self command s = (Ok (run_reply H self command (world s)), run_state H self command s).
Proof.
  intros Hh Hi.
  pose proof (get_binary_path_isabs "splunk" (world s) Hh) as Hp.
  fold (splunk_binary H self (world s)) in Hp.
  pose proof (_binary_exists_splunk_binary (world s) Hh) as Hv.
  rewrite (get_binary_path_abs _ _ Hp) in Hv.
  unfold execute, execute_without_common_flags,
    LocalSplunk_execute_without_common_flags,
    SSHSplunk_execute_without_common_flags, bind, ask.
  unfold run_reply, run_state, run_world, transport_run, transport_call, with_flags,
    execute_with_binary.
  destruct (cls self); rewrite Hi.
  - unfold LocalSplunk_execute_with_binary, _validate_binary, bind, ask, ret, perform.
    cbn [negb world]. cbv beta iota.
    rewrite (get_binary_path_abs _ _ Hp), Hv, Hi.
    destruct (subprocess_communicate H _ (world s)); reflexivity.
  - unfold SSHSplunk_execute_with_binary, _validate_binary, bind, ask, ret, perform.
    cbn [negb world]. cbv beta iota.
    rewrite (get_binary_path_abs _ _ Hp), Hv, Hi.
    destruct (ssh_execute H _ (world s)); reflexivity.
Qed.

Lemma is_running_not_installed (s : state W) :
  _binary_exists H self None (world s) = false ->
  is_running H self s = (Ok false, s).
Proof.
  intros Hn. unfold is_running, is_installed, bind, ask. now rewrite Hn.
Qed.

Lemma is_running_installed (s : state W) :
  PosixPath.isabs (_splunk_home self) = true ->
  _binary_exists H self None (world s) = true ->
  is_running H self s =
  (Ok (status_reports_running H self (world s)), run_state H self "status" s).
Proof.
  intros Hh Hi. unfold is_running, is_installed.
  unfold bind at 1. unfold ask at 1. rewrite Hi.
  erewrite bind_ok by (now apply execute_installed).
  unfold status_reports_running, stdout_of.
  destruct (run_reply H self "status" (world s)) as [[code out] err]. reflexivity.
Qed.

Lemma version_installed (s : state W) :
  PosixPath.isabs (_splunk_home self) = true ->
  _binary_exists H self None (world s) = true ->
  version H self s =
  (let r := run_reply H self "version" (world s) in
   if Z.eqb (exit_code r) 0 then Ok (PyStr.strip (stdout_of r))
   else Raise (CommandExecutionFailure "version" (exit_code r) (stdout_of r) (stderr_of r)),
   run_state H self "version" s).
Proof.
  intros Hh Hi. unfold version.
  erewrite bind_ok by (now apply execute_installed).
  unfold exit_code, stdout_of, stderr_of.
  destruct (run_reply H self "version" (world s)) as [[code out] err]. simpl.
  destruct (Z.eqb code 0); reflexivity.
Qed.

End Running.

(** ** Which exceptions the commands raise *)

Section Raises.

Context {W : Type} (H : Host W) (self : Splunk).

Lemma raises_only_ret {A} (P : exn -> Prop) (a : A) : raises_only P (@ret W A a).
Proof. intros s e s' E. discriminate. Qed.

Lemma raises_only_raise {A} (P : exn -> Prop) (e : exn) : P e -> raises_only P (@raise W A e).
Proof. intros He s e' s' E. inversion E. now subst. Qed.

Lemma raises_only_bind {A B} (P : exn -> Prop) (m : M W A) (k : A -> M W B) :
  raises_only P m -> (forall a, raises_only P (k a)) -> raises_only P (bind m k).
Proof.
  intros Hm Hk s e s' E. unfold bind in E.
  destruct (m s) as [[a|e0] s0] eqn:Em.
  - exact (Hk a _ _ _ E).
  - inversion E. subst. exact (Hm _ _ _ Em).
Qed.

Lemma raises_only_ask {A} (P : exn -> Prop) (q : W -> A) : raises_only P (ask q).
Proof. intros s e s' E. discriminate. Qed.

Lemma raises_only_perform {A} (P : exn -> Prop) (c : call) (f : W -> A * W) :
  raises_only P (perform c f).
Proof. intros s e s' E. unfold perform in E. destruct (f (world s)). discriminate. Qed.

Lemma raises_only_attempt {A} (P : exn -> Prop) (c : call) (f : W -> reply A * W) :
  (forall why, P (External why)) -> raises_only P (attempt c f).
Proof.
  intros HP s e s' E. unfold attempt in E.
  destruct (f (world s)) as [[a|why] w]; inversion E. apply HP.
Qed.

Lemma execute_plain (command : string) : raises_only plain (execute H self command).
Proof.
  unfold execute, execute_without_common_flags,
    LocalSplunk_execute_without_common_flags,
    SSHSplunk_execute_without_common_flags.
  unfold execute_with_binary, LocalSplunk_execute_with_binary,
    SSHSplunk_execute_with_binary, _validate_binary.
  destruct (cls self);
    (apply raises_only_bind; [apply raises_only_ask|]; intros found;
     destruct found; simpl; [|now apply raises_only_raise];
     apply raises_only_bind; [apply raises_only_ask|]; intros binary;
     apply raises_only_bind; [apply raises_only_ask|]; intros b;
     apply raises_only_bind;
     [ apply raises_only_bind; [apply raises_only_ask|]; intros [|];
       [apply raises_only_ret | now apply raises_only_raise]
     | intros _; apply raises_only_perform ]).
Qed.

Lemma is_running_plain : raises_only plain (is_running H self).
Proof.
  unfold is_running, is_installed.
  apply raises_only_bind; [apply raises_only_ask|]. intros [|]; [|apply raises_only_ret].
  apply raises_only_bind; [apply execute_plain|]. intros [[code out] err].
  apply raises_only_ret.
Qed.

Lemma version_plain : raises_only plain (version H self).
Proof.
  unfold version.
  apply raises_only_bind; [apply execute_plain|]. intros [[code out] err].
  destruct (negb (Z.eqb code 0)); [now apply raises_only_raise|apply raises_only_ret].
Qed.

Lemma _read_port_from_command_plain (command : string) :
  raises_only plain (_read_port_from_command H self command).
Proof.
  unfold _read_port_from_command.
  apply raises_only_bind; [apply raises_only_ask|]. intros [|]; simpl; [|apply raises_only_ret].
  apply raises_only_bind; [apply execute_plain|]. intros [[code out] err].
  destruct (negb (Z.eqb code 0)); [apply raises_only_ret|].
  destruct (PyStr.int_of_str _); [apply raises_only_ret|now apply raises_only_raise].
Qed.

Lemma _splunk_has_started_plain : raises_only plain (_splunk_has_started H self).
Proof.
  unfold _splunk_has_started, update_ports_from_splunk, _read_splunkd_port, _read_web_port,
    _notify_listeners_of_splunk_start.
  apply raises_only_bind.
  - apply raises_only_bind; [apply _read_port_from_command_plain|]. intros p.
    apply raises_only_bind; [intros s e s' E; discriminate|]. intros _.
    apply raises_only_bind; [apply _read_port_from_command_plain|]. intros q.
    intros s e s' E; discriminate.
  - intros _. apply raises_only_attempt. reflexivity.
Qed.

End Raises.

(** ** Start *)

Section Start.

Context {W : Type} (H : Host W) (self : Splunk).

Hypothesis home_absolute : PosixPath.isabs (_splunk_home self) = true.

Lemma version_ok (s : state W) :
  _binary_exists H self None (world s) = true ->
  exit_code (run_reply H self "version" (world s)) = 0%Z ->
  version H self s =
  (Ok (PyStr.strip (stdout_of (run_reply H self "version" (world s)))),
   run_state H self "version" s).
Proof.
  intros Hi Hc. rewrite (version_installed H self s home_absolute Hi).
  cbv zeta. now rewrite Hc.
Qed.

Lemma version_fails (s : state W) :
  _binary_exists H self None (world s) = true ->
  exit_code (run_reply H self "version" (world s)) <> 0%Z ->
  version H self s =
  (let r := run_reply H self "version" (world s) in
   Raise (CommandExecutionFailure "version" (exit_code r) (stdout_of r) (stderr_of r)),
   run_state H self "version" s).
Proof.
  intros Hi Hc. rewrite (version_installed H self s home_absolute Hi).
  cbv zeta. apply Z.eqb_neq in Hc. now rewrite Hc.
Qed.

(** [start] when the version query fails: the two commands are issued and
    the failure of the query is what [start] raises. *)
Lemma start_version_fails (auto_ports : bool) (s : state W) :
  let cmd := start_command auto_ports in
  let s1 := run_state H self cmd s in
  _binary_exists H self None (world s) = true ->
  _binary_exists H self None (world s1) = true ->
  exit_code (run_reply H self "version" (world s1)) <> 0%Z ->
  start H self auto_ports s =
  (let r := run_reply H self "version" (world s1) in
   Raise (CommandExecutionFailure "version" (exit_code r) (stdout_of r) (stderr_of r)),
   run_state H self "version" s1).
Proof.
  intros cmd s1 H0 H1 Hc. unfold start. fold cmd.
  erewrite bind_ok by (now apply execute_installed).
  destruct (run_reply H self cmd (world s)) as [[code out] err].
  fold s1. erewrite bind_raise by (now apply version_fails). reflexivity.
Qed.

(** [start] when the version query succeeds: start, version and status
    are issued in this order, and the status decides. *)
Lemma start_version_ok (auto_ports : bool) (s : state W) :
  let cmd := start_command auto_ports in
  let s1 := run_state H self cmd s in
  let s2 := run_state H self "version" s1 in
  let s3 := run_state H self "status" s2 in
  let r := run_reply H self cmd (world s) in
  _binary_exists H self None (world s) = true ->
  _binary_exists H self None (world s1) = true ->
  _binary_exists H self None (world s2) = true ->
  exit_code (run_reply H self "version" (world s1)) = 0%Z ->
  start H self auto_ports s =
  if status_reports_running H self (world s2)
  then bind (_splunk_has_started H self) (fun _ => ret (exit_code r)) s3
  else (Raise (CouldNotStartSplunk cmd (exit_code r) (stdout_of r) (stderr_of r)), s3).
Proof.
  intros cmd s1 s2 s3 r H0 H1 H2 Hc. unfold start. fold cmd.
  erewrite bind_ok by (now apply execute_installed).
  fold r. unfold exit_code, stdout_of, stderr_of.
  destruct r as [[code out] err]. cbn [fst snd].
  fold s1. erewrite bind_ok by (now apply version_ok).
  fold s2. unfold _verify_splunk_is_running.
  unfold bind at 1 2. rewrite (is_running_installed H self s2 home_absolute H2).
  fold s3. destruct (status_reports_running H self (world s2)); reflexivity.
Qed.

End Start.

Section StartClaims.

Context {W : Type} (H : Host W) (self : Splunk).

(** C1, as the code has it.  [start(auto_ports)] runs the start command,
    then the version query, then the status probe.  For every host and
    instance, [CouldNotStartSplunk] is raised if and only if the start
    command and the version query went through and the probe answered
    not-running, and it carries the start command, its exit code, its
    stdout and its stderr.  On an installed instance (absolute home, the
    binary present before and after the start command and the version
    query) whose version query exits with 0, the status output alone
    decides, whatever the start command returned: without the running
    token [start] raises [CouldNotStartSplunk], and with it [start] raises
    no [CouldNotStartSplunk] and returns the exit code of the start command
    once the post-start hook has gone through. *)
Theorem start_raises_CouldNotStart_iff_not_running (auto_ports : bool) (s : state W) :
  let cmd := start_command auto_ports in
  (forall c code out err,
      fst (start H self auto_ports s) = Raise (CouldNotStartSplunk c code out err) <->
      c = cmd /\
      exists s1 v s2 s3,
        execute H self cmd s = (Ok (code, out, err), s1) /\
        version H self s1 = (Ok v, s2) /\
        is_running H self s2 = (Ok false, s3)) /\
  (let w1 := run_world H self cmd (world s) in
   let w2 := run_world H self "version" w1 in
   let r := run_reply H self cmd (world s) in
   let s3 := run_state H self "status"
               (run_state H self "version" (run_state H self cmd s)) in
   PosixPath.isabs (_splunk_home self) = true ->
   _binary_exists H self None (world s) = true ->
   _binary_exists H self None w1 = true ->
   _binary_exists H self None w2 = true ->
   exit_code (run_reply H self "version" w1) = 0%Z ->
   (status_reports_running H self w2 = false ->
    start H self auto_ports s =
    (Raise (CouldNotStartSplunk cmd (exit_code r) (stdout_of r) (stderr_of r)), s3)) /\
   (status_reports_running H self w2 = true ->
    (forall c code out err,
        fst (start H self auto_ports s) <> Raise (CouldNotStartSplunk c code out err)) /\
    (forall s4, _splunk_has_started H self s3 = (Ok tt, s4) ->
                start H self auto_ports s = (Ok (exit_code r), s4)))).
Proof.
  intros cmd. split.
  - intros c code out err. split.
    + unfold start. fold cmd. unfold bind at 1.
      destruct (execute H self cmd s) as [[[[code0 out0] err0]|e] s1] eqn:E1.
      * unfold bind at 1.
        destruct (version H self s1) as [[v|e] s2] eqn:E2.
        -- unfold _verify_splunk_is_running. unfold bind at 1 2.
           destruct (is_running H self s2) as [[[|]|e] s3] eqn:E3.
           ++ cbn [negb]. unfold ret at 1. unfold bind.
              destruct (_splunk_has_started H self s3) as [[u|e] s4] eqn:E4.
              ** discriminate.
              ** cbn [fst]. intros E. inversion E. subst e.
                 apply _splunk_has_started_plain in E4. discriminate.
           ++ cbn [negb fst raise]. intros E. inversion E. subst.
              split; [reflexivity|]. now exists s1, v, s2, s3.
           ++ cbn [fst]. intros E. inversion E. subst e.
              apply is_running_plain in E3. discriminate.
        -- cbn [fst]. intros E. inversion E. subst e.
           apply version_plain in E2. discriminate.
      * cbn [fst]. intros E. inversion E. subst e.
        apply execute_plain in E1. discriminate.
    + intros [-> (s1 & v & s2 & s3 & E1 & E2 & E3)].
      unfold start. fold cmd.
      erewrite bind_ok by exact E1. cbv beta iota.
      erewrite bind_ok by exact E2.
      unfold _verify_splunk_is_running. unfold bind at 1 2. rewrite E3. reflexivity.
  - intros w1 w2 r s3 Hh H0 H1 H2 Hc.
    pose proof (start_version_ok H self Hh auto_ports s H0 H1 H2 Hc) as E.
    cbv zeta in E. fold cmd in E. fold r in E. fold s3 in E.
    change (world (run_state H self "version" (run_state H self cmd s))) with w2 in E.
    split.
    + intros Hs. now rewrite Hs in E.
    + intros Hs. rewrite Hs in E. split.
      * intros c code out err. rewrite E. unfold bind.
        destruct (_splunk_has_started H self s3) as [[u|e] s4] eqn:E4.
        -- discriminate.
        -- cbn [fst]. intros E5. inversion E5. subst e.
           apply _splunk_has_started_plain in E4. discriminate.
      * intros s4 E4. rewrite E. now erewrite bind_ok by exact E4.
Qed.

(** C10. [start] issues the version query after the start command and
    before the status probe, and a version query that exits with a code
    other than 0 makes [start] raise [CommandExecutionFailure]: only the
    start command and the version query have been issued then (no status
    probe, no port query, no notification) and the cached ports are
    untouched, whatever the status probe would have answered.  When the
    query exits with 0 the third call is the status probe. *)
Theorem start_version_query_failure (auto_ports : bool) (s : state W) :
  let cmd := start_command auto_ports in
  let s1 := run_state H self cmd s in
  let s2 := run_state H self "version" s1 in
  let s3 := run_state H self "status" s2 in
  let r := run_reply H self cmd (world s) in
  let rv := run_reply H self "version" (world s1) in
  PosixPath.isabs (_splunk_home self) = true ->
  _binary_exists H self None (world s) = true ->
  _binary_exists H self None (world s1) = true ->
  (exit_code rv <> 0%Z ->
   start H self auto_ports s =
   (Raise (CommandExecutionFailure "version" (exit_code rv) (stdout_of rv) (stderr_of rv)),
    s2) /\
   calls s2 = (calls s ++ [transport_call H self (with_flags cmd) (world s);
                           transport_call H self (with_flags "version") (world s1)])%list /\
   _splunkd_port s2 = _splunkd_port s /\ _web_port s2 = _web_port s) /\
  (exit_code rv = 0%Z ->
   _binary_exists H self None (world s2) = true ->
   start H self auto_ports s =
   (if status_reports_running H self (world s2)
    then bind (_splunk_has_started H self) (fun _ => ret (exit_code r)) s3
    else (Raise (CouldNotStartSplunk cmd (exit_code r) (stdout_of r) (stderr_of r)), s3)) /\
   calls s3 = (calls s ++ [transport_call H self (with_flags cmd) (world s);
                           transport_call H self (with_flags "version") (world s1);
                           transport_call H self (with_flags "status") (world s2)])%list).
Proof.
  intros cmd s1 s2 s3 r rv Hh H0 H1. split.
  - intros Hc. split; [|split; [|split]]; try reflexivity.
    + exact (start_version_fails H self Hh auto_ports s H0 H1 Hc).
    + unfold s2, s1, run_state, record_call. cbn [calls world].
      rewrite <- app_assoc. reflexivity.
  - intros Hc H2. split.
    + exact (start_version_ok H self Hh auto_ports s H0 H1 H2 Hc).
    + unfold s3, s2, s1, run_state, record_call. cbn [calls world].
      rewrite <- !app_assoc. reflexivity.
Qed.

End StartClaims.

(** On a host whose start command exits with 0 while the daemon stays
    down, [start] raises [CouldNotStartSplunk]; on a host whose start
    command exits with 1 while the daemon is up, [start] returns 1. *)
Lemma start_raises_CouldNotStart_iff_not_running_witness :
  (PosixPath.isabs (_splunk_home Fake.ssh_splunk) = true /\
   _binary_exists (Fake.host Fake.silent_start_failure) Fake.ssh_splunk None
     (Fake.remote_installed false) = true /\
   exit_code (run_reply (Fake.host Fake.silent_start_failure) Fake.ssh_splunk "version"
                (Fake.remote_installed false)) = 0%Z /\
   status_reports_running (Fake.host Fake.silent_start_failure) Fake.ssh_splunk
     (Fake.remote_installed false) = false /\
   fst (start (Fake.host Fake.silent_start_failure) Fake.ssh_splunk false
          (Fake.initial (Fake.remote_installed false))) =
   Raise (CouldNotStartSplunk "start" 0 "Starting splunk server daemon (splunkd)..." "")) /\
  (_binary_exists (Fake.host Fake.noisy_start) Fake.local_splunk None
     (Fake.local_installed true) = true /\
   status_reports_running (Fake.host Fake.noisy_start) Fake.local_splunk
     (Fake.local_installed true) = true /\
   fst (start (Fake.host Fake.noisy_start) Fake.local_splunk true
          (Fake.initial (Fake.local_installed true))) = Ok 1%Z).
Proof.
  split.
  - do 4 (split; [reflexivity|]).
    destruct (start_raises_CouldNotStart_iff_not_running
                (Fake.host Fake.silent_start_failure) Fake.ssh_splunk false
                (Fake.initial (Fake.remote_installed false))) as [_ HB].
    destruct (HB eq_refl eq_refl eq_refl eq_refl eq_refl) as [Hdown _].
    rewrite (Hdown eq_refl). reflexivity.
  - do 2 (split; [reflexivity|]).
    destruct (start_raises_CouldNotStart_iff_not_running
                (Fake.host Fake.noisy_start) Fake.local_splunk true
                (Fake.initial (Fake.local_installed true))) as [_ HB].
    destruct (HB eq_refl eq_refl eq_refl eq_refl eq_refl) as [_ Hup].
    destruct (Hup eq_refl) as [_ Hret].
    erewrite Hret by reflexivity. reflexivity.
Defined.

(** C1 fails as stated.  A local instance that is installed, on a host
    whose start command exits with 0 and starts nothing and whose version
    query exits with 1: the status output lacks the running token, and
    [start] raises the [CommandExecutionFailure] of the version query after
    two calls, not [CouldNotStartSplunk].  A local instance that is not
    installed: the probe answers not-running, and [start] raises
    [SplunkNotInstalled] before any call. *)
Lemma start_not_running_without_CouldNotStart :
  (_binary_exists (Fake.host Fake.silent_start_failure_broken_version) Fake.local_splunk None
     (Fake.local_installed false) = true /\
   exit_code (run_reply (Fake.host Fake.silent_start_failure_broken_version)
                Fake.local_splunk "start" (Fake.local_installed false)) = 0%Z /\
   status_reports_running (Fake.host Fake.silent_start_failure_broken_version)
     Fake.local_splunk
     (run_world (Fake.host Fake.silent_start_failure_broken_version) Fake.local_splunk "start"
        (Fake.local_installed false)) = false /\
   start (Fake.host Fake.silent_start_failure_broken_version) Fake.local_splunk false
     (Fake.initial (Fake.local_installed false)) =
   (Raise (CommandExecutionFailure "version" 1 "Splunk 4.3 (build 112175)" ""),
    mkState (Fake.local_installed false) None None
      [Popen ["/opt/splunk/bin/splunk"; "start"; "--accept-license"; "--no-prompt";
              "--answer-yes"];
       Popen ["/opt/splunk/bin/splunk"; "version"; "--accept-license"; "--no-prompt";
              "--answer-yes"]])) /\
  (is_running (Fake.host Fake.honest) Fake.local_splunk (Fake.initial Fake.empty_world) =
   (Ok false, Fake.initial Fake.empty_world) /\
   start (Fake.host Fake.honest) Fake.local_splunk false (Fake.initial Fake.empty_world) =
   (Raise SplunkNotInstalled, Fake.initial Fake.empty_world)).
Proof. repeat split; reflexivity. Qed.

(** On a host whose version query exits with 1, [start] raises the
    failure of the query after two calls. *)
Lemma start_version_query_failure_witness :
  PosixPath.isabs (_splunk_home Fake.local_splunk) = true /\
  _binary_exists (Fake.host Fake.broken_version) Fake.local_splunk None
    (Fake.local_installed false) = true /\
  exit_code (run_reply (Fake.host Fake.broken_version) Fake.local_splunk "version"
               (Fake.local_installed true)) <> 0%Z /\
  status_reports_running (Fake.host Fake.broken_version) Fake.local_splunk
    (Fake.local_installed true) = true /\
  fst (start (Fake.host Fake.broken_version) Fake.local_splunk false
         (Fake.initial (Fake.local_installed false))) =
  Raise (CommandExecutionFailure "version" 1 "Splunk 4.3 (build 112175)" "").
Proof.
  do 2 (split; [reflexivity|]). split; [discriminate|]. split; [reflexivity|].
  destruct (start_version_query_failure
              (Fake.host Fake.broken_version) Fake.local_splunk false
              (Fake.initial (Fake.local_installed false)) eq_refl eq_refl eq_refl)
    as [Hfail _].
  assert (Hc : exit_code (run_reply (Fake.host Fake.broken_version) Fake.local_splunk "version"
                 (Fake.local_installed true)) <> 0%Z) by discriminate.
  destruct (Hfail Hc) as [E _]. rewrite E. reflexivity.
Defined.

(** ** Stop and uninstall *)

Section Stop.

Context {W : Type} (H : Host W) (self : Splunk).

Lemma LocalSplunk_stop_installed (s : state W) :
  let s1 := run_state H self "stop" s in
  let s2 := run_state H self "status" s1 in
  let r := run_reply H self "stop" (world s) in
  PosixPath.isabs (_splunk_home self) = true ->
  _binary_exists H self None (world s) = true ->
  _binary_exists H self None (world s1) = true ->
  LocalSplunk_stop H self s =
  (if status_reports_running H self (world s1)
   then Raise (CouldNotStopSplunk "stop" (exit_code r) (stdout_of r) (stderr_of r))
   else Ok (Some (exit_code r)), s2).
Proof.
  intros s1 s2 r Hh H0 H1. unfold LocalSplunk_stop.
  erewrite bind_ok by (now apply execute_installed).
  fold r. unfold exit_code, stdout_of, stderr_of.
  destruct r as [[code out] err]. cbn [fst snd].
  fold s1. unfold _verify_splunk_is_not_running.
  unfold bind at 1 2. rewrite (is_running_installed H self s1 Hh H1).
  fold s2. destruct (status_reports_running H self (world s1)); reflexivity.
Qed.

(** The remote class replaces [stop] by the stop command alone. *)
Lemma SSHSplunk_stop_installed (s : state W) :
  PosixPath.isabs (_splunk_home self) = true ->
  _binary_exists H self None (world s) = true ->
  SSHSplunk_stop H self s = (Ok None, run_state H self "stop" s).
Proof.
  intros Hh H0. unfold SSHSplunk_stop.
  erewrite bind_ok by (now apply execute_installed).
  destruct (run_reply H self "stop" (world s)) as [[code out] err]. reflexivity.
Qed.

(** C2, as the code has it, in the local class.  On an instance that is
    not installed [stop] raises [SplunkNotInstalled].  With an absolute home
    and the binary present, [stop] issues the stop command, then the
    status probe, raises [CouldNotStopSplunk] with the stop command, its
    exit code, its stdout and its stderr when the probe reports running,
    and returns the exit code of the stop command otherwise; so two calls
    in a row, the probe reporting not-running after each stop command, do
    not raise. *)
Theorem LocalSplunk_stop_verifies (s : state W) :
  (cls self = LocalSplunk ->
   _binary_exists H self None (world s) = false ->
   stop H self s = (Raise SplunkNotInstalled, s)) /\
  (cls self = LocalSplunk ->
   PosixPath.isabs (_splunk_home self) = true ->
   let s1 := run_state H self "stop" s in
   let s2 := run_state H self "status" s1 in
   let s3 := run_state H self "stop" s2 in
   let s4 := run_state H self "status" s3 in
   let r := run_reply H self "stop" (world s) in
   let r' := run_reply H self "stop" (world s2) in
   _binary_exists H self None (world s) = true ->
   _binary_exists H self None (world s1) = true ->
   (stop H self s =
    (if status_reports_running H self (world s1)
     then Raise (CouldNotStopSplunk "stop" (exit_code r) (stdout_of r) (stderr_of r))
     else Ok (Some (exit_code r)), s2) /\
    calls s2 = (calls s ++ [transport_call H self (with_flags "stop") (world s);
                            transport_call H self (with_flags "status") (world s1)])%list) /\
   (_binary_exists H self None (world s2) = true ->
    _binary_exists H self None (world s3) = true ->
    status_reports_running H self (world s1) = false ->
    status_reports_running H self (world s3) = false ->
    bind (stop H self) (fun _ => stop H self) s = (Ok (Some (exit_code r')), s4))).
Proof.
  split.
  - intros Hc Hn. unfold stop. rewrite Hc. unfold LocalSplunk_stop.
    erewrite bind_raise by (now apply LocalSplunk_execute_not_installed). reflexivity.
  - intros Hc Hh s1 s2 s3 s4 r r' H0 H1.
    assert (E : stop H self = LocalSplunk_stop H self) by (unfold stop; now rewrite Hc).
    rewrite E. split; [split|].
    + exact (LocalSplunk_stop_installed s Hh H0 H1).
    + unfold s2, s1, run_state, record_call. cbn [calls world].
      rewrite <- app_assoc. reflexivity.
    + intros H2 H3 Hs1 Hs3.
      pose proof (LocalSplunk_stop_installed s Hh H0 H1) as E1.
      cbv zeta in E1. fold s1 in E1. rewrite Hs1 in E1.
      erewrite bind_ok by exact E1.
      pose proof (LocalSplunk_stop_installed s2 Hh H2 H3) as E2.
      cbv zeta in E2. fold s3 in E2. rewrite Hs3 in E2. exact E2.
Qed.

(** C7, as the code has it.  On an instance that is not installed,
    [uninstall] issues no stop and no status command, raises nothing, and
    issues one call: the recursive removal of the install root, through
    the file utilities in the local class and through the connection in
    the remote class. *)
Theorem uninstall_not_installed (s : state W) :
  _binary_exists H self None (world s) = false ->
  uninstall H self s =
  (Ok tt,
   match cls self with
   | LocalSplunk =>
       record_call s (ForceRemoveDirectory (_splunk_home self))
         (fileutils_force_remove_directory H (_splunk_home self) (world s))
   | SSHSplunk =>
       record_call s (SSHForceRemoveTree (_splunk_home self))
         (ssh_force_remove_tree H (_splunk_home self) (world s))
   end).
Proof.
  intros Hn. unfold uninstall, LocalSplunk_uninstall, SSHSplunk_uninstall,
    _stop_splunk_if_needed.
  destruct (cls self);
    unfold bind at 1 2; rewrite (is_running_not_installed H self s Hn); reflexivity.
Qed.

End Stop.

(** Two calls of [stop] on a local instance that is installed and stopped. *)
Lemma LocalSplunk_stop_verifies_witness :
  cls Fake.local_splunk = LocalSplunk /\
  PosixPath.isabs (_splunk_home Fake.local_splunk) = true /\
  _binary_exists (Fake.host Fake.honest) Fake.local_splunk None
    (Fake.local_installed false) = true /\
  status_reports_running (Fake.host Fake.honest) Fake.local_splunk
    (Fake.local_installed false) = false /\
  fst (bind (stop (Fake.host Fake.honest) Fake.local_splunk)
            (fun _ => stop (Fake.host Fake.honest) Fake.local_splunk)
            (Fake.initial (Fake.local_installed false))) = Ok (Some 0%Z) /\
  fst (stop (Fake.host Fake.honest) Fake.local_splunk (Fake.initial Fake.empty_world)) =
  Raise SplunkNotInstalled.
Proof.
  do 4 (split; [reflexivity|]). split.
  - destruct (LocalSplunk_stop_verifies (Fake.host Fake.honest) Fake.local_splunk
                (Fake.initial (Fake.local_installed false))) as [_ HL].
    destruct (HL eq_refl eq_refl eq_refl eq_refl) as [_ Htwice].
    rewrite (Htwice eq_refl eq_refl eq_refl eq_refl). reflexivity.
  - destruct (LocalSplunk_stop_verifies (Fake.host Fake.honest) Fake.local_splunk
                (Fake.initial Fake.empty_world)) as [Hno _].
    rewrite (Hno eq_refl eq_refl). reflexivity.
Defined.

(** C2 fails as stated.  A remote instance that is installed and running,
    on a host whose stop command exits with 1 and stops nothing: [stop]
    issues the stop command alone, returns nothing and raises nothing,
    while the status probe still reports running.  A local instance that
    is not installed: it is not running, and [stop] raises
    [SplunkNotInstalled]. *)
Lemma stop_unverified_or_not_installed :
  stop (Fake.host Fake.stubborn) Fake.ssh_splunk (Fake.initial (Fake.remote_installed true)) =
  (Ok None,
   mkState (Fake.remote_installed true) None None
     [SSHExecute "/opt/splunk/bin/splunk stop --accept-license --no-prompt --answer-yes"]) /\
  status_reports_running (Fake.host Fake.stubborn) Fake.ssh_splunk
    (Fake.remote_installed true) = true /\
  exit_code (run_reply (Fake.host Fake.stubborn) Fake.ssh_splunk "stop"
               (Fake.remote_installed true)) = 1%Z /\
  is_running (Fake.host Fake.honest) Fake.local_splunk (Fake.initial Fake.empty_world) =
  (Ok false, Fake.initial Fake.empty_world) /\
  stop (Fake.host Fake.honest) Fake.local_splunk (Fake.initial Fake.empty_world) =
  (Raise SplunkNotInstalled, Fake.initial Fake.empty_world).
Proof. repeat split; reflexivity. Qed.

(** An instance whose root is left without the binary. *)
Lemma uninstall_not_installed_witness :
  _binary_exists (Fake.host Fake.honest) Fake.ssh_splunk None Fake.local_leftovers = false /\
  uninstall (Fake.host Fake.honest) Fake.ssh_splunk (Fake.initial Fake.local_leftovers) =
  (Ok tt, mkState Fake.local_leftovers None None [SSHForceRemoveTree "/opt/splunk"]).
Proof.
  split; [reflexivity|].
  rewrite (uninstall_not_installed (Fake.host Fake.honest) Fake.ssh_splunk
             (Fake.initial Fake.local_leftovers) eq_refl).
  reflexivity.
Defined.

(** C7 fails as stated.  A local instance that is not installed, with a
    root that still holds a directory: [uninstall] issues the removal of
    the root, and the directory under the root is gone afterwards. *)
Lemma uninstall_not_installed_deletes :
  _binary_exists (Fake.host Fake.honest) Fake.local_splunk None Fake.local_leftovers = false /\
  calls (snd (uninstall (Fake.host Fake.honest) Fake.local_splunk
                (Fake.initial Fake.local_leftovers))) =
  [ForceRemoveDirectory "/opt/splunk"] /\
  os_path_exists (Fake.host Fake.honest) "/opt/splunk/etc" Fake.local_leftovers = true /\
  os_path_exists (Fake.host Fake.honest) "/opt/splunk/etc"
    (world (snd (uninstall (Fake.host Fake.honest) Fake.local_splunk
                   (Fake.initial Fake.local_leftovers)))) = false.
Proof. repeat split; reflexivity. Qed.

(** ** Binary location *)

Section Location.

Context {W : Type} (H : Host W) (self : Splunk).

(** C3, as the code has it.  Both classes return an absolute name
    unchanged.  For a relative name the local class returns the join of
    the root, [bin] and the name; the remote class returns the same
    path when it is a file on the remote host or when the path through
    [splunk/bin] is not, and the path through [splunk/bin] otherwise.  On
    a root that is not empty and does not end in a slash the join is the
    text [root/bin/name]. *)
Theorem get_binary_path_resolution (binary : string) (w : W) :
  (PosixPath.isabs binary = true -> get_binary_path H self binary w = binary) /\
  (PosixPath.isabs binary = false -> cls self = LocalSplunk ->
   get_binary_path H self binary w = PosixPath.join (_splunk_home self) ["bin"; binary]) /\
  (PosixPath.isabs binary = false -> cls self = SSHSplunk ->
   get_binary_path H self binary w =
   if ssh_isfile H (PosixPath.join (_splunk_home self) ["bin"; binary]) w
      || negb (ssh_isfile H (PosixPath.join (_splunk_home self) ["splunk"; "bin"; binary]) w)
   then PosixPath.join (_splunk_home self) ["bin"; binary]
   else PosixPath.join (_splunk_home self) ["splunk"; "bin"; binary]) /\
  (PosixPath.isabs binary = false ->
   PyStr.nonempty (_splunk_home self) = true ->
   PyStr.endswith_char "/" (_splunk_home self) = false ->
   PosixPath.join (_splunk_home self) ["bin"; binary] =
   (_splunk_home self ++ "/bin/" ++ binary)%string).
Proof.
  split; [|split; [|split]].
  - apply get_binary_path_abs.
  - intros Hr Hc. unfold get_binary_path, LocalSplunk_get_binary_path.
    now rewrite Hc, Hr.
  - intros Hr Hc. unfold get_binary_path, SSHSplunk_get_binary_path. rewrite Hc.
    destruct (ssh_isfile H (PosixPath.join (_splunk_home self) ["bin"; binary]) w);
      [reflexivity|].
    destruct (ssh_isfile H (PosixPath.join (_splunk_home self) ["splunk"; "bin"; binary]) w);
      reflexivity.
  - intros Hr Hn Hs. now apply join_bin_text.
Qed.

End Location.

Lemma get_binary_path_resolution_witness :
  PosixPath.isabs "btool" = false /\
  PosixPath.isabs "/foo/bar" = true /\
  get_binary_path (Fake.host Fake.honest) Fake.local_splunk "btool" Fake.empty_world =
  "/opt/splunk/bin/btool" /\
  get_binary_path (Fake.host Fake.honest) Fake.ssh_splunk "btool" Fake.empty_world =
  "/opt/splunk/bin/btool" /\
  get_binary_path (Fake.host Fake.honest) Fake.ssh_splunk "/foo/bar" Fake.remote_nested =
  "/foo/bar".
Proof.
  do 2 (split; [reflexivity|]).
  destruct (get_binary_path_resolution (Fake.host Fake.honest) Fake.local_splunk
              "btool" Fake.empty_world) as (_ & Hlocal & _ & Htext).
  destruct (get_binary_path_resolution (Fake.host Fake.honest) Fake.ssh_splunk
              "btool" Fake.empty_world) as (_ & _ & Hremote & _).
  destruct (get_binary_path_resolution (Fake.host Fake.honest) Fake.ssh_splunk
              "/foo/bar" Fake.remote_nested) as (Habs & _).
  split; [|split].
  - rewrite (Hlocal eq_refl eq_refl). exact (Htext eq_refl eq_refl eq_refl).
  - rewrite (Hremote eq_refl eq_refl). reflexivity.
  - exact (Habs eq_refl).
Defined.

(** C3 fails as stated.  A remote host that holds the product under
    [/opt/splunk/splunk]: the relative name [splunk] is resolved to the
    path through [splunk/bin], not to [root/bin/name]. *)
Lemma get_binary_path_remote_fallback :
  PosixPath.isabs "splunk" = false /\
  get_binary_path (Fake.host Fake.honest) Fake.ssh_splunk "splunk" Fake.remote_nested =
  "/opt/splunk/splunk/bin/splunk" /\
  PosixPath.join (_splunk_home Fake.ssh_splunk) ["bin"; "splunk"] = "/opt/splunk/bin/splunk" /\
  get_binary_path (Fake.host Fake.honest) Fake.ssh_splunk "splunk" Fake.remote_nested <>
  PosixPath.join (_splunk_home Fake.ssh_splunk) ["bin"; "splunk"].
Proof. repeat split; try reflexivity. discriminate. Qed.

(** ** Install from an archive *)

Section Install.

Context {W : Type} (H : Host W) (self : Splunk).

Lemma name_in_In (name : string) (entries : list string) :
  name_in name entries = true <-> In name entries.
Proof.
  unfold name_in. rewrite existsb_exists. split.
  - intros (x & Hx & E). apply String.eqb_eq in E. now subst.
  - intros Hx. exists name. split; [exact Hx|apply String.eqb_refl].
Qed.

Lemma find_archive_directory_first (names entries : list string) (directory : string) :
  find_archive_directory names entries directory =
  match first_candidate_present names entries with
  | Some name => Ok (PosixPath.join directory [name])
  | None => Raise CouldNotFindSplunkDirectory
  end.
Proof.
  induction names as [|name rest IH]; [reflexivity|].
  simpl. destruct (name_in name entries); [reflexivity|exact IH].
Qed.

Lemma first_candidate_present_Some (names entries : list string) (name : string) :
  first_candidate_present names entries = Some name <->
  exists before after,
    names = (before ++ name :: after)%list /\ In name entries /\
    forall m, In m before -> ~ In m entries.
Proof.
  unfold first_candidate_present.
  induction names as [|x rest IH]; simpl.
  - split; [discriminate|]. intros (before & after & E & _). destruct before; discriminate.
  - destruct (name_in x entries) eqn:Ex.
    + split.
      * intros E. inversion E. subst x. exists [], rest. repeat split.
        -- now apply name_in_In.
        -- intros m [].
      * intros (before & after & E & Hin & Hnot).
        destruct before as [|b before]; simpl in E; inversion E; subst; [reflexivity|].
        exfalso. apply (Hnot b); [now left|]. now apply name_in_In.
    + rewrite IH. split.
      * intros (before & after & E & Hin & Hnot). exists (x :: before), after.
        subst rest. repeat split; [exact Hin|].
        intros m [<-|Hm]; [|now apply Hnot].
        intros Hx. apply name_in_In in Hx. congruence.
      * intros (before & after & E & Hin & Hnot).
        destruct before as [|b before]; simpl in E; inversion E; subst.
        -- apply name_in_In in Hin. congruence.
        -- exists before, after. repeat split; [exact Hin|].
           intros m Hm. apply Hnot. now right.
Qed.

Lemma first_candidate_present_None (names entries : list string) :
  first_candidate_present names entries = None <->
  forall m, In m names -> ~ In m entries.
Proof.
  unfold first_candidate_present. split.
  - intros E m Hm Hin. apply (find_none _ _ E) in Hm.
    apply name_in_In in Hin. congruence.
  - intros Hnot. induction names as [|x rest IH]; [reflexivity|].
    simpl. destruct (name_in x entries) eqn:Ex.
    + exfalso. apply (Hnot x); [now left|]. now apply name_in_In.
    + apply IH. intros m Hm. apply Hnot. now right.
Qed.

Lemma _find_archive_directory_name_first (directory : string) (s : state W) :
  _find_archive_directory_name H directory s =
  (match first_candidate_present _POSSIBLE_ARCHIVE_DIRECTORIES
           (os_listdir H directory (world s)) with
   | Some name => Ok (PosixPath.join directory [name])
   | None => Raise CouldNotFindSplunkDirectory
   end, s).
Proof.
  unfold _find_archive_directory_name, bind, ask.
  now rewrite find_archive_directory_first.
Qed.

(** The cleanup of [install_from_archive] cannot raise, so the outcome of
    the body is the outcome of the whole. *)
Lemma try_finally_force_remove {A} (body : M W A) (directory : string) (s : state W) :
  try_finally body (force_remove_directory H directory) s =
  (fst (body s),
   record_call (snd (body s)) (ForceRemoveDirectory directory)
     (fileutils_force_remove_directory H directory (world (snd (body s))))).
Proof.
  unfold try_finally, force_remove_directory, perform.
  destruct (body s) as [r s1]. reflexivity.
Qed.

Lemma install_from_archive_steps (archive_path directory : string) (s s1 s2 : state W) :
  _stop_splunk_if_needed H self s = (Ok tt, s1) ->
  mkdtemp H s1 = (Ok directory, s2) ->
  install_from_archive H self archive_path s =
  try_finally (_install_archive_with_temp_directory H self archive_path directory)
              (force_remove_directory H directory) s2.
Proof.
  intros E1 E2. unfold install_from_archive.
  erewrite bind_ok by exact E1. erewrite bind_ok by exact E2. reflexivity.
Qed.

Lemma _install_archive_extract_fails (archive_path directory why : string)
      (s : state W) (w : W) :
  archiver_extract H archive_path directory (world s) = (Failed why, w) ->
  _install_archive_with_temp_directory H self archive_path directory s =
  (Raise (External why), record_call s (ArchiverExtract archive_path directory) w).
Proof.
  intros E. unfold _install_archive_with_temp_directory, bind, attempt.
  now rewrite E.
Qed.

Lemma _install_archive_probe_fails (archive_path directory : string)
      (s : state W) (w : W) :
  archiver_extract H archive_path directory (world s) = (Done tt, w) ->
  first_candidate_present _POSSIBLE_ARCHIVE_DIRECTORIES (os_listdir H directory w) = None ->
  _install_archive_with_temp_directory H self archive_path directory s =
  (Raise CouldNotFindSplunkDirectory,
   record_call s (ArchiverExtract archive_path directory) w).
Proof.
  intros E Hn. unfold _install_archive_with_temp_directory.
  unfold bind at 1. unfold attempt. rewrite E.
  erewrite bind_raise; [reflexivity|].
  rewrite _find_archive_directory_name_first. cbn [world record_call]. now rewrite Hn.
Qed.

(** C4. [install_from_archive] removes the scratch directory it has
    created on every exit: the call ends with the removal of the
    directory, its outcome is that of the body (a return, an exception of
    the archiver, [CouldNotFindSplunkDirectory], an exception of the
    move), and the directory is absent from the world the call leaves.
    The removal is that of the file utilities, taken to leave no entry at
    the path it is given.  The one exit that comes before the creation is
    an exception of the stop that opens the method: no scratch directory
    exists then. *)
Theorem install_from_archive_removes_scratch (archive_path : string) (s : state W) :
  (forall p w, os_path_exists H p (fileutils_force_remove_directory H p w) = false) ->
  (forall e s1,
      _stop_splunk_if_needed H self s = (Raise e, s1) ->
      install_from_archive H self archive_path s = (Raise e, s1)) /\
  (forall s1 directory s2,
      _stop_splunk_if_needed H self s = (Ok tt, s1) ->
      mkdtemp H s1 = (Ok directory, s2) ->
      let body := _install_archive_with_temp_directory H self archive_path directory s2 in
      let result := install_from_archive H self archive_path s in
      fst result = fst body /\
      snd result = record_call (snd body) (ForceRemoveDirectory directory)
                     (fileutils_force_remove_directory H directory (world (snd body))) /\
      os_path_exists H directory (world (snd result)) = false /\
      (forall why w,
          archiver_extract H archive_path directory (world s2) = (Failed why, w) ->
          fst result = Raise (External why)) /\
      (forall w,
          archiver_extract H archive_path directory (world s2) = (Done tt, w) ->
          first_candidate_present _POSSIBLE_ARCHIVE_DIRECTORIES
            (os_listdir H directory w) = None ->
          fst result = Raise CouldNotFindSplunkDirectory)).
Proof.
  intros Hrm. split.
  - intros e s1 E1. unfold install_from_archive. now erewrite bind_raise by exact E1.
  - intros s1 directory s2 E1 E2 body result.
    assert (E : result =
                (fst body,
                 record_call (snd body) (ForceRemoveDirectory directory)
                   (fileutils_force_remove_directory H directory (world (snd body))))).
    { unfold result.
      rewrite (install_from_archive_steps archive_path directory s s1 s2 E1 E2).
      apply try_finally_force_remove. }
    rewrite E. cbn [fst snd]. split; [reflexivity|]. split; [reflexivity|].
    split; [apply Hrm|]. split.
    + intros why w Ex. unfold body.
      now rewrite (_install_archive_extract_fails archive_path directory why s2 w Ex).
    + intros w Ex Hn. unfold body.
      now rewrite (_install_archive_probe_fails archive_path directory s2 w Ex Hn).
Qed.

(** C5. The product root is the first name of the candidate list
    [splunk], [splunkforwarder], [splunkbeta], [splunkforwarderbeta] that
    is among the entries of the scratch directory, joined to the
    directory: every candidate before it is missing from the entries.
    When no candidate is among the entries the search raises
    [CouldNotFindSplunkDirectory], and so do the install step and
    [install_from_archive]. *)
Theorem find_archive_directory_first_candidate
        (archive_path directory : string) (s : state W) :
  let entries := os_listdir H directory (world s) in
  _POSSIBLE_ARCHIVE_DIRECTORIES =
  ["splunk"; "splunkforwarder"; "splunkbeta"; "splunkforwarderbeta"] /\
  (forall path,
      _find_archive_directory_name H directory s = (Ok path, s) <->
      exists name before after,
        path = PosixPath.join directory [name] /\
        _POSSIBLE_ARCHIVE_DIRECTORIES = (before ++ name :: after)%list /\
        In name entries /\ forall m, In m before -> ~ In m entries) /\
  (_find_archive_directory_name H directory s = (Raise CouldNotFindSplunkDirectory, s) <->
   forall m, In m _POSSIBLE_ARCHIVE_DIRECTORIES -> ~ In m entries) /\
  (forall s0 s1 s2,
      _stop_splunk_if_needed H self s0 = (Ok tt, s1) ->
      mkdtemp H s1 = (Ok directory, s2) ->
      archiver_extract H archive_path directory (world s2) = (Done tt, world s) ->
      (forall m, In m _POSSIBLE_ARCHIVE_DIRECTORIES -> ~ In m entries) ->
      fst (install_from_archive H self archive_path s0) = Raise CouldNotFindSplunkDirectory).
Proof.
  intros entries. split; [reflexivity|].
  rewrite _find_archive_directory_name_first. fold entries.
  split; [|split].
  - intros path.
    destruct (first_candidate_present _POSSIBLE_ARCHIVE_DIRECTORIES entries) as [n|] eqn:E.
    + split.
      * intros E1. inversion E1 as [E2]. clear E1.
        apply first_candidate_present_Some in E as (before & after & Ea & Hin & Hnot).
        now exists n, before, after.
      * intros (name & before & after & -> & Ea & Hin & Hnot).
        assert (E' : first_candidate_present _POSSIBLE_ARCHIVE_DIRECTORIES entries = Some name)
          by (apply first_candidate_present_Some; now exists before, after).
        congruence.
    + split; [discriminate|].
      intros (name & before & after & -> & Ea & Hin & Hnot).
      assert (E' : first_candidate_present _POSSIBLE_ARCHIVE_DIRECTORIES entries = Some name)
        by (apply first_candidate_present_Some; now exists before, after).
      congruence.
  - rewrite <- first_candidate_present_None.
    destruct (first_candidate_present _POSSIBLE_ARCHIVE_DIRECTORIES entries); split;
      congruence.
  - intros s0 s1 s2 E1 E2 Ex Hnone.
    rewrite (install_from_archive_steps archive_path directory s0 s1 s2 E1 E2).
    rewrite try_finally_force_remove. cbn [fst].
    apply first_candidate_present_None in Hnone.
    now rewrite (_install_archive_probe_fails archive_path directory s2 (world s) Ex Hnone).
Qed.

End Install.

Lemma Fake_remove_tree_gone (p : string) (fs : list (string * Fake.node)) :
  Fake.has_path p (Fake.remove_tree p fs) = false.
Proof.
  unfold Fake.has_path, Fake.remove_tree.
  induction fs as [|e fs IH]; [reflexivity|].
  simpl. destruct (Fake.within p (fst e)) eqn:Ew; simpl; [exact IH|].
  unfold Fake.within in Ew. apply orb_false_iff in Ew as [Ee _].
  now rewrite Ee, IH.
Qed.

(** The three exits of [install_from_archive] on the in-memory host: an
    archive with a [splunk] directory, an archive with a directory of
    another name, and a path that is no archive. *)
Lemma install_from_archive_removes_scratch_witness :
  (forall p w,
      os_path_exists (Fake.host Fake.honest) p
        (fileutils_force_remove_directory (Fake.host Fake.honest) p w) = false) /\
  mkdtemp (Fake.host Fake.honest) (Fake.initial Fake.empty_world) =
  (Ok "/tmp/tmp",
   mkState (Fake.mkWorld [("/tmp/tmp", Fake.Dir)] [] false 1) None None [Mkdtemp "/tmp/tmp"]) /\
  (fst (install_from_archive (Fake.host Fake.honest) Fake.local_splunk "/tmp/splunk.tgz"
          (Fake.initial Fake.empty_world)) = Ok tt /\
   os_path_exists (Fake.host Fake.honest) "/tmp/tmp"
     (world (snd (install_from_archive (Fake.host Fake.honest) Fake.local_splunk
                    "/tmp/splunk.tgz" (Fake.initial Fake.empty_world)))) = false) /\
  (fst (install_from_archive (Fake.host Fake.honest) Fake.local_splunk "/tmp/odd.tgz"
          (Fake.initial Fake.empty_world)) = Raise CouldNotFindSplunkDirectory /\
   os_path_exists (Fake.host Fake.honest) "/tmp/tmp"
     (world (snd (install_from_archive (Fake.host Fake.honest) Fake.local_splunk
                    "/tmp/odd.tgz" (Fake.initial Fake.empty_world)))) = false) /\
  (fst (install_from_archive (Fake.host Fake.honest) Fake.local_splunk "/tmp/none.tgz"
          (Fake.initial Fake.empty_world)) = Raise (External "not an archive") /\
   os_path_exists (Fake.host Fake.honest) "/tmp/tmp"
     (world (snd (install_from_archive (Fake.host Fake.honest) Fake.local_splunk
                    "/tmp/none.tgz" (Fake.initial Fake.empty_world)))) = false).
Proof.
  assert (Hrm : forall p w,
             os_path_exists (Fake.host Fake.honest) p
               (fileutils_force_remove_directory (Fake.host Fake.honest) p w) = false)
    by (intros p w; apply Fake_remove_tree_gone).
  split; [exact Hrm|]. split; [reflexivity|].
  split; [|split].
  - destruct (proj2 (install_from_archive_removes_scratch (Fake.host Fake.honest)
                       Fake.local_splunk "/tmp/splunk.tgz" (Fake.initial Fake.empty_world) Hrm)
                _ "/tmp/tmp" _ eq_refl eq_refl) as (Hout & _ & Hgone & _).
    split; [rewrite Hout; reflexivity|exact Hgone].
  - destruct (proj2 (install_from_archive_removes_scratch (Fake.host Fake.honest)
                       Fake.local_splunk "/tmp/odd.tgz" (Fake.initial Fake.empty_world) Hrm)
                _ "/tmp/tmp" _ eq_refl eq_refl) as (_ & _ & Hgone & _ & Hprobe).
    split; [|exact Hgone]. eapply Hprobe; reflexivity.
  - destruct (proj2 (install_from_archive_removes_scratch (Fake.host Fake.honest)
                       Fake.local_splunk "/tmp/none.tgz" (Fake.initial Fake.empty_world) Hrm)
                _ "/tmp/tmp" _ eq_refl eq_refl) as (_ & _ & Hgone & Hextract & _).
    split; [|exact Hgone]. eapply Hextract; reflexivity.
Defined.

(** The search on a scratch directory that holds [splunkforwarder] and
    [splunkbeta], and the install of an archive without any candidate. *)
Lemma find_archive_directory_first_candidate_witness :
  _find_archive_directory_name (Fake.host Fake.honest) "/scratch"
    (Fake.initial (Fake.mkWorld [("/scratch/splunkbeta", Fake.Dir);
                                 ("/scratch/splunkforwarder", Fake.Dir)] [] false 0)) =
  (Ok "/scratch/splunkforwarder",
   Fake.initial (Fake.mkWorld [("/scratch/splunkbeta", Fake.Dir);
                               ("/scratch/splunkforwarder", Fake.Dir)] [] false 0)) /\
  fst (install_from_archive (Fake.host Fake.honest) Fake.ssh_splunk "/tmp/odd.tgz"
         (Fake.initial Fake.empty_world)) = Raise CouldNotFindSplunkDirectory.
Proof.
  split.
  - destruct (find_archive_directory_first_candidate (Fake.host Fake.honest) Fake.local_splunk
                "/tmp/x.tgz" "/scratch"
                (Fake.initial (Fake.mkWorld [("/scratch/splunkbeta", Fake.Dir);
                                             ("/scratch/splunkforwarder", Fake.Dir)] [] false 0)))
      as (_ & Hfound & _).
    apply Hfound. exists "splunkforwarder", ["splunk"], ["splunkbeta"; "splunkforwarderbeta"].
    split; [reflexivity|]. split; [reflexivity|]. split.
    + simpl. right. now left.
    + intros m [<-|[]]. simpl. intros [E|[E|[]]]; discriminate.
  - destruct (find_archive_directory_first_candidate (Fake.host Fake.honest) Fake.ssh_splunk
                "/tmp/odd.tgz" "/tmp/tmp"
                (Fake.initial (Fake.mkWorld [("/tmp/tmp", Fake.Dir);
                                             ("/tmp/tmp/product", Fake.Dir);
                                             ("/tmp/tmp/product/bin", Fake.Dir)] [] false 1)))
      as (_ & _ & _ & Hinstall).
    eapply Hinstall; try reflexivity.
    apply first_candidate_present_None. reflexivity.
Defined.

(** ** Port reads *)

Section Ports.

Import PyStr.

Lemma digits_value_None (r : string) (acc : Z) :
  digits_value r acc = None <-> all_digits r = false.
Proof.
  revert acc. induction r as [|c r IH]; intros acc; simpl.
  - split; discriminate.
  - unfold digit_value, isdigit.
    destruct (Nat.leb 48 (nat_of_ascii c) && Nat.leb (nat_of_ascii c) 57); simpl.
    + apply IH.
    + split; reflexivity.
Qed.

Lemma decimal_None (t : string) :
  decimal t = None <-> nonempty t && all_digits t = false.
Proof.
  destruct t as [|c r]; [split; reflexivity|].
  change (decimal (String c r)) with (digits_value (String c r) 0).
  rewrite digits_value_None. reflexivity.
Qed.

(** [int] rejects a string exactly when it is not a decimal integer
    literal. *)
Lemma int_of_str_None (s : string) :
  int_of_str s = None <-> is_decimal_integer s = false.
Proof.
  unfold int_of_str, is_decimal_integer. cbv zeta.
  rewrite <- decimal_None.
  destruct (decimal (unsigned_part (strip s))); simpl; split; congruence.
Qed.

Context {W : Type} (H : Host W) (self : Splunk).

Lemma _read_port_from_command_installed (command : string) (s : state W) :
  PosixPath.isabs (_splunk_home self) = true ->
  _binary_exists H self None (world s) = true ->
  _read_port_from_command H self command s =
  (let r := run_reply H self command (world s) in
   if negb (Z.eqb (exit_code r) 0) then Ok None
   else match int_of_str (last_item (split_lines (strip (stdout_of r)))) with
        | Some port => Ok (Some port)
        | None => Raise ValueError
        end,
   run_state H self command s).
Proof.
  intros Hh Hi. unfold _read_port_from_command.
  unfold bind at 1. unfold ask at 1. rewrite Hi. cbn [negb].
  erewrite bind_ok by (now apply execute_installed).
  unfold exit_code, stdout_of.
  destruct (run_reply H self command (world s)) as [[code out] err]. cbn [fst snd].
  destruct (negb (Z.eqb code 0)); [reflexivity|].
  destruct (int_of_str _); reflexivity.
Qed.

(** C6. A port read returns [None] without issuing any call when the
    splunk binary is absent.  With the binary present (and an absolute
    home) the port command is issued; the read returns [None] when the
    command exits with a code other than 0, and when it exits with 0 and
    the last non-empty line of its stdout is a number, the read returns
    that number.  So the stdout [warning...], line feed, [8089], line
    feed gives 8089. *)
Theorem _read_port_from_command_result (command : string) (s : state W) :
  (_binary_exists H self None (world s) = false ->
   _read_port_from_command H self command s = (Ok None, s)) /\
  (PosixPath.isabs (_splunk_home self) = true ->
   _binary_exists H self None (world s) = true ->
   let r := run_reply H self command (world s) in
   (exit_code r <> 0%Z ->
    _read_port_from_command H self command s = (Ok None, run_state H self command s)) /\
   (exit_code r = 0%Z ->
    forall port, int_of_str (last_nonempty_line (stdout_of r)) = Some port ->
                 _read_port_from_command H self command s =
                 (Ok (Some port), run_state H self command s))) /\
  int_of_str (last_nonempty_line ("warning..." ++ String LF ("8089" ++ String LF ""))) =
  Some 8089%Z.
Proof.
  split; [|split; [|reflexivity]].
  - intros Hn. unfold _read_port_from_command, bind, ask. now rewrite Hn.
  - intros Hh Hi r. rewrite (_read_port_from_command_installed command s Hh Hi).
    cbv zeta. fold r. split.
    + intros Hc. apply Z.eqb_neq in Hc. now rewrite Hc.
    + intros Hc port Hp. rewrite Hc. cbn [Z.eqb negb].
      now rewrite (int_of_last_line _ _ Hp).
Qed.

(** C9. When the port command exits with 0 and the last line of its
    stripped stdout is not a decimal integer literal, the port read raises
    [ValueError]; it does not return [None]. *)
Theorem _read_port_from_command_ValueError (command : string) (s : state W) :
  PosixPath.isabs (_splunk_home self) = true ->
  _binary_exists H self None (world s) = true ->
  let r := run_reply H self command (world s) in
  exit_code r = 0%Z ->
  is_decimal_integer (last_item (split_lines (strip (stdout_of r)))) = false ->
  _read_port_from_command H self command s = (Raise ValueError, run_state H self command s).
Proof.
  intros Hh Hi r Hc Hd. rewrite (_read_port_from_command_installed command s Hh Hi).
  cbv zeta. fold r. rewrite Hc. cbn [Z.eqb negb].
  apply int_of_str_None in Hd. now rewrite Hd.
Qed.

End Ports.

(** The three answers of a port read on the in-memory host. *)
Lemma _read_port_from_command_result_witness :
  _binary_exists (Fake.host Fake.honest) Fake.ssh_splunk None Fake.empty_world = false /\
  PosixPath.isabs (_splunk_home Fake.ssh_splunk) = true /\
  _binary_exists (Fake.host Fake.honest) Fake.ssh_splunk None
    (Fake.remote_installed true) = true /\
  exit_code (run_reply (Fake.host Fake.honest) Fake.ssh_splunk "soapport"
               (Fake.remote_installed true)) = 0%Z /\
  exit_code (run_reply (Fake.host Fake.honest) Fake.ssh_splunk "show"
               (Fake.remote_installed true)) <> 0%Z /\
  fst (_read_port_from_command (Fake.host Fake.honest) Fake.ssh_splunk "soapport"
         (Fake.initial Fake.empty_world)) = Ok None /\
  fst (_read_port_from_command (Fake.host Fake.honest) Fake.ssh_splunk "show"
         (Fake.initial (Fake.remote_installed true))) = Ok None /\
  fst (_read_port_from_command (Fake.host Fake.honest) Fake.ssh_splunk "soapport"
         (Fake.initial (Fake.remote_installed true))) = Ok (Some 8089%Z).
Proof.
  do 4 (split; [reflexivity|]). split; [discriminate|].
  destruct (_read_port_from_command_result (Fake.host Fake.honest) Fake.ssh_splunk "soapport"
              (Fake.initial Fake.empty_world)) as (Habsent & _ & _).
  destruct (_read_port_from_command_result (Fake.host Fake.honest) Fake.ssh_splunk "show"
              (Fake.initial (Fake.remote_installed true))) as (_ & Hshow & _).
  destruct (_read_port_from_command_result (Fake.host Fake.honest) Fake.ssh_splunk "soapport"
              (Fake.initial (Fake.remote_installed true))) as (_ & Hport & _).
  split; [|split].
  - rewrite (Habsent eq_refl). reflexivity.
  - destruct (Hshow eq_refl eq_refl) as [Hnonzero _].
    rewrite Hnonzero; [reflexivity|discriminate].
  - destruct (Hport eq_refl eq_refl) as [_ Hzero].
    rewrite (Hzero eq_refl 8089%Z eq_refl). reflexivity.
Defined.

(** A port command that exits with 0 and prints [Web port: 8000]. *)
Lemma _read_port_from_command_ValueError_witness :
  PosixPath.isabs (_splunk_home Fake.local_splunk) = true /\
  _binary_exists (Fake.host Fake.chatty_ports) Fake.local_splunk None
    (Fake.local_installed true) = true /\
  exit_code (run_reply (Fake.host Fake.chatty_ports) Fake.local_splunk "soapport"
               (Fake.local_installed true)) = 0%Z /\
  PyStr.is_decimal_integer "Web port: 8000" = false /\
  fst (_read_port_from_command (Fake.host Fake.chatty_ports) Fake.local_splunk "soapport"
         (Fake.initial (Fake.local_installed true))) = Raise ValueError.
Proof.
  do 4 (split; [reflexivity|]).
  rewrite (_read_port_from_command_ValueError (Fake.host Fake.chatty_ports) Fake.local_splunk
             "soapport" (Fake.initial (Fake.local_installed true))
             eq_refl eq_refl eq_refl eq_refl).
  reflexivity.
Defined.

(** ** Apps *)

Section Apps.

Context {W : Type} (H : Host W) (self : Splunk).

(** The local class extracts the package into the apps directory. *)
Lemma LocalSplunk_install_app_extracts (name package : string) (s : state W) :
  cls self = LocalSplunk ->
  install_app H self name package s =
  (match fst (archiver_extract H package (apps_dir self) (world s)) with
   | Done _ => Ok None
   | Failed why => Raise (External why)
   end,
   record_call s (ArchiverExtract package (apps_dir self))
     (snd (archiver_extract H package (apps_dir self) (world s)))).
Proof.
  intros Hc. unfold install_app, LocalSplunk_install_app, bind, attempt. rewrite Hc.
  destruct (archiver_extract H package (apps_dir self) (world s)) as [[u|why] w];
    reflexivity.
Qed.

(** The remote class gives up, with [False] and without any call, when
    the app is not already on the remote host. *)
Lemma SSHSplunk_install_app_absent (name package : string) (s : state W) :
  cls self = SSHSplunk ->
  ssh_isdir H (_path_to_app self name) (world s) = false ->
  install_app H self name package s = (Ok (Some false), s).
Proof.
  intros Hc Ha. unfold install_app, SSHSplunk_install_app, SSHSplunk_has_app, bind, ask.
  now rewrite Hc, Ha.
Qed.

(** Past that guard the remote class creates its scratch directory,
    extracts, sends, and removes the scratch directory whatever the
    outcome. *)
Lemma SSHSplunk_install_app_present (name package : string) (s : state W) :
  cls self = SSHSplunk ->
  ssh_isdir H (_path_to_app self name) (world s) = true ->
  let path := PosixPath.join (tempfile_gettempdir H (world s)) ["ssh_splunk_temp_" ++ name] in
  let body := bind (attempt (Makedirs path) (os_makedirs H path))
                   (fun _ => bind (_install_app_with_tempdir H self name package path)
                                  (fun _ => ret (Some true))) in
  install_app H self name package s =
  (fst (body s),
   record_call (snd (body s)) (ForceRemoveDirectory path)
     (fileutils_force_remove_directory H path (world (snd (body s))))).
Proof.
  intros Hc Ha path body.
  unfold install_app, SSHSplunk_install_app, SSHSplunk_has_app. rewrite Hc.
  unfold bind at 1. unfold ask at 1. rewrite Ha. cbn [negb].
  unfold bind at 1. unfold ask at 1. fold path.
  apply try_finally_force_remove.
Qed.

End Apps.

(** C8 on the code.  On a remote instance whose apps directory does not
    hold [myapp] yet, [install_app] returns [False] and issues no call:
    nothing is extracted and nothing is sent.  The local class, on the
    same package, extracts it into the apps directory; and the remote
    class, once the app directory exists, extracts into a scratch
    directory, sends it and removes it. *)
Theorem install_app_remote_skips_new_app :
  SSHSplunk_has_app (Fake.host Fake.honest) Fake.ssh_splunk "myapp"
    (Fake.remote_installed true) = false /\
  install_app (Fake.host Fake.honest) Fake.ssh_splunk "myapp" "/tmp/myapp.tgz"
    (Fake.initial (Fake.remote_installed true)) =
  (Ok (Some false), Fake.initial (Fake.remote_installed true)) /\
  calls (snd (install_app (Fake.host Fake.honest) Fake.local_splunk "myapp" "/tmp/myapp.tgz"
                (Fake.initial (Fake.local_installed true)))) =
  [ArchiverExtract "/tmp/myapp.tgz" "/opt/splunk/etc/apps"] /\
  calls (snd (install_app (Fake.host Fake.honest) Fake.ssh_splunk "myapp" "/tmp/myapp.tgz"
                (Fake.initial
                   (Fake.mkWorld [] (Fake.tree "/opt/splunk" ++
                                     [("/opt/splunk/etc/apps/myapp", Fake.Dir)]) true 0)))) =
  [Makedirs "/tmp/ssh_splunk_temp_myapp";
   ArchiverExtract "/tmp/myapp.tgz" "/tmp/ssh_splunk_temp_myapp";
   SSHSend "/tmp/ssh_splunk_temp_myapp" "/opt/splunk/etc/apps/myapp";
   ForceRemoveDirectory "/tmp/ssh_splunk_temp_myapp"].
Proof. repeat split; reflexivity. Qed.

(** ** A whole scenario

    A remote instance that is not installed: the archive is extracted into
    the scratch directory, [splunk] is found there and sent to the install
    root, the scratch directory is removed; then [start] runs the start
    command, the version query, the status probe and the two port queries,
    notifies the listeners and returns the exit code 0. *)
Example install_then_start :
  let run :=
    bind (install_from_archive (Fake.host Fake.honest) Fake.ssh_splunk "/tmp/splunk.tgz")
         (fun _ => start (Fake.host Fake.honest) Fake.ssh_splunk false)
         (Fake.initial Fake.empty_world) in
  fst run = Ok 0%Z /\
  firstn 4 (calls (snd run)) =
  [Mkdtemp "/tmp/tmp";
   ArchiverExtract "/tmp/splunk.tgz" "/tmp/tmp";
   SSHSend "/tmp/tmp/splunk" "/opt/splunk";
   ForceRemoveDirectory "/tmp/tmp"] /\
  List.length (calls (snd run)) = 10%nat /\
  _splunkd_port (snd run) = Some 8089%Z /\
  _web_port (snd run) = Some 8000%Z /\
  Fake.running (world (snd run)) = true.
Proof. vm_compute. repeat split. Qed.

(** ** Commands and binaries *)

Section Commands.

Context {W : Type} (H : Host W) (self : Splunk).


(** [get_binary_path] applied to its own result changes nothing when the
    home is absolute. *)
Theorem get_binary_path_idempotent (binary : string) (w : W) :
  PosixPath.isabs (_splunk_home self) = true ->
  get_binary_path H self (get_binary_path H self binary w) w =
  get_binary_path H self binary w.
Proof.
  intros Hh. apply get_binary_path_abs. now apply get_binary_path_isabs.
Qed.

(** With a relative home (the setter of [splunk_home] stores any string)
    the existence test of the local class resolves the splunk binary twice
    and looks at [home/bin/home/bin/splunk]. *)
Theorem _binary_exists_relative_home (w : W) :
  cls self = LocalSplunk ->
  PosixPath.isabs (_splunk_home self) = false ->
  PyStr.nonempty (_splunk_home self) = true ->
  PyStr.endswith_char "/" (_splunk_home self) = false ->
  splunk_binary H self w = (_splunk_home self ++ "/bin/splunk")%string /\
  _binary_exists H self None w =
  os_path_isfile H (_splunk_home self ++ "/bin/" ++ _splunk_home self ++ "/bin/splunk") w.
Proof.
  intros Hc Hr Hn Hs.
  assert (E1 : splunk_binary H self w = (_splunk_home self ++ "/bin/splunk")%string).
  { unfold splunk_binary, get_binary_path, LocalSplunk_get_binary_path. rewrite Hc.
    cbn [PosixPath.isabs]. now apply join_bin_text. }
  assert (E2 : PosixPath.isabs (_splunk_home self ++ "/bin/splunk") = false).
  { destruct (_splunk_home self) as [|c r]; [discriminate|]. exact Hr. }
  split; [exact E1|].
  unfold _binary_exists. rewrite Hc, E1. cbn [PyStr.str_or].
  unfold get_binary_path, LocalSplunk_get_binary_path. rewrite Hc, E2.
  rewrite (join_bin_text _ _ Hn Hs E2).
  destruct (_splunk_home self) as [|c r]; [discriminate|]. reflexivity.
Qed.



(** [is_running] tests the binary before it runs anything: on an instance
    that is not installed it returns [False] without a call, in both
    classes.  On an installed instance with an absolute home it issues one
    call, the status command with the common flags, and from the reply of
    that call returns whether the standard output holds the text
    [splunkd is running], whatever the exit code; the cached ports stay as
    they are. *)
Theorem is_running_outcomes (s : state W) :
  (_binary_exists H self None (world s) = false ->
   is_running H self s = (Ok false, s)) /\
  (PosixPath.isabs (_splunk_home self) = true ->
   _binary_exists H self None (world s) = true ->
   let r := run_reply H self "status" (world s) in
   let s' := run_state H self "status" s in
   is_running H self s = (Ok (PyStr.contains "splunkd is running" (stdout_of r)), s') /\
   calls s' = (calls s ++ [transport_call H self (with_flags "status") (world s)])%list /\
   _splunkd_port s' = _splunkd_port s /\ _web_port s' = _web_port s).
Proof.
  split.
  - apply is_running_not_installed.
  - intros Hh Hi r s'. split; [|repeat split].
    exact (is_running_installed H self s Hh Hi).
Qed.

End Commands.

Lemma get_binary_path_idempotent_witness :
  PosixPath.isabs (_splunk_home Fake.ssh_splunk) = true /\
  get_binary_path (Fake.host Fake.honest) Fake.ssh_splunk
    (get_binary_path (Fake.host Fake.honest) Fake.ssh_splunk "splunk" Fake.remote_nested)
    Fake.remote_nested = "/opt/splunk/splunk/bin/splunk".
Proof.
  split; [reflexivity|].
  rewrite (get_binary_path_idempotent (Fake.host Fake.honest) Fake.ssh_splunk "splunk"
             Fake.remote_nested eq_refl).
  reflexivity.
Defined.

Lemma _binary_exists_relative_home_witness :
  cls FakeMore.local_relative = LocalSplunk /\
  PosixPath.isabs (_splunk_home FakeMore.local_relative) = false /\
  _binary_exists (Fake.host Fake.honest) FakeMore.local_relative None
    (Fake.mkWorld (Fake.tree "opt") [] false 0) = false /\
  os_path_isfile (Fake.host Fake.honest) "opt/bin/splunk"
    (Fake.mkWorld (Fake.tree "opt") [] false 0) = true.
Proof.
  do 2 (split; [reflexivity|]). split; [|reflexivity].
  destruct (_binary_exists_relative_home (Fake.host Fake.honest) FakeMore.local_relative
              (Fake.mkWorld (Fake.tree "opt") [] false 0) eq_refl eq_refl eq_refl eq_refl)
    as [_ E].
  rewrite E. reflexivity.
Defined.



(** A remote instance that is not installed, and a local instance that is
    installed and stopped, whose status command exits with 3. *)
Lemma is_running_outcomes_witness :
  _binary_exists (Fake.host Fake.honest) Fake.ssh_splunk None Fake.empty_world = false /\
  PosixPath.isabs (_splunk_home Fake.local_splunk) = true /\
  _binary_exists (Fake.host Fake.honest) Fake.local_splunk None
    (Fake.local_installed false) = true /\
  is_running (Fake.host Fake.honest) Fake.ssh_splunk (Fake.initial Fake.empty_world) =
  (Ok false, Fake.initial Fake.empty_world) /\
  is_running (Fake.host Fake.honest) Fake.local_splunk
    (Fake.initial (Fake.local_installed false)) =
  (Ok false,
   mkState (Fake.local_installed false) None None
     [Popen ["/opt/splunk/bin/splunk"; "status"; "--accept-license"; "--no-prompt";
             "--answer-yes"]]).
Proof.
  do 3 (split; [reflexivity|]).
  destruct (is_running_outcomes (Fake.host Fake.honest) Fake.ssh_splunk
              (Fake.initial Fake.empty_world)) as [Hno _].
  destruct (is_running_outcomes (Fake.host Fake.honest) Fake.local_splunk
              (Fake.initial (Fake.local_installed false))) as [_ Hyes].
  split.
  - exact (Hno eq_refl).
  - destruct (Hyes eq_refl eq_refl) as [E _]. rewrite E. reflexivity.
Defined.

(** ** Restart *)

Section Restart.

Context {W : Type} (H : Host W) (self : Splunk).









End Restart.



(** ** Stopping before an uninstall or an install *)

Section StopFirst.

Context {W : Type} (H : Host W) (self : Splunk).

Hypothesis home_absolute : PosixPath.isabs (_splunk_home self) = true.

Lemma _stop_splunk_if_needed_not_installed (s : state W) :
  _binary_exists H self None (world s) = false ->
  _stop_splunk_if_needed H self s = (Ok tt, s).
Proof.
  intros Hn. unfold _stop_splunk_if_needed.
  erewrite bind_ok by (now apply is_running_not_installed). reflexivity.
Qed.

Lemma _stop_splunk_if_needed_stopped (s : state W) :
  _binary_exists H self None (world s) = true ->
  status_reports_running H self (world s) = false ->
  _stop_splunk_if_needed H self s = (Ok tt, run_state H self "status" s).
Proof.
  intros Hi Hs. unfold _stop_splunk_if_needed.
  erewrite bind_ok by (now apply is_running_installed). now rewrite Hs.
Qed.

Lemma _stop_splunk_if_needed_running (s : state W) :
  _binary_exists H self None (world s) = true ->
  status_reports_running H self (world s) = true ->
  _stop_splunk_if_needed H self s =
  bind (stop H self) (fun _ => ret tt) (run_state H self "status" s).
Proof.
  intros Hi Hs. unfold _stop_splunk_if_needed.
  erewrite bind_ok by (now apply is_running_installed). now rewrite Hs.
Qed.

(** In the local class, on a running instance, the stop that opens
    [uninstall] and [install_from_archive] issues status, stop, status,
    and raises [CouldNotStopSplunk] when the last probe still reports
    running. *)
Lemma LocalSplunk_stop_if_needed_running (s : state W) :
  let s1 := run_state H self "status" s in
  let s2 := run_state H self "stop" s1 in
  let s3 := run_state H self "status" s2 in
  let r := run_reply H self "stop" (world s1) in
  cls self = LocalSplunk ->
  _binary_exists H self None (world s) = true ->
  _binary_exists H self None (world s1) = true ->
  _binary_exists H self None (world s2) = true ->
  status_reports_running H self (world s) = true ->
  _stop_splunk_if_needed H self s =
  (if status_reports_running H self (world s2)
   then Raise (CouldNotStopSplunk "stop" (exit_code r) (stdout_of r) (stderr_of r))
   else Ok tt, s3).
Proof.
  intros s1 s2 s3 r Hc H0 H1 H2 Hs.
  rewrite (_stop_splunk_if_needed_running s H0 Hs). fold s1.
  assert (E : stop H self = LocalSplunk_stop H self) by (unfold stop; now rewrite Hc).
  rewrite E. unfold bind.
  rewrite (LocalSplunk_stop_installed H self s1 home_absolute H1 H2).
  fold s2 s3 r. destruct (status_reports_running H self (world s2)); reflexivity.
Qed.

Lemma SSHSplunk_stop_if_needed_running (s : state W) :
  let s1 := run_state H self "status" s in
  let s2 := run_state H self "stop" s1 in
  cls self = SSHSplunk ->
  _binary_exists H self None (world s) = true ->
  _binary_exists H self None (world s1) = true ->
  status_reports_running H self (world s) = true ->
  _stop_splunk_if_needed H self s = (Ok tt, s2).
Proof.
  intros s1 s2 Hc H0 H1 Hs.
  rewrite (_stop_splunk_if_needed_running s H0 Hs). fold s1.
  assert (E : stop H self = SSHSplunk_stop H self) by (unfold stop; now rewrite Hc).
  rewrite E. unfold bind.
  now rewrite (SSHSplunk_stop_installed H self s1 home_absolute H1).
Qed.

(** [LocalSplunk.uninstall] on a running instance: status, stop, status,
    and the removal of the home only when the last probe reports
    not-running; when it still reports running, [uninstall] raises
    [CouldNotStopSplunk] and nothing is removed. *)
Theorem LocalSplunk_uninstall_running (s : state W) :
  let s1 := run_state H self "status" s in
  let s2 := run_state H self "stop" s1 in
  let s3 := run_state H self "status" s2 in
  let r := run_reply H self "stop" (world s1) in
  cls self = LocalSplunk ->
  _binary_exists H self None (world s) = true ->
  _binary_exists H self None (world s1) = true ->
  _binary_exists H self None (world s2) = true ->
  status_reports_running H self (world s) = true ->
  calls s3 = (calls s ++ [transport_call H self (with_flags "status") (world s);
                          transport_call H self (with_flags "stop") (world s1);
                          transport_call H self (with_flags "status") (world s2)])%list /\
  (status_reports_running H self (world s2) = true ->
   uninstall H self s =
   (Raise (CouldNotStopSplunk "stop" (exit_code r) (stdout_of r) (stderr_of r)), s3)) /\
  (status_reports_running H self (world s2) = false ->
   uninstall H self s =
   (Ok tt, record_call s3 (ForceRemoveDirectory (_splunk_home self))
             (fileutils_force_remove_directory H (_splunk_home self) (world s3)))).
Proof.
  intros s1 s2 s3 r Hc H0 H1 H2 Hs.
  pose proof (LocalSplunk_stop_if_needed_running s Hc H0 H1 H2 Hs) as E.
  cbv zeta in E. fold s1 s2 s3 r in E.
  split; [|split].
  - unfold s3, s2, s1, run_state, record_call. cbn [calls world].
    rewrite <- !app_assoc. reflexivity.
  - intros Hs2. rewrite Hs2 in E. unfold uninstall, LocalSplunk_uninstall. rewrite Hc.
    now erewrite bind_raise by exact E.
  - intros Hs2. rewrite Hs2 in E. unfold uninstall, LocalSplunk_uninstall. rewrite Hc.
    erewrite bind_ok by exact E. reflexivity.
Qed.

(** [SSHSplunk.uninstall] on a running instance: status, stop, and the
    removal of the home through the connection, with no probe after the
    stop: the home is removed whether or not the stop command stopped the
    instance. *)
Theorem SSHSplunk_uninstall_running (s : state W) :
  let s1 := run_state H self "status" s in
  let s2 := run_state H self "stop" s1 in
  cls self = SSHSplunk ->
  _binary_exists H self None (world s) = true ->
  _binary_exists H self None (world s1) = true ->
  status_reports_running H self (world s) = true ->
  uninstall H self s =
  (Ok tt, record_call s2 (SSHForceRemoveTree (_splunk_home self))
            (ssh_force_remove_tree H (_splunk_home self) (world s2))) /\
  calls (snd (uninstall H self s)) =
  (calls s ++ [transport_call H self (with_flags "status") (world s);
               transport_call H self (with_flags "stop") (world s1);
               SSHForceRemoveTree (_splunk_home self)])%list.
Proof.
  intros s1 s2 Hc H0 H1 Hs.
  pose proof (SSHSplunk_stop_if_needed_running s Hc H0 H1 Hs) as E.
  cbv zeta in E. fold s1 s2 in E.
  assert (Eu : uninstall H self s =
               (Ok tt, record_call s2 (SSHForceRemoveTree (_splunk_home self))
                         (ssh_force_remove_tree H (_splunk_home self) (world s2)))).
  { unfold uninstall, SSHSplunk_uninstall. rewrite Hc.
    erewrite bind_ok by exact E. reflexivity. }
  split; [exact Eu|]. rewrite Eu.
  unfold s2, s1, run_state, record_call. cbn [calls world snd].
  rewrite <- !app_assoc. reflexivity.
Qed.

(** [LocalSplunk.install_from_archive] on a running instance that the
    stop command does not stop raises [CouldNotStopSplunk] before any
    scratch directory is created: the calls are status, stop, status. *)
Theorem LocalSplunk_install_refuses_running (archive_path : string) (s : state W) :
  let s1 := run_state H self "status" s in
  let s2 := run_state H self "stop" s1 in
  let s3 := run_state H self "status" s2 in
  let r := run_reply H self "stop" (world s1) in
  cls self = LocalSplunk ->
  _binary_exists H self None (world s) = true ->
  _binary_exists H self None (world s1) = true ->
  _binary_exists H self None (world s2) = true ->
  status_reports_running H self (world s) = true ->
  status_reports_running H self (world s2) = true ->
  install_from_archive H self archive_path s =
  (Raise (CouldNotStopSplunk "stop" (exit_code r) (stdout_of r) (stderr_of r)), s3) /\
  calls s3 = (calls s ++ [transport_call H self (with_flags "status") (world s);
                          transport_call H self (with_flags "stop") (world s1);
                          transport_call H self (with_flags "status") (world s2)])%list.
Proof.
  intros s1 s2 s3 r Hc H0 H1 H2 Hs Hs2.
  pose proof (LocalSplunk_stop_if_needed_running s Hc H0 H1 H2 Hs) as E.
  cbv zeta in E. fold s1 s2 s3 r in E. rewrite Hs2 in E.
  split.
  - unfold install_from_archive. now erewrite bind_raise by exact E.
  - unfold s3, s2, s1, run_state, record_call. cbn [calls world].
    rewrite <- !app_assoc. reflexivity.
Qed.

End StopFirst.

Section InstallPath.

Context {W : Type} (H : Host W) (self : Splunk).

(** The move of the product root, as the class does it. *)
Let move_call (source : string) : call :=
  match cls self with
  | LocalSplunk => ForceMoveDirectory source (_splunk_home self)
  | SSHSplunk => SSHSend source (_splunk_home self)
  end.

Let move_run (source : string) (w : W) : reply unit * W :=
  match cls self with
  | LocalSplunk => fileutils_force_move_directory H source (_splunk_home self) w
  | SSHSplunk => ssh_send H source (_splunk_home self) w
  end.

(** An install that goes through: after the stop and the creation of the
    scratch directory, the calls are the extraction into the scratch
    directory, the move of the first candidate found there to the home (a
    move of the file utilities in the local class, a send over the
    connection in the remote class) and the removal of the scratch
    directory; when the move raises, its exception is the outcome and the
    scratch directory is removed all the same. *)
Theorem install_from_archive_moves_product
        (archive_path directory name : string) (s s1 s2 : state W) (w3 w4 : W)
        (moved : reply unit) :
  _stop_splunk_if_needed H self s = (Ok tt, s1) ->
  mkdtemp H s1 = (Ok directory, s2) ->
  archiver_extract H archive_path directory (world s2) = (Done tt, w3) ->
  first_candidate_present _POSSIBLE_ARCHIVE_DIRECTORIES (os_listdir H directory w3) =
  Some name ->
  move_run (PosixPath.join directory [name]) w3 = (moved, w4) ->
  fst (install_from_archive H self archive_path s) =
  match moved with
  | Done _ => Ok tt
  | Failed why => Raise (External why)
  end /\
  calls (snd (install_from_archive H self archive_path s)) =
  (calls s2 ++ [ArchiverExtract archive_path directory;
                move_call (PosixPath.join directory [name]);
                ForceRemoveDirectory directory])%list /\
  world (snd (install_from_archive H self archive_path s)) =
  fileutils_force_remove_directory H directory w4.
Proof.
  intros E1 E2 Ex Hf Hm.
  rewrite (install_from_archive_steps H self archive_path directory s s1 s2 E1 E2).
  rewrite try_finally_force_remove.
  assert (Eb : _install_archive_with_temp_directory H self archive_path directory s2 =
               (match moved with
                | Done _ => Ok tt
                | Failed why => Raise (External why)
                end,
                record_call (record_call s2 (ArchiverExtract archive_path directory) w3)
                  (move_call (PosixPath.join directory [name])) w4)).
  { unfold _install_archive_with_temp_directory.
    unfold bind at 1. unfold attempt at 1. rewrite Ex.
    unfold bind at 1. rewrite _find_archive_directory_name_first.
    cbn [world record_call]. rewrite Hf.
    unfold _move_extracted_splunk_to_splunk_home, move_call, move_run in *.
    destruct (cls self); unfold attempt, record_call at 1; cbn [world]; rewrite Hm;
      destruct moved as [[]|why]; reflexivity. }
  rewrite Eb. cbn [fst snd]. split; [reflexivity|]. split; [|reflexivity].
  unfold record_call. cbn [calls]. rewrite <- !app_assoc. reflexivity.
Qed.

End InstallPath.

Lemma Fake_answer_keeps_files (b : Fake.behaviour) (line : string) (w : Fake.world) :
  exists r, snd (Fake.answer b line w) = Fake.with_running w r.
Proof.
  unfold Fake.answer.
  repeat match goal with
         | |- context [if ?c then _ else _] => destruct c
         end;
    cbn [snd]; try (now eexists);
    exists (Fake.running w); destruct w; reflexivity.
Qed.

Lemma Fake_binary_exists_with_running (b : Fake.behaviour) (self : Splunk)
      (binary : option string) (w : Fake.world) (r : bool) :
  _binary_exists (Fake.host b) self binary (Fake.with_running w r) =
  _binary_exists (Fake.host b) self binary w.
Proof. destruct w. reflexivity. Qed.

Lemma Fake_binary_exists_answer (b : Fake.behaviour) (self : Splunk)
      (line : string) (w : Fake.world) :
  _binary_exists (Fake.host b) self None (snd (Fake.answer b line w)) =
  _binary_exists (Fake.host b) self None w.
Proof.
  destruct (Fake_answer_keeps_files b line w) as [r E].
  rewrite E. apply Fake_binary_exists_with_running.
Qed.

(** No command of the fake binary touches the files. *)
Lemma Fake_binary_persists (b : Fake.behaviour) (self : Splunk) :
  binary_persists (Fake.host b) self.
Proof.
  intros command w Hi. unfold run_world, transport_run.
  destruct (cls self).
  - exact (eq_trans (Fake_binary_exists_answer b self _ w) Hi).
  - exact (eq_trans (Fake_binary_exists_answer b self _ w) Hi).
Qed.

(** A local instance that the stop command does not stop is left in
    place; one that stops is removed. *)
Lemma LocalSplunk_uninstall_running_witness :
  PosixPath.isabs (_splunk_home Fake.local_splunk) = true /\
  cls Fake.local_splunk = LocalSplunk /\
  _binary_exists (Fake.host Fake.stubborn) Fake.local_splunk None
    (Fake.local_installed true) = true /\
  status_reports_running (Fake.host Fake.stubborn) Fake.local_splunk
    (Fake.local_installed true) = true /\
  fst (uninstall (Fake.host Fake.stubborn) Fake.local_splunk
         (Fake.initial (Fake.local_installed true))) =
  Raise (CouldNotStopSplunk "stop" 1 "Stopping splunkd..." "") /\
  world (snd (uninstall (Fake.host Fake.stubborn) Fake.local_splunk
                (Fake.initial (Fake.local_installed true)))) = Fake.local_installed true /\
  uninstall (Fake.host Fake.honest) Fake.local_splunk
    (Fake.initial (Fake.local_installed true)) =
  (Ok tt,
   mkState Fake.empty_world None None
     [Popen ["/opt/splunk/bin/splunk"; "status"; "--accept-license"; "--no-prompt";
             "--answer-yes"];
      Popen ["/opt/splunk/bin/splunk"; "stop"; "--accept-license"; "--no-prompt";
             "--answer-yes"];
      Popen ["/opt/splunk/bin/splunk"; "status"; "--accept-license"; "--no-prompt";
             "--answer-yes"];
      ForceRemoveDirectory "/opt/splunk"]).
Proof.
  do 4 (split; [reflexivity|]).
  destruct (LocalSplunk_uninstall_running (Fake.host Fake.stubborn) Fake.local_splunk
              eq_refl (Fake.initial (Fake.local_installed true))
              eq_refl eq_refl eq_refl eq_refl eq_refl) as (_ & Hrefuse & _).
  destruct (LocalSplunk_uninstall_running (Fake.host Fake.honest) Fake.local_splunk
              eq_refl (Fake.initial (Fake.local_installed true))
              eq_refl eq_refl eq_refl eq_refl eq_refl) as (_ & _ & Hremove).
  split; [|split].
  - rewrite (Hrefuse eq_refl). reflexivity.
  - rewrite (Hrefuse eq_refl). reflexivity.
  - rewrite (Hremove eq_refl). reflexivity.
Defined.

(** A remote instance that the stop command does not stop is removed all
    the same. *)
Lemma SSHSplunk_uninstall_running_witness :
  PosixPath.isabs (_splunk_home Fake.ssh_splunk) = true /\
  cls Fake.ssh_splunk = SSHSplunk /\
  _binary_exists (Fake.host Fake.stubborn) Fake.ssh_splunk None
    (Fake.remote_installed true) = true /\
  status_reports_running (Fake.host Fake.stubborn) Fake.ssh_splunk
    (Fake.remote_installed true) = true /\
  uninstall (Fake.host Fake.stubborn) Fake.ssh_splunk
    (Fake.initial (Fake.remote_installed true)) =
  (Ok tt,
   mkState (Fake.mkWorld [] [] true 0) None None
     [SSHExecute "/opt/splunk/bin/splunk status --accept-license --no-prompt --answer-yes";
      SSHExecute "/opt/splunk/bin/splunk stop --accept-license --no-prompt --answer-yes";
      SSHForceRemoveTree "/opt/splunk"]).
Proof.
  do 4 (split; [reflexivity|]).
  destruct (SSHSplunk_uninstall_running (Fake.host Fake.stubborn) Fake.ssh_splunk
              eq_refl (Fake.initial (Fake.remote_installed true))
              eq_refl eq_refl eq_refl eq_refl) as [E _].
  rewrite E. reflexivity.
Defined.

Lemma LocalSplunk_install_refuses_running_witness :
  PosixPath.isabs (_splunk_home Fake.local_splunk) = true /\
  status_reports_running (Fake.host Fake.stubborn) Fake.local_splunk
    (Fake.local_installed true) = true /\
  install_from_archive (Fake.host Fake.stubborn) Fake.local_splunk "/tmp/splunk.tgz"
    (Fake.initial (Fake.local_installed true)) =
  (Raise (CouldNotStopSplunk "stop" 1 "Stopping splunkd..." ""),
   mkState (Fake.local_installed true) None None
     [Popen ["/opt/splunk/bin/splunk"; "status"; "--accept-license"; "--no-prompt";
             "--answer-yes"];
      Popen ["/opt/splunk/bin/splunk"; "stop"; "--accept-license"; "--no-prompt";
             "--answer-yes"];
      Popen ["/opt/splunk/bin/splunk"; "status"; "--accept-license"; "--no-prompt";
             "--answer-yes"]]).
Proof.
  do 2 (split; [reflexivity|]).
  destruct (LocalSplunk_install_refuses_running (Fake.host Fake.stubborn) Fake.local_splunk
              eq_refl "/tmp/splunk.tgz" (Fake.initial (Fake.local_installed true))
              eq_refl eq_refl eq_refl eq_refl eq_refl eq_refl) as [E _].
  rewrite E. reflexivity.
Defined.

Lemma install_from_archive_moves_product_witness :
  calls (snd (install_from_archive (Fake.host Fake.honest) Fake.ssh_splunk "/tmp/splunk.tgz"
                (Fake.initial Fake.empty_world))) =
  [Mkdtemp "/tmp/tmp";
   ArchiverExtract "/tmp/splunk.tgz" "/tmp/tmp";
   SSHSend "/tmp/tmp/splunk" "/opt/splunk";
   ForceRemoveDirectory "/tmp/tmp"].
Proof.
  destruct (install_from_archive_moves_product (Fake.host Fake.honest) Fake.ssh_splunk
              "/tmp/splunk.tgz" "/tmp/tmp" "splunk" (Fake.initial Fake.empty_world)
              _ _ _ _ _ eq_refl eq_refl eq_refl eq_refl eq_refl) as (_ & Hcalls & _).
  rewrite Hcalls. reflexivity.
Defined.

(** ** Cached ports *)

Section CachedPorts.

Context {W : Type} (H : Host W) (self : Splunk).

Lemma _read_port_from_command_reply (command : string) (s : state W) :
  PosixPath.isabs (_splunk_home self) = true ->
  _binary_exists H self None (world s) = true ->
  _read_port_from_command H self command s =
  (port_of_reply (run_reply H self command (world s)), run_state H self command s).
Proof.
  intros Hh Hi. rewrite (_read_port_from_command_installed H self command s Hh Hi).
  cbv zeta. unfold port_of_reply.
  destruct (negb (Z.eqb (exit_code (run_reply H self command (world s))) 0));
    [reflexivity|].
  destruct (PyStr.int_of_str _); reflexivity.
Qed.

Lemma _read_port_from_command_absent (command : string) (s : state W) :
  _binary_exists H self None (world s) = false ->
  _read_port_from_command H self command s = (Ok None, s).
Proof.
  intros Hn. unfold _read_port_from_command, bind, ask. now rewrite Hn.
Qed.

(** The refresh of the two ports, as one equation. *)
Lemma update_ports_installed (s : state W) :
  let s1 := run_state H self "soapport" s in
  let r1 := run_reply H self "soapport" (world s) in
  let r2 := run_reply H self "httpport" (world s1) in
  PosixPath.isabs (_splunk_home self) = true ->
  _binary_exists H self None (world s) = true ->
  _binary_exists H self None (world s1) = true ->
  update_ports_from_splunk H self s =
  match port_of_reply r1 with
  | Raise e => (Raise e, s1)
  | Ok p =>
      match port_of_reply r2 with
      | Raise e => (Raise e, run_state H self "httpport" (with_splunkd_port s1 p))
      | Ok q => (Ok tt, with_web_port (run_state H self "httpport" (with_splunkd_port s1 p)) q)
      end
  end.
Proof.
  intros s1 r1 r2 Hh H0 H1.
  assert (E1 : _read_splunkd_port H self s = (port_of_reply r1, s1))
    by (now apply _read_port_from_command_reply).
  assert (E2 : forall p, _read_web_port H self (with_splunkd_port s1 p) =
                         (port_of_reply r2, run_state H self "httpport" (with_splunkd_port s1 p)))
    by (intros p; now apply _read_port_from_command_reply).
  unfold update_ports_from_splunk. unfold bind at 1. rewrite E1.
  destruct (port_of_reply r1) as [p|e]; [|reflexivity].
  unfold bind at 1. unfold set_splunkd_port at 1.
  fold (with_splunkd_port s1 p). unfold bind at 1. rewrite (E2 p).
  destruct (port_of_reply r2) as [q|e]; reflexivity.
Qed.

(** The refresh on an instance that is not installed. *)
Lemma update_ports_absent (s : state W) :
  _binary_exists H self None (world s) = false ->
  update_ports_from_splunk H self s = (Ok tt, mkState (world s) None None (calls s)).
Proof.
  intros Hn. unfold update_ports_from_splunk, _read_splunkd_port, _read_web_port.
  erewrite bind_ok by (now apply _read_port_from_command_absent).
  unfold bind at 1. unfold set_splunkd_port at 1.
  erewrite bind_ok by (apply _read_port_from_command_absent; exact Hn).
  reflexivity.
Qed.

(** [update_ports_from_splunk] on an installed instance issues the
    soapport query, assigns the splunkd port, issues the httpport query
    and assigns the web port.  An output of the first query that is not a
    number raises [ValueError] before anything is assigned and before the
    second query; an output of the second query that is not a number
    raises [ValueError] after the splunkd port has been assigned, and the
    web port keeps its old value. *)
Theorem update_ports_from_splunk_steps (s : state W) :
  let s1 := run_state H self "soapport" s in
  let r1 := run_reply H self "soapport" (world s) in
  let r2 := run_reply H self "httpport" (world s1) in
  PosixPath.isabs (_splunk_home self) = true ->
  _binary_exists H self None (world s) = true ->
  _binary_exists H self None (world s1) = true ->
  (forall e, port_of_reply r1 = Raise e ->
             update_ports_from_splunk H self s = (Raise e, s1) /\
             _splunkd_port s1 = _splunkd_port s /\ _web_port s1 = _web_port s) /\
  (forall p e, port_of_reply r1 = Ok p -> port_of_reply r2 = Raise e ->
               let s2 := run_state H self "httpport" (with_splunkd_port s1 p) in
               update_ports_from_splunk H self s = (Raise e, s2) /\
               _splunkd_port s2 = p /\ _web_port s2 = _web_port s) /\
  (forall p q, port_of_reply r1 = Ok p -> port_of_reply r2 = Ok q ->
               let s2 := with_web_port (run_state H self "httpport"
                                          (with_splunkd_port s1 p)) q in
               update_ports_from_splunk H self s = (Ok tt, s2) /\
               _splunkd_port s2 = p /\ _web_port s2 = q).
Proof.
  intros s1 r1 r2 Hh H0 H1.
  pose proof (update_ports_installed s Hh H0 H1) as E. cbv zeta in E.
  fold s1 r1 in E. fold r2 in E.
  split; [|split].
  - intros e Er1. rewrite Er1 in E. repeat split. exact E.
  - intros p e Er1 Er2 s2. rewrite Er1, Er2 in E. repeat split. exact E.
  - intros p q Er1 Er2 s2. rewrite Er1, Er2 in E. repeat split. exact E.
Qed.

(** On an instance that is not installed [update_ports_from_splunk] issues
    no call and sets both cached ports to [None]: ports that were known
    are forgotten. *)
Theorem update_ports_from_splunk_not_installed (s : state W) :
  _binary_exists H self None (world s) = false ->
  update_ports_from_splunk H self s = (Ok tt, mkState (world s) None None (calls s)).
Proof.
  intros Hn. unfold update_ports_from_splunk.
  unfold bind at 1. unfold _read_splunkd_port.
  rewrite (_read_port_from_command_absent "soapport" s Hn).
  unfold bind at 1. unfold set_splunkd_port at 1.
  unfold bind at 1. unfold _read_web_port.
  rewrite (_read_port_from_command_absent "httpport"
             (mkState (world s) None (_web_port s) (calls s)) Hn).
  reflexivity.
Qed.

(** [web_port]: a cached port is returned as it is, with no call and no
    change of the state.  With an empty cache the accessor refreshes both
    ports: on an instance that is not installed it returns [None] and the
    cached splunkd port is forgotten; on an installed instance whose two
    queries answer numbers it returns the web port read, and the cached
    splunkd port is replaced by the one read. *)
Theorem web_port_lazy (s : state W) :
  (forall port, _web_port s = Some port -> web_port H self s = (Ok (Some port), s)) /\
  (_web_port s = None ->
   _binary_exists H self None (world s) = false ->
   web_port H self s = (Ok None, mkState (world s) None None (calls s))) /\
  (let s1 := run_state H self "soapport" s in
   let r1 := run_reply H self "soapport" (world s) in
   let r2 := run_reply H self "httpport" (world s1) in
   _web_port s = None ->
   PosixPath.isabs (_splunk_home self) = true ->
   _binary_exists H self None (world s) = true ->
   _binary_exists H self None (world s1) = true ->
   forall p q, port_of_reply r1 = Ok p -> port_of_reply r2 = Ok q ->
               web_port H self s =
               (Ok q, with_web_port (run_state H self "httpport" (with_splunkd_port s1 p)) q)).
Proof.
  split; [|split].
  - intros port Hc. unfold web_port, bind, cached_web_port. rewrite Hc.
    cbv beta iota. now rewrite Hc.
  - intros Hc Hn. unfold web_port. unfold bind at 1. unfold cached_web_port at 1.
    rewrite Hc. erewrite bind_ok by (now apply update_ports_absent).
    reflexivity.
  - intros s1 r1 r2 Hc Hh H0 H1 p q Er1 Er2.
    pose proof (update_ports_installed s Hh H0 H1) as Hok. cbv zeta in Hok.
    fold s1 r1 in Hok. fold r2 in Hok. rewrite Er1, Er2 in Hok.
    unfold web_port. unfold bind at 1. unfold cached_web_port at 1.
    rewrite Hc. erewrite bind_ok by exact Hok. reflexivity.
Qed.

(** [uri_base]: with a cached splunkd port, the scheme, the host and the
    port in decimal, and no call; with an empty cache on an instance that
    is not installed, the text ends in [:None] (the port is unknown and
    [str(None)] is what gets appended), and the cached web port is
    forgotten.  The host is [localhost] in the local class and the host
    of the connection in the remote class. *)
Theorem uri_base_text (connection_host : string) (s : state W) :
  let host := match cls self with
              | LocalSplunk => "localhost"
              | SSHSplunk => connection_host
              end in
  (forall port, _splunkd_port s = Some port ->
                uri_base H self connection_host s =
                (Ok ("https://" ++ host ++ ":" ++ str_of_int port)%string, s)) /\
  (_splunkd_port s = None ->
   _binary_exists H self None (world s) = false ->
   uri_base H self connection_host s =
   (Ok ("https://" ++ host ++ ":None")%string, mkState (world s) None None (calls s))).
Proof.
  intros host. split.
  - intros port Hc. unfold uri_base, splunkd_port.
    unfold bind at 1 2. unfold cached_splunkd_port. rewrite Hc.
    cbv beta iota. rewrite Hc. reflexivity.
  - intros Hc Hn. unfold uri_base, splunkd_port.
    unfold bind at 1 2. unfold cached_splunkd_port at 1. rewrite Hc.
    erewrite bind_ok by (now apply update_ports_absent).
    reflexivity.
Qed.

(** A start that goes through: the calls are start, version, status,
    soapport, httpport and one notification of the listeners, in this
    order; the cached ports are the two ports read, assigned before the
    listeners are notified; and [start] returns the exit code of the start
    command.  When a listener raises, its exception is the outcome and the
    ports have been refreshed all the same. *)
Theorem start_refreshes_and_notifies (auto_ports : bool) (s : state W) :
  let cmd := start_command auto_ports in
  let s3 := run_states H self [cmd; "version"; "status"] s in
  let s4 := run_state H self "soapport" s3 in
  PosixPath.isabs (_splunk_home self) = true ->
  binary_persists H self ->
  _binary_exists H self None (world s) = true ->
  exit_code (run_reply H self "version" (run_world H self cmd (world s))) = 0%Z ->
  status_reports_running H self
    (run_world H self "version" (run_world H self cmd (world s))) = true ->
  forall p q notified w6,
    port_of_reply (run_reply H self "soapport" (world s3)) = Ok p ->
    port_of_reply (run_reply H self "httpport" (world s4)) = Ok q ->
    notify_listeners H (run_world H self "httpport" (world s4)) = (notified, w6) ->
    let s6 := snd (start H self auto_ports s) in
    fst (start H self auto_ports s) =
    match notified with
    | Done _ => Ok (exit_code (run_reply H self cmd (world s)))
    | Failed why => Raise (External why)
    end /\
    calls s6 =
    (calls s ++ [transport_call H self (with_flags cmd) (world s);
                 transport_call H self (with_flags "version")
                   (run_world H self cmd (world s));
                 transport_call H self (with_flags "status")
                   (run_world H self "version" (run_world H self cmd (world s)));
                 transport_call H self (with_flags "soapport") (world s3);
                 transport_call H self (with_flags "httpport") (world s4);
                 NotifyListeners])%list /\
    _splunkd_port s6 = p /\ _web_port s6 = q /\ world s6 = w6.
Proof.
  intros cmd s3 s4 Hh Hp H0 Hv Hs p q notified w6 Er1 Er2 Hn.
  pose proof (Hp cmd _ H0) as H1.
  pose proof (Hp "version" _ H1) as H2.
  pose proof (Hp "status" _ H2) as H3.
  pose proof (Hp "soapport" _ H3) as H4.
  pose proof (start_version_ok H self Hh auto_ports s H0 H1 H2 Hv) as E.
  cbv zeta in E. fold cmd in E.
  change (world (run_state H self "version" (run_state H self cmd s)))
    with (run_world H self "version" (run_world H self cmd (world s))) in E.
  rewrite Hs in E.
  change (run_state H self "status" (run_state H self "version" (run_state H self cmd s)))
    with s3 in E.
  pose proof (update_ports_installed s3 Hh H3 H4) as Hok. cbv zeta in Hok.
  fold s4 in Hok. rewrite Er1, Er2 in Hok.
  assert (Eh : _splunk_has_started H self s3 =
               (match notified with
                | Done _ => Ok tt
                | Failed why => Raise (External why)
                end,
                record_call (with_web_port (run_state H self "httpport"
                                              (with_splunkd_port s4 p)) q)
                  NotifyListeners w6)).
  { unfold _splunk_has_started. erewrite bind_ok by exact Hok.
    unfold _notify_listeners_of_splunk_start, attempt.
    cbn [world with_web_port run_state record_call with_splunkd_port].
    fold (run_world H self "httpport" (world s4)). rewrite Hn.
    destruct notified as [[]|why]; reflexivity. }
  assert (Es : start H self auto_ports s =
               (match notified with
                | Done _ => Ok (exit_code (run_reply H self cmd (world s)))
                | Failed why => Raise (External why)
                end,
                record_call (with_web_port (run_state H self "httpport"
                                              (with_splunkd_port s4 p)) q)
                  NotifyListeners w6)).
  { rewrite E. unfold bind. rewrite Eh. destruct notified as [[]|why]; reflexivity. }
  cbv zeta. rewrite Es. cbn [fst snd]. split; [reflexivity|].
  split; [|repeat split].
  change (calls (record_call (with_web_port (run_state H self "httpport"
                                               (with_splunkd_port s4 p)) q)
                   NotifyListeners w6))
    with ((((((calls s ++ [transport_call H self (with_flags cmd) (world s)])
                ++ [transport_call H self (with_flags "version")
                      (run_world H self cmd (world s))])
               ++ [transport_call H self (with_flags "status")
                     (run_world H self "version" (run_world H self cmd (world s)))])
              ++ [transport_call H self (with_flags "soapport") (world s3)])
             ++ [transport_call H self (with_flags "httpport") (world s4)])
            ++ [NotifyListeners])%list.
  rewrite <- !app_assoc. reflexivity.
Qed.

End CachedPorts.

Lemma update_ports_from_splunk_steps_witness :
  PosixPath.isabs (_splunk_home Fake.local_splunk) = true /\
  _binary_exists (Fake.host FakeMore.half_ports) Fake.local_splunk None
    (Fake.local_installed true) = true /\
  port_of_reply (run_reply (Fake.host FakeMore.half_ports) Fake.local_splunk "soapport"
                   (Fake.local_installed true)) = Ok (Some 8089%Z) /\
  port_of_reply (run_reply (Fake.host FakeMore.half_ports) Fake.local_splunk "httpport"
                   (Fake.local_installed true)) = Raise ValueError /\
  port_of_reply (run_reply (Fake.host Fake.chatty_ports) Fake.local_splunk "soapport"
                   (Fake.local_installed true)) = Raise ValueError /\
  (fst (update_ports_from_splunk (Fake.host FakeMore.half_ports) Fake.local_splunk
          (FakeMore.cached (Fake.local_installed true) (Some 1%Z) (Some 2%Z))) =
   Raise ValueError /\
   _splunkd_port (snd (update_ports_from_splunk (Fake.host FakeMore.half_ports)
                         Fake.local_splunk
                         (FakeMore.cached (Fake.local_installed true) (Some 1%Z) (Some 2%Z)))) =
   Some 8089%Z /\
   _web_port (snd (update_ports_from_splunk (Fake.host FakeMore.half_ports)
                     Fake.local_splunk
                     (FakeMore.cached (Fake.local_installed true) (Some 1%Z) (Some 2%Z)))) =
   Some 2%Z) /\
  (_splunkd_port (snd (update_ports_from_splunk (Fake.host Fake.chatty_ports)
                         Fake.local_splunk
                         (FakeMore.cached (Fake.local_installed true) (Some 1%Z) (Some 2%Z)))) =
   Some 1%Z /\
   List.length (calls (snd (update_ports_from_splunk (Fake.host Fake.chatty_ports)
                              Fake.local_splunk
                              (FakeMore.cached (Fake.local_installed true)
                                 (Some 1%Z) (Some 2%Z))))) = 1%nat).
Proof.
  do 5 (split; [reflexivity|]).
  destruct (update_ports_from_splunk_steps (Fake.host FakeMore.half_ports) Fake.local_splunk
              (FakeMore.cached (Fake.local_installed true) (Some 1%Z) (Some 2%Z))
              eq_refl eq_refl eq_refl) as (_ & Hsecond & _).
  destruct (update_ports_from_splunk_steps (Fake.host Fake.chatty_ports) Fake.local_splunk
              (FakeMore.cached (Fake.local_installed true) (Some 1%Z) (Some 2%Z))
              eq_refl eq_refl eq_refl) as (Hfirst & _ & _).
  split.
  - destruct (Hsecond (Some 8089%Z) ValueError eq_refl eq_refl) as (E & _ & _).
    rewrite E. repeat split.
  - destruct (Hfirst ValueError eq_refl) as (E & _ & _). rewrite E. repeat split.
Defined.

Lemma update_ports_from_splunk_not_installed_witness :
  _binary_exists (Fake.host Fake.honest) Fake.ssh_splunk None Fake.empty_world = false /\
  update_ports_from_splunk (Fake.host Fake.honest) Fake.ssh_splunk
    (FakeMore.cached Fake.empty_world (Some 8089%Z) (Some 8000%Z)) =
  (Ok tt, FakeMore.cached Fake.empty_world None None).
Proof.
  split; [reflexivity|].
  exact (update_ports_from_splunk_not_installed (Fake.host Fake.honest) Fake.ssh_splunk
           (FakeMore.cached Fake.empty_world (Some 8089%Z) (Some 8000%Z)) eq_refl).
Defined.

Lemma web_port_lazy_witness :
  web_port (Fake.host Fake.honest) Fake.local_splunk
    (FakeMore.cached Fake.empty_world None (Some 8000%Z)) =
  (Ok (Some 8000%Z), FakeMore.cached Fake.empty_world None (Some 8000%Z)) /\
  web_port (Fake.host Fake.honest) Fake.local_splunk
    (FakeMore.cached Fake.empty_world (Some 8089%Z) None) =
  (Ok None, FakeMore.cached Fake.empty_world None None) /\
  fst (web_port (Fake.host Fake.honest) Fake.local_splunk
         (FakeMore.cached (Fake.local_installed true) (Some 1%Z) None)) = Ok (Some 8000%Z) /\
  _splunkd_port (snd (web_port (Fake.host Fake.honest) Fake.local_splunk
                        (FakeMore.cached (Fake.local_installed true) (Some 1%Z) None))) =
  Some 8089%Z.
Proof.
  destruct (web_port_lazy (Fake.host Fake.honest) Fake.local_splunk
              (FakeMore.cached Fake.empty_world None (Some 8000%Z))) as (Hhit & _ & _).
  destruct (web_port_lazy (Fake.host Fake.honest) Fake.local_splunk
              (FakeMore.cached Fake.empty_world (Some 8089%Z) None)) as (_ & Hnone & _).
  destruct (web_port_lazy (Fake.host Fake.honest) Fake.local_splunk
              (FakeMore.cached (Fake.local_installed true) (Some 1%Z) None))
    as (_ & _ & Hmiss).
  split; [exact (Hhit _ eq_refl)|]. split; [exact (Hnone eq_refl eq_refl)|].
  rewrite (Hmiss eq_refl eq_refl eq_refl eq_refl (Some 8089%Z) (Some 8000%Z) eq_refl eq_refl).
  split; reflexivity.
Defined.

Lemma uri_base_text_witness :
  uri_base (Fake.host Fake.honest) Fake.local_splunk "remote.example"
    (FakeMore.cached Fake.empty_world (Some 8089%Z) None) =
  (Ok "https://localhost:8089", FakeMore.cached Fake.empty_world (Some 8089%Z) None) /\
  fst (uri_base (Fake.host Fake.honest) Fake.ssh_splunk "remote.example"
         (FakeMore.cached Fake.empty_world None (Some 8000%Z))) =
  Ok "https://remote.example:None".
Proof.
  destruct (uri_base_text (Fake.host Fake.honest) Fake.local_splunk "remote.example"
              (FakeMore.cached Fake.empty_world (Some 8089%Z) None)) as [Hcached _].
  destruct (uri_base_text (Fake.host Fake.honest) Fake.ssh_splunk "remote.example"
              (FakeMore.cached Fake.empty_world None (Some 8000%Z))) as [_ Hunknown].
  split.
  - rewrite (Hcached _ eq_refl). reflexivity.
  - rewrite (Hunknown eq_refl eq_refl). reflexivity.
Defined.

Lemma start_refreshes_and_notifies_witness :
  PosixPath.isabs (_splunk_home Fake.ssh_splunk) = true /\
  binary_persists (Fake.host Fake.honest) Fake.ssh_splunk /\
  _binary_exists (Fake.host Fake.honest) Fake.ssh_splunk None
    (Fake.remote_installed false) = true /\
  fst (start (Fake.host Fake.honest) Fake.ssh_splunk true
         (Fake.initial (Fake.remote_installed false))) = Ok 0%Z /\
  _splunkd_port (snd (start (Fake.host Fake.honest) Fake.ssh_splunk true
                        (Fake.initial (Fake.remote_installed false)))) = Some 8089%Z /\
  _web_port (snd (start (Fake.host Fake.honest) Fake.ssh_splunk true
                    (Fake.initial (Fake.remote_installed false)))) = Some 8000%Z.
Proof.
  split; [reflexivity|]. split; [apply Fake_binary_persists|]. split; [reflexivity|].
  destruct (start_refreshes_and_notifies (Fake.host Fake.honest) Fake.ssh_splunk true
              (Fake.initial (Fake.remote_installed false))
              eq_refl (Fake_binary_persists _ _) eq_refl eq_refl eq_refl
              (Some 8089%Z) (Some 8000%Z) (Done tt) (Fake.remote_installed true)
              eq_refl eq_refl eq_refl) as (Hout & _ & Hp & Hq & _).
  split; [exact Hout|]. split; [exact Hp|exact Hq].
Defined.

(** ** Listening ports *)

(** [_check_if_valid_port] accepts exactly the plain integers from 0 to
    65535 and the two booleans (which are integers, 0 and 1); it rejects
    [None], strings and every long integer, also one in the range; it
    never raises. *)
Theorem _check_if_valid_port_accepts (port : pyval) :
  _check_if_valid_port port = true <->
  (exists z, port = PyInt z /\ (0 <= z <= 65535)%Z) \/ (exists b, port = PyBool b).
Proof.
  unfold _check_if_valid_port. split.
  - destruct port as [|b|z|z|t]; cbn; try discriminate.
    + intros _. right. now exists b.
    + destruct (Z.leb 0 z && Z.leb z 65535) eqn:E; [|discriminate].
      intros _. left. exists z. split; [reflexivity|].
      apply andb_true_iff in E as [E1 E2]. split; now apply Z.leb_le.
  - intros [(z & -> & Hz1 & Hz2) | (b & ->)]; cbn.
    + apply Z.leb_le in Hz1. apply Z.leb_le in Hz2. now rewrite Hz1, Hz2.
    + destruct b; reflexivity.
Qed.

Section Listen.

Context {W : Type} (H : Host W) (self : Splunk).

Lemma listen_each_none_valid (verb : string) (items : list pyval) (s : state W) :
  (forall port, In port items -> _check_if_valid_port port = false) ->
  listen_each H self verb items s = (Ok tt, s).
Proof.
  revert s. induction items as [|port rest IH]; intros s Hall; [reflexivity|].
  cbn [listen_each]. rewrite (Hall port (or_introl eq_refl)).
  unfold bind at 1. unfold ret at 1. apply IH. intros q Hq. apply Hall. now right.
Qed.

Lemma iterate_string_none_valid (t : string) (port : pyval) :
  In port (map (fun c => PyStr (String c EmptyString)) (list_ascii_of_string t)) ->
  _check_if_valid_port port = false.
Proof.
  intros Hin. apply in_map_iff in Hin as (c & <- & _). reflexivity.
Qed.

(** A port argument that is one value is treated as the list of that one
    value; and when no item is a valid port, nothing is executed and
    nothing is raised, whether or not the instance is installed. *)
Theorem listen_scalar_and_invalid (verb : string) (s : state W) :
  (forall v, listen H self verb (Atom v) s = listen H self verb (PyList [v]) s) /\
  (forall items,
      (forall port, In port items -> _check_if_valid_port port = false) ->
      listen H self verb (PyList items) s = (Ok tt, s)).
Proof.
  split.
  - intros v.
    assert (Eone : forall port,
               listen_each H self verb [port] s =
               (if _check_if_valid_port port
                then bind (execute H self (verb ++ " listen -port " ++ percent_s port))
                          (fun _ => ret tt)
                else ret tt) s).
    { intros port. cbn [listen_each]. unfold bind at 1.
      destruct (_check_if_valid_port port).
      - unfold bind. destruct (execute H self _ s) as [[a|e] s']; reflexivity.
      - reflexivity. }
    unfold listen. cbn [iterate].
    destruct v as [|b|z|z|t]; cbn [iterate scalar]; try (now rewrite Eone).
    rewrite (listen_each_none_valid verb _ s (iterate_string_none_valid t)).
    rewrite Eone. reflexivity.
  - intros items Hall. unfold listen. cbn [iterate]. now apply listen_each_none_valid.
Qed.

(** On an instance that is not installed, a list with a valid port makes
    the method raise at the first valid port, before any call:
    [SplunkNotInstalled] in the local class, and [NameError] in the remote
    class, whose module does not import that name. *)
Theorem listen_not_installed (verb : string) (items : list pyval) (s : state W) :
  _binary_exists H self None (world s) = false ->
  (exists port, In port items /\ _check_if_valid_port port = true) ->
  (cls self = LocalSplunk ->
   listen H self verb (PyList items) s = (Raise SplunkNotInstalled, s)) /\
  (cls self = SSHSplunk ->
   listen H self verb (PyList items) s = (Raise (NameError "SplunkNotInstalled"), s)).
Proof.
  intros Hn Hex.
  assert (E : listen H self verb (PyList items) s =
              (Raise match cls self with
                     | LocalSplunk => SplunkNotInstalled
                     | SSHSplunk => NameError "SplunkNotInstalled"
                     end, s)).
  { unfold listen. cbn [iterate]. revert Hex.
    induction items as [|port rest IH]; intros (q & Hq & Hv); [destruct Hq|].
    cbn [listen_each]. destruct (_check_if_valid_port port) eqn:Ep.
    - unfold bind at 1 2. rewrite (execute_not_installed H self _ s Hn). reflexivity.
    - unfold bind at 1. unfold ret at 1. apply IH.
      destruct Hq as [<-|Hq]; [congruence|]. now exists q. }
  split; intros Hc; rewrite E, Hc; reflexivity.
Qed.

(** On an installed instance whose binary no command removes, the method
    issues one command for every valid port of the list, in the order of
    the list, and skips the others; the exit codes of the commands are not
    looked at, and the method returns. *)
Theorem listen_each_valid_port (verb : string) (items : list pyval) (s : state W) :
  PosixPath.isabs (_splunk_home self) = true ->
  binary_persists H self ->
  _binary_exists H self None (world s) = true ->
  listen H self verb (PyList items) s =
  (Ok tt,
   run_states H self
     (map (fun port => verb ++ " listen -port " ++ percent_s port)%string
          (filter _check_if_valid_port items)) s) /\
  enable_listen H self (PyList items) s = listen H self "enable" (PyList items) s /\
  disable_listen H self (PyList items) s = listen H self "disable" (PyList items) s.
Proof.
  intros Hh Hp Hi. split; [|split; reflexivity].
  unfold listen. cbn [iterate]. revert s Hi.
  induction items as [|port rest IH]; intros s Hi; [reflexivity|].
  cbn [listen_each filter]. destruct (_check_if_valid_port port).
  - unfold bind at 1 2.
    rewrite (execute_installed H self _ s Hh Hi). unfold ret at 1.
    cbn [map run_states fold_left]. apply IH. apply Hp. exact Hi.
  - unfold bind at 1. unfold ret at 1. apply IH. exact Hi.
Qed.

End Listen.

Lemma _check_if_valid_port_accepts_witness :
  _check_if_valid_port (PyInt 65535) = true /\
  _check_if_valid_port (PyInt 65536) = false /\
  _check_if_valid_port (PyInt (-1)) = false /\
  _check_if_valid_port (PyLong 8089) = false /\
  _check_if_valid_port (PyStr "8089") = false /\
  _check_if_valid_port (PyBool true) = true.
Proof.
  split.
  - apply _check_if_valid_port_accepts. left. exists 65535%Z. split; [reflexivity|lia].
  - repeat split.
Defined.

Lemma listen_scalar_and_invalid_witness :
  In (PyStr "8089") [PyStr "8089"; PyNone; PyInt 70000] /\
  enable_listen (Fake.host Fake.honest) Fake.local_splunk
    (PyList [PyStr "8089"; PyNone; PyInt 70000]) (Fake.initial Fake.empty_world) =
  (Ok tt, Fake.initial Fake.empty_world).
Proof.
  split; [now left|].
  destruct (listen_scalar_and_invalid (Fake.host Fake.honest) Fake.local_splunk "enable"
              (Fake.initial Fake.empty_world)) as [_ Hnone].
  apply Hnone. intros port [<-|[<-|[<-|[]]]]; reflexivity.
Defined.

Lemma listen_not_installed_witness :
  cls Fake.local_splunk = LocalSplunk /\
  cls Fake.ssh_splunk = SSHSplunk /\
  _binary_exists (Fake.host Fake.honest) Fake.local_splunk None Fake.empty_world = false /\
  _binary_exists (Fake.host Fake.honest) Fake.ssh_splunk None Fake.empty_world = false /\
  _check_if_valid_port (PyInt 9997) = true /\
  disable_listen (Fake.host Fake.honest) Fake.local_splunk (PyList [PyNone; PyInt 9997])
    (Fake.initial Fake.empty_world) =
  (Raise SplunkNotInstalled, Fake.initial Fake.empty_world) /\
  enable_listen (Fake.host Fake.honest) Fake.ssh_splunk (PyList [PyNone; PyInt 9997])
    (Fake.initial Fake.empty_world) =
  (Raise (NameError "SplunkNotInstalled"), Fake.initial Fake.empty_world).
Proof.
  do 5 (split; [reflexivity|]).
  assert (Hex : exists port, In port [PyNone; PyInt 9997] /\ _check_if_valid_port port = true).
  { exists (PyInt 9997). split; [right; now left|reflexivity]. }
  split.
  - destruct (listen_not_installed (Fake.host Fake.honest) Fake.local_splunk "disable"
                [PyNone; PyInt 9997] (Fake.initial Fake.empty_world) eq_refl Hex) as [E _].
    exact (E eq_refl).
  - destruct (listen_not_installed (Fake.host Fake.honest) Fake.ssh_splunk "enable"
                [PyNone; PyInt 9997] (Fake.initial Fake.empty_world) eq_refl Hex) as [_ E].
    exact (E eq_refl).
Defined.

Lemma listen_each_valid_port_witness :
  PosixPath.isabs (_splunk_home Fake.ssh_splunk) = true /\
  binary_persists (Fake.host Fake.honest) Fake.ssh_splunk /\
  _binary_exists (Fake.host Fake.honest) Fake.ssh_splunk None
    (Fake.remote_installed true) = true /\
  enable_listen (Fake.host Fake.honest) Fake.ssh_splunk
    (PyList [PyInt 9997; PyStr "x"; PyInt 70000; PyInt 9998])
    (Fake.initial (Fake.remote_installed true)) =
  (Ok tt,
   mkState (Fake.remote_installed true) None None
     [SSHExecute ("/opt/splunk/bin/splunk enable listen -port 9997 " ++ COMMON_FLAGS);
      SSHExecute ("/opt/splunk/bin/splunk enable listen -port 9998 " ++ COMMON_FLAGS)]).
Proof.
  split; [reflexivity|]. split; [apply Fake_binary_persists|]. split; [reflexivity|].
  destruct (listen_each_valid_port (Fake.host Fake.honest) Fake.ssh_splunk "enable"
              [PyInt 9997; PyStr "x"; PyInt 70000; PyInt 9998]
              (Fake.initial (Fake.remote_installed true))
              eq_refl (Fake_binary_persists _ _) eq_refl) as (E & Een & _).
  rewrite Een, E. reflexivity.
Defined.

(** ** Apps *)

Section AppPaths.

Import PosixPath.

Lemma join2_text (a b : string) :
  PyStr.nonempty a = true -> PyStr.endswith_char "/" a = false -> isabs b = false ->
  join2 a b = (a ++ "/" ++ b)%string.
Proof. intros Hn Hs Hb. unfold join2. now rewrite Hb, Hn, Hs. Qed.

Context (self : Splunk).

(** The path of an app: [home/etc/apps/name] for a relative name, on a
    home that is not empty and does not end in a slash; and the name
    itself when the name is an absolute path, which then lies outside the
    apps directory. *)
Theorem _path_to_app_text (name : string) :
  (isabs name = true -> _path_to_app self name = name) /\
  (isabs name = false ->
   PyStr.nonempty (_splunk_home self) = true ->
   PyStr.endswith_char "/" (_splunk_home self) = false ->
   _path_to_app self name = (_splunk_home self ++ "/etc/apps/" ++ name)%string).
Proof.
  unfold _path_to_app, apps_dir, join. cbn [fold_left]. split.
  - intros Ha. now apply join2_abs.
  - intros Hr Hn Hs.
    rewrite (join2_text (_splunk_home self) "etc" Hn Hs eq_refl).
    assert (E1 : PyStr.nonempty (_splunk_home self ++ "/" ++ "etc") = true)
      by (destruct (_splunk_home self); [discriminate|reflexivity]).
    assert (E2 : PyStr.endswith_char "/" (_splunk_home self ++ "/" ++ "etc") = false).
    { change ("/" ++ "etc")%string with (String "/" "etc").
      rewrite endswith_char_append. reflexivity. }
    rewrite (join2_text _ "apps" E1 E2 eq_refl).
    assert (E3 : PyStr.nonempty ((_splunk_home self ++ "/" ++ "etc") ++ "/" ++ "apps") = true)
      by (destruct (_splunk_home self); [discriminate|reflexivity]).
    assert (E4 : PyStr.endswith_char "/"
                   ((_splunk_home self ++ "/" ++ "etc") ++ "/" ++ "apps") = false).
    { change ("/" ++ "apps")%string with (String "/" "apps").
      rewrite endswith_char_append. reflexivity. }
    rewrite (join2_text _ name E3 E4 Hr).
    rewrite !append_assoc. reflexivity.
Qed.

End AppPaths.

Section AppRemoval.

Context {W : Type} (H : Host W) (self : Splunk).

Variable os_path_isdir : string -> W -> bool.

(** [uninstall_app]: the local class returns [False] without any call
    when the app directory does not exist, and removes the directory and
    returns [True] when it does; the remote class issues the removal of
    the app path over the connection in every case and returns nothing.
    With an absolute name the path removed is the name itself. *)
Theorem uninstall_app_outcomes (name : string) (s : state W) :
  (cls self = LocalSplunk ->
   os_path_isdir (_path_to_app self name) (world s) = false ->
   uninstall_app H self os_path_isdir name s = (Ok (Some false), s)) /\
  (cls self = LocalSplunk ->
   os_path_isdir (_path_to_app self name) (world s) = true ->
   uninstall_app H self os_path_isdir name s =
   (Ok (Some true),
    record_call s (ForceRemoveDirectory (_path_to_app self name))
      (fileutils_force_remove_directory H (_path_to_app self name) (world s)))) /\
  (cls self = SSHSplunk ->
   uninstall_app H self os_path_isdir name s =
   (Ok None,
    record_call s (SSHForceRemoveTree (_path_to_app self name))
      (ssh_force_remove_tree H (_path_to_app self name) (world s)))) /\
  (PosixPath.isabs name = true -> _path_to_app self name = name).
Proof.
  split; [|split; [|split]].
  - intros Hc Ha. unfold uninstall_app, LocalSplunk_uninstall_app, has_app,
      LocalSplunk_has_app, bind, ask. now rewrite Hc, Ha.
  - intros Hc Ha. unfold uninstall_app, LocalSplunk_uninstall_app, has_app,
      LocalSplunk_has_app, bind, ask. now rewrite Hc, Ha.
  - intros Hc. unfold uninstall_app, SSHSplunk_uninstall_app. now rewrite Hc.
  - intros Ha. unfold _path_to_app, PosixPath.join. cbn [fold_left].
    now apply join2_abs.
Qed.

(** [SSHSplunk.install_app] on an app that is on the remote host: the
    scratch directory [tmp/ssh_splunk_temp_name] is created, the package
    extracted into it and the directory sent to the app path, then
    removed.  When the creation raises (the directory is there already)
    nothing is extracted or sent, and the directory is removed; when the
    extraction raises nothing is sent, and the directory is removed. *)
Theorem SSHSplunk_install_app_steps (name package : string) (s : state W) :
  let path := PosixPath.join (tempfile_gettempdir H (world s)) ["ssh_splunk_temp_" ++ name] in
  let removed (st : state W) :=
    record_call st (ForceRemoveDirectory path)
      (fileutils_force_remove_directory H path (world st)) in
  cls self = SSHSplunk ->
  ssh_isdir H (_path_to_app self name) (world s) = true ->
  (forall why w1,
      os_makedirs H path (world s) = (Failed why, w1) ->
      install_app H self name package s =
      (Raise (External why), removed (record_call s (Makedirs path) w1))) /\
  (forall w1 why w2,
      os_makedirs H path (world s) = (Done tt, w1) ->
      archiver_extract H package path w1 = (Failed why, w2) ->
      install_app H self name package s =
      (Raise (External why),
       removed (record_call (record_call s (Makedirs path) w1)
                  (ArchiverExtract package path) w2))) /\
  (forall w1 w2 w3,
      os_makedirs H path (world s) = (Done tt, w1) ->
      archiver_extract H package path w1 = (Done tt, w2) ->
      ssh_send H path (_path_to_app self name) w2 = (Done tt, w3) ->
      install_app H self name package s =
      (Ok (Some true),
       removed (record_call (record_call (record_call s (Makedirs path) w1)
                               (ArchiverExtract package path) w2)
                  (SSHSend path (_path_to_app self name)) w3))).
Proof.
  intros path removed Hc Ha.
  pose proof (SSHSplunk_install_app_present H self name package s Hc Ha) as E.
  cbv zeta in E. fold path in E.
  set (body := bind (attempt (Makedirs path) (os_makedirs H path))
                    (fun _ => bind (_install_app_with_tempdir H self name package path)
                                   (fun _ => ret (Some true)))) in E.
  split; [|split].
  - intros why w1 Em.
    assert (Eb : body s = (Raise (External why), record_call s (Makedirs path) w1)).
    { unfold body. unfold bind at 1. unfold attempt at 1. now rewrite Em. }
    rewrite E, Eb. reflexivity.
  - intros w1 why w2 Em Ex.
    assert (Eb : body s =
                 (Raise (External why),
                  record_call (record_call s (Makedirs path) w1)
                    (ArchiverExtract package path) w2)).
    { unfold body. unfold bind at 1. unfold attempt at 1. rewrite Em.
      unfold _install_app_with_tempdir. unfold bind at 1 2. unfold attempt at 1.
      cbn [world record_call]. now rewrite Ex. }
    rewrite E, Eb. reflexivity.
  - intros w1 w2 w3 Em Ex Es.
    assert (Eb : body s =
                 (Ok (Some true),
                  record_call (record_call (record_call s (Makedirs path) w1)
                                 (ArchiverExtract package path) w2)
                    (SSHSend path (_path_to_app self name)) w3)).
    { unfold body. unfold bind at 1. unfold attempt at 1. rewrite Em.
      unfold _install_app_with_tempdir. unfold bind at 1 2. unfold attempt at 1.
      cbn [world record_call]. rewrite Ex. unfold attempt.
      cbn [world record_call]. now rewrite Es. }
    rewrite E, Eb. reflexivity.
Qed.

End AppRemoval.

Lemma _path_to_app_text_witness :
  _path_to_app Fake.local_splunk "search" = "/opt/splunk/etc/apps/search" /\
  _path_to_app Fake.local_splunk "/etc" = "/etc".
Proof.
  destruct (_path_to_app_text Fake.local_splunk "search") as [_ Hrel].
  destruct (_path_to_app_text Fake.local_splunk "/etc") as [Habs _].
  split; [exact (Hrel eq_refl eq_refl eq_refl)|exact (Habs eq_refl)].
Defined.

Lemma uninstall_app_outcomes_witness :
  uninstall_app (Fake.host Fake.honest) Fake.local_splunk FakeMore.os_path_isdir "search"
    (Fake.initial (Fake.local_installed true)) =
  (Ok (Some false), Fake.initial (Fake.local_installed true)) /\
  uninstall_app (Fake.host Fake.honest) Fake.local_splunk FakeMore.os_path_isdir "search"
    (Fake.initial FakeMore.local_with_app) =
  (Ok (Some true),
   mkState (Fake.local_installed false) None None
     [ForceRemoveDirectory "/opt/splunk/etc/apps/search"]) /\
  uninstall_app (Fake.host Fake.honest) Fake.ssh_splunk FakeMore.os_path_isdir "search"
    (Fake.initial (Fake.remote_installed true)) =
  (Ok None,
   mkState (Fake.remote_installed true) None None
     [SSHForceRemoveTree "/opt/splunk/etc/apps/search"]).
Proof.
  destruct (uninstall_app_outcomes (Fake.host Fake.honest) Fake.local_splunk
              FakeMore.os_path_isdir "search" (Fake.initial (Fake.local_installed true)))
    as (Habsent & _).
  destruct (uninstall_app_outcomes (Fake.host Fake.honest) Fake.local_splunk
              FakeMore.os_path_isdir "search" (Fake.initial FakeMore.local_with_app))
    as (_ & Hpresent & _).
  destruct (uninstall_app_outcomes (Fake.host Fake.honest) Fake.ssh_splunk
              FakeMore.os_path_isdir "search" (Fake.initial (Fake.remote_installed true)))
    as (_ & _ & Hremote & _).
  split; [exact (Habsent eq_refl eq_refl)|]. split.
  - rewrite (Hpresent eq_refl eq_refl). reflexivity.
  - rewrite (Hremote eq_refl). reflexivity.
Defined.

(** The scratch directory of a run that was cut short is still there:
    the next [install_app] raises and removes it. *)
Lemma SSHSplunk_install_app_steps_witness :
  cls Fake.ssh_splunk = SSHSplunk /\
  install_app (Fake.host Fake.honest) Fake.ssh_splunk "myapp" "/tmp/myapp.tgz"
    (Fake.initial
       (Fake.mkWorld [("/tmp/ssh_splunk_temp_myapp", Fake.Dir)]
                     (Fake.tree "/opt/splunk" ++ [("/opt/splunk/etc/apps/myapp", Fake.Dir)])
                     true 0)) =
  (Raise (External "File exists"),
   mkState (Fake.mkWorld []
              (Fake.tree "/opt/splunk" ++ [("/opt/splunk/etc/apps/myapp", Fake.Dir)])
              true 0) None None
     [Makedirs "/tmp/ssh_splunk_temp_myapp";
      ForceRemoveDirectory "/tmp/ssh_splunk_temp_myapp"]).
Proof.
  split; [reflexivity|].
  destruct (SSHSplunk_install_app_steps (Fake.host Fake.honest) Fake.ssh_splunk
              "myapp" "/tmp/myapp.tgz"
              (Fake.initial
                 (Fake.mkWorld [("/tmp/ssh_splunk_temp_myapp", Fake.Dir)]
                    (Fake.tree "/opt/splunk" ++ [("/opt/splunk/etc/apps/myapp", Fake.Dir)])
                    true 0)) eq_refl eq_refl) as (Hexists & _).
  rewrite (Hexists "File exists" _ eq_refl). reflexivity.
Defined.

(** ** The platform of the remote host *)

Section Platform.

Context {W : Type} (H : Host W).

Variable P : Type.
Variable splunk_platform_get_platform : string -> string -> reply P.

(** [_get_host_platform] asks the remote host for its OS and then for its
    architecture, over the connection and without the splunk binary.  An
    OS query that exits with a code other than 0 raises
    [CouldNotDetermineHostOS] with its stderr, and the architecture is not
    asked for; an architecture query that exits with a code other than 0
    raises [CouldNotDetermineHostArchitecture] with its stderr; otherwise
    the platform is looked up with the two outputs as they were printed. *)
Theorem _get_host_platform_steps (s : state W) :
  let r1 := fst (ssh_execute H host_os_command (world s)) in
  let s1 := record_call s (SSHExecute host_os_command)
              (snd (ssh_execute H host_os_command (world s))) in
  let r2 := fst (ssh_execute H host_architecture_command (world s1)) in
  let s2 := record_call s1 (SSHExecute host_architecture_command)
              (snd (ssh_execute H host_architecture_command (world s1))) in
  (exit_code r1 <> 0%Z ->
   _get_host_platform H P splunk_platform_get_platform s =
   (RaisedMore (CouldNotDetermineHostOS (stderr_of r1)), s1)) /\
  (exit_code r1 = 0%Z -> exit_code r2 <> 0%Z ->
   _get_host_platform H P splunk_platform_get_platform s =
   (RaisedMore (CouldNotDetermineHostArchitecture (stderr_of r2)), s2)) /\
  (exit_code r1 = 0%Z -> exit_code r2 = 0%Z ->
   _get_host_platform H P splunk_platform_get_platform s =
   (match splunk_platform_get_platform (stdout_of r1) (stdout_of r2) with
    | Done p => Returned p
    | Failed why => Raised (External why)
    end, s2)).
Proof.
  intros r1 s1 r2 s2.
  assert (E1 : _get_host_os H s =
               (if negb (Z.eqb (exit_code r1) 0)
                then RaisedMore (CouldNotDetermineHostOS (stderr_of r1))
                else Returned (stdout_of r1), s1)).
  { unfold _get_host_os, bind_more, lift_more, perform, s1, r1, exit_code, stdout_of,
      stderr_of.
    destruct (ssh_execute H host_os_command (world s)) as [[[code out] err] w].
    cbn [fst snd]. destruct (negb (Z.eqb code 0)); reflexivity. }
  assert (E2 : _get_host_architecture H s1 =
               (if negb (Z.eqb (exit_code r2) 0)
                then RaisedMore (CouldNotDetermineHostArchitecture (stderr_of r2))
                else Returned (stdout_of r2), s2)).
  { unfold _get_host_architecture, bind_more, lift_more, perform, s2, r2, exit_code,
      stdout_of, stderr_of.
    destruct (ssh_execute H host_architecture_command (world s1)) as [[[code out] err] w].
    cbn [fst snd]. destruct (negb (Z.eqb code 0)); reflexivity. }
  unfold _get_host_platform.
  split; [|split].
  - intros Hc. unfold bind_more at 1. rewrite E1.
    apply Z.eqb_neq in Hc. now rewrite Hc.
  - intros Hc1 Hc2. unfold bind_more at 1. rewrite E1.
    apply Z.eqb_eq in Hc1. rewrite Hc1. cbn [negb].
    unfold bind_more. rewrite E2. apply Z.eqb_neq in Hc2. now rewrite Hc2.
  - intros Hc1 Hc2. unfold bind_more at 1. rewrite E1.
    apply Z.eqb_eq in Hc1. rewrite Hc1. cbn [negb].
    unfold bind_more. rewrite E2. apply Z.eqb_eq in Hc2. rewrite Hc2. cbn [negb].
    destruct (splunk_platform_get_platform (stdout_of r1) (stdout_of r2)); reflexivity.
Qed.

End Platform.

(** The fake answers a command it does not know with the code 1: the OS
    query fails and the architecture is not asked for. *)
Lemma _get_host_platform_steps_witness :
  exit_code (fst (ssh_execute (Fake.host Fake.honest) host_os_command Fake.empty_world)) <>
  0%Z /\
  _get_host_platform (Fake.host Fake.honest) string (fun o a => Done (o ++ "-" ++ a)%string)
    (Fake.initial Fake.empty_world) =
  (RaisedMore (CouldNotDetermineHostOS "unknown command"),
   mkState Fake.empty_world None None [SSHExecute host_os_command]).
Proof.
  split; [discriminate|].
  destruct (_get_host_platform_steps (Fake.host Fake.honest) string
              (fun o a => Done (o ++ "-" ++ a)%string) (Fake.initial Fake.empty_world))
    as (Hos & _).
  apply Hos. discriminate.
Defined.

(** ** Install from a package *)

Section Package.

Context {W : Type} (H : Host W) (self : Splunk).

Variable package_download : W -> reply string * W.
Variable os_remove : string -> W -> reply unit * W.

(** [install_from_package]: when the download raises, nothing is
    installed and nothing is removed.  After a download, the archive is
    installed and the downloaded file is removed whatever the outcome of
    the install; the outcome of the whole is that of the install when the
    removal goes through, and the exception of the removal when it
    raises, also when the install had raised. *)
Theorem install_from_package_removes_download (s : state W) :
  (forall why w1,
      package_download (world s) = (Failed why, w1) ->
      install_from_package H self package_download os_remove s =
      (Raise (External why), mkState w1 (_splunkd_port s) (_web_port s) (calls s))) /\
  (forall pkg w1 r s2 removed w3,
      package_download (world s) = (Done pkg, w1) ->
      install_from_archive H self pkg
        (mkState w1 (_splunkd_port s) (_web_port s) (calls s)) = (r, s2) ->
      os_remove pkg (world s2) = (removed, w3) ->
      install_from_package H self package_download os_remove s =
      (match removed with
       | Done _ => r
       | Failed why => Raise (External why)
       end,
       mkState w3 (_splunkd_port s2) (_web_port s2) (calls s2))).
Proof.
  split.
  - intros why w1 Ed. unfold install_from_package. unfold bind, unrecorded.
    now rewrite Ed.
  - intros pkg w1 r s2 removed w3 Ed Ei Er.
    unfold install_from_package. unfold bind. unfold unrecorded at 1. rewrite Ed.
    unfold try_finally. rewrite Ei. unfold unrecorded. rewrite Er.
    destruct removed as [[]|why]; reflexivity.
Qed.

End Package.

(** A package that is no archive: the install raises and the file is
    removed; and an install that raises while the removal raises too. *)
Lemma install_from_package_removes_download_witness :
  (fst (install_from_package (Fake.host Fake.honest) Fake.local_splunk
          (FakeMore.download_to "/tmp/broken.tgz") FakeMore.os_remove
          (Fake.initial Fake.empty_world)) = Raise (External "not an archive") /\
   os_path_exists (Fake.host Fake.honest) "/tmp/broken.tgz"
     (world (snd (install_from_package (Fake.host Fake.honest) Fake.local_splunk
                    (FakeMore.download_to "/tmp/broken.tgz") FakeMore.os_remove
                    (Fake.initial Fake.empty_world)))) = false) /\
  fst (install_from_package (Fake.host Fake.honest) Fake.local_splunk
         (fun w => (Done "/tmp/gone.tgz", w)) FakeMore.os_remove
         (Fake.initial Fake.empty_world)) = Raise (External "No such file or directory").
Proof.
  destruct (install_from_package_removes_download (Fake.host Fake.honest) Fake.local_splunk
              (FakeMore.download_to "/tmp/broken.tgz") FakeMore.os_remove
              (Fake.initial Fake.empty_world)) as [_ Hbroken].
  destruct (install_from_package_removes_download (Fake.host Fake.honest) Fake.local_splunk
              (fun w => (Done "/tmp/gone.tgz", w)) FakeMore.os_remove
              (Fake.initial Fake.empty_world)) as [_ Hgone].
  split.
  - erewrite Hbroken by reflexivity. split; reflexivity.
  - erewrite Hgone by reflexivity. reflexivity.
Defined.

(** ** The hosts of the test helper *)

Section Hosts.

Lemma next_host_index (hosts : list string) (current : nat) :
  (0 < List.length hosts)%nat -> (current <= List.length hosts)%nat ->
  next_host hosts current =
  Some (nth (current mod List.length hosts) hosts EmptyString,
        S (current mod List.length hosts)).
Proof.
  intros Hn Hc. unfold next_host.
  apply Nat.ltb_lt in Hn as Hn'. rewrite Hn'.
  destruct (Nat.leb (List.length hosts) current) eqn:E.
  - apply Nat.leb_le in E. assert (current = List.length hosts) by lia. subst current.
    rewrite Nat.Div0.mod_same.
    destruct hosts as [|h t]; [cbn in Hn; lia|reflexivity].
  - apply Nat.leb_gt in E. rewrite (Nat.mod_small _ _ E).
    destruct (nth_error hosts current) as [h|] eqn:En.
    + now rewrite (nth_error_nth _ _ EmptyString En).
    + apply nth_error_None in En. lia.
Qed.

(** [next_host] hands the hosts out in turn: from an index within the
    list, the calls return the hosts at the positions [current],
    [current + 1], ... taken modulo the number of hosts, and the index
    stays within the list.  On an empty list the call fails (its
    assertion). *)
Theorem next_host_round_robin (hosts : list string) (current n : nat) :
  (hosts = [] -> next_host hosts current = None) /\
  ((0 < List.length hosts)%nat -> (current <= List.length hosts)%nat ->
   exists final,
     next_hosts hosts current n =
     Some (map (fun k => nth ((current + k) mod List.length hosts) hosts EmptyString)
               (seq 0 n), final) /\
     (final <= List.length hosts)%nat).
Proof.
  split; [intros ->; reflexivity|].
  intros Hn. revert current.
  induction n as [|n IH]; intros current Hc.
  - exists current. split; [reflexivity|exact Hc].
  - cbn [next_hosts]. rewrite (next_host_index hosts current Hn Hc).
    assert (Hlt : (current mod List.length hosts < List.length hosts)%nat)
      by (apply Nat.mod_upper_bound; lia).
    destruct (IH (S (current mod List.length hosts)) Hlt) as (final & E & Hf).
    rewrite E. exists final. split; [|exact Hf].
    cbn [seq map]. rewrite Nat.add_0_r. f_equal. f_equal. f_equal.
    rewrite <- seq_shift, map_map. apply map_ext. intros k.
    f_equal.
    replace (S (current mod List.length hosts) + k)%nat
      with (current mod List.length hosts + S k)%nat by lia.
    now rewrite Nat.Div0.add_mod_idemp_l.
Qed.

End Hosts.

Lemma next_host_round_robin_witness :
  (0 < List.length ["a"; "b"; "c"])%nat /\
  option_map fst (next_hosts ["a"; "b"; "c"] 0 7) =
  Some ["a"; "b"; "c"; "a"; "b"; "c"; "a"].
Proof.
  split; [cbn; lia|].
  destruct (next_host_round_robin ["a"; "b"; "c"] 0 7) as [_ Hrr].
  destruct (Hrr ltac:(cbn; lia) ltac:(cbn; lia)) as (final & E & _).
  rewrite E. reflexivity.
Defined.
